(** * A shallow embedding of the nation simulation core

    The development follows the layout of the Python sources under
    [game/]: one module per source file ([constants.py],
    [models/economy.py], [models/population.py], [models/government.py],
    [models/country.py], [models/diplomacy.py]), definitions first, the
    verified properties afterwards.

    Modelling conventions.
    - Python numbers that take part in arithmetic are rationals [Q]; the
      arithmetic of the sources is therefore read exactly (no rounding).
      Integer-only quantities (the election countdown, cooldowns) are [Z].
      Where a property depends on rounding, the function is given a
      second time on binary64 floats (module [Binary64]).
    - Every call of [random.uniform] or [random.random] becomes an explicit
      argument of the embedded function, named after the variable that
      receives the draw in the source.
    - Objects that are shared by reference (countries referenced by a
      relation, the ruling party inside the roster) live in a store and are
      referenced by key: a country by its unique name, the ruling party by
      its index in the roster.  In-place mutation is a read-modify-write on
      the store, executed in the order of the source statements.
    - An uncaught Python exception is the result [None]. *)

From Stdlib Require Import QArith Lqa ZArith String List Bool.
From Stdlib Require Floats.PrimFloat.
From stdpp Require Import gmap strings list fin_maps.

Set Warnings "-inexact-float".

(** ** Python numeric helpers *)

Module Py.

Local Open Scope Q_scope.

(** [x < y] on rationals, as a boolean test. *)
Definition ltb (x y : Q) : bool := negb (Qle_bool y x).

(** [max(a, b)]: Python returns the first argument unless the second is
    strictly larger. *)
Definition max (a b : Q) : Q := if ltb a b then b else a.

(** [min(a, b)]: Python returns the first argument unless the second is
    strictly smaller. *)
Definition min (a b : Q) : Q := if ltb b a then b else a.

(** [abs(x)]. *)
Definition abs (x : Q) : Q := if ltb x 0 then - x else x.

(** [sum(xs)]: left fold starting from 0. *)
Definition sum (xs : list Q) : Q := fold_left Qplus xs 0.

End Py.

(** ** game/constants.py *)

Module Constants.

Local Open Scope Q_scope.

Definition BASE_TAX_RATE : Q := 0.15.
Definition MIN_TAX_RATE : Q := 0.05.
Definition MAX_TAX_RATE : Q := 0.50.
Definition BASE_GDP_GROWTH : Q := 0.02.

Definition BASE_POPULATION_GROWTH : Q := 0.01.
Definition MAX_POPULATION_GROWTH : Q := 0.03.
Definition BASE_HAPPINESS : Q := 50.
Definition MIN_HAPPINESS : Q := 0.
Definition MAX_HAPPINESS : Q := 100.

(** The keys of the [GOVERNMENT_TYPES] dictionary, in insertion order. *)
Inductive GovType : Type := democracy | monarchy | dictatorship | republic.

#[export] Instance GovType_eq_dec : EqDecision GovType.
Proof. solve_decision. Defined.

Record GovData : Type := mkGovData {
  display_name : string;
  election_frequency : Z;
  corruption_resistance : Q;
  stability_bonus : Q;
  growth_modifier : Q
}.

(** [GOVERNMENT_TYPES[t]] for a key [t]. *)
Definition GOVERNMENT_TYPES (t : GovType) : GovData :=
  match t with
  | democracy => mkGovData "Democracy" 4 0.8 0.1 1.0
  | monarchy => mkGovData "Monarchy" 0 0.5 0.2 0.9
  | dictatorship => mkGovData "Dictatorship" 0 0.3 (-0.1) 1.1
  | republic => mkGovData "Republic" 6 0.7 0.05 1.05
  end.

(** [list(GOVERNMENT_TYPES.keys())]. *)
Definition government_type_keys : list GovType :=
  [democracy; monarchy; dictatorship; republic].

(** The string spelling of a key, and the test [s in GOVERNMENT_TYPES]
    together with the key found. *)
Definition key_string (t : GovType) : string :=
  match t with
  | democracy => "democracy"
  | monarchy => "monarchy"
  | dictatorship => "dictatorship"
  | republic => "republic"
  end.

Definition lookup_key (s : string) : option GovType :=
  find (fun t => String.eqb s (key_string t)) government_type_keys.

End Constants.

(** ** game/models/economy.py *)

Module Economy.

Import Constants.
Local Open Scope Q_scope.

Record Economy : Type := mkEconomy {
  gdp : Q;
  population : Q;
  tax_rate : Q;
  government_budget : Q;
  debt : Q;
  inflation : Q;
  unemployment : Q;
  agriculture : Q;
  industry : Q;
  services : Q;
  interest_rate : Q;
  trade_balance : Q;
  healthcare_spending : Q;
  education_spending : Q;
  military_spending : Q;
  infrastructure_spending : Q;
  welfare_spending : Q;
  other_spending : Q
}.

Definition with_gdp (v : Q) (o : Economy) : Economy :=
  {| gdp := v; population := population o; tax_rate := tax_rate o;
     government_budget := government_budget o; debt := debt o;
     inflation := inflation o; unemployment := unemployment o;
     agriculture := agriculture o; industry := industry o;
     services := services o; interest_rate := interest_rate o;
     trade_balance := trade_balance o;
     healthcare_spending := healthcare_spending o;
     education_spending := education_spending o;
     military_spending := military_spending o;
     infrastructure_spending := infrastructure_spending o;
     welfare_spending := welfare_spending o;
     other_spending := other_spending o |}.

Definition with_population (v : Q) (o : Economy) : Economy :=
  {| gdp := gdp o; population := v; tax_rate := tax_rate o;
     government_budget := government_budget o; debt := debt o;
     inflation := inflation o; unemployment := unemployment o;
     agriculture := agriculture o; industry := industry o;
     services := services o; interest_rate := interest_rate o;
     trade_balance := trade_balance o;
     healthcare_spending := healthcare_spending o;
     education_spending := education_spending o;
     military_spending := military_spending o;
     infrastructure_spending := infrastructure_spending o;
     welfare_spending := welfare_spending o;
     other_spending := other_spending o |}.

Definition with_tax_rate (v : Q) (o : Economy) : Economy :=
  {| gdp := gdp o; population := population o; tax_rate := v;
     government_budget := government_budget o; debt := debt o;
     inflation := inflation o; unemployment := unemployment o;
     agriculture := agriculture o; industry := industry o;
     services := services o; interest_rate := interest_rate o;
     trade_balance := trade_balance o;
     healthcare_spending := healthcare_spending o;
     education_spending := education_spending o;
     military_spending := military_spending o;
     infrastructure_spending := infrastructure_spending o;
     welfare_spending := welfare_spending o;
     other_spending := other_spending o |}.

Definition with_government_budget (v : Q) (o : Economy) : Economy :=
  {| gdp := gdp o; population := population o; tax_rate := tax_rate o;
     government_budget := v; debt := debt o; inflation := inflation o;
     unemployment := unemployment o; agriculture := agriculture o;
     industry := industry o; services := services o;
     interest_rate := interest_rate o; trade_balance := trade_balance o;
     healthcare_spending := healthcare_spending o;
     education_spending := education_spending o;
     military_spending := military_spending o;
     infrastructure_spending := infrastructure_spending o;
     welfare_spending := welfare_spending o;
     other_spending := other_spending o |}.

Definition with_debt (v : Q) (o : Economy) : Economy :=
  {| gdp := gdp o; population := population o; tax_rate := tax_rate o;
     government_budget := government_budget o; debt := v;
     inflation := inflation o; unemployment := unemployment o;
     agriculture := agriculture o; industry := industry o;
     services := services o; interest_rate := interest_rate o;
     trade_balance := trade_balance o;
     healthcare_spending := healthcare_spending o;
     education_spending := education_spending o;
     military_spending := military_spending o;
     infrastructure_spending := infrastructure_spending o;
     welfare_spending := welfare_spending o;
     other_spending := other_spending o |}.

Definition with_unemployment (v : Q) (o : Economy) : Economy :=
  {| gdp := gdp o; population := population o; tax_rate := tax_rate o;
     government_budget := government_budget o; debt := debt o;
     inflation := inflation o; unemployment := v;
     agriculture := agriculture o; industry := industry o;
     services := services o; interest_rate := interest_rate o;
     trade_balance := trade_balance o;
     healthcare_spending := healthcare_spending o;
     education_spending := education_spending o;
     military_spending := military_spending o;
     infrastructure_spending := infrastructure_spending o;
     welfare_spending := welfare_spending o;
     other_spending := other_spending o |}.

Definition with_trade_balance (v : Q) (o : Economy) : Economy :=
  {| gdp := gdp o; population := population o; tax_rate := tax_rate o;
     government_budget := government_budget o; debt := debt o;
     inflation := inflation o; unemployment := unemployment o;
     agriculture := agriculture o; industry := industry o;
     services := services o; interest_rate := interest_rate o;
     trade_balance := v; healthcare_spending := healthcare_spending o;
     education_spending := education_spending o;
     military_spending := military_spending o;
     infrastructure_spending := infrastructure_spending o;
     welfare_spending := welfare_spending o;
     other_spending := other_spending o |}.

Definition with_healthcare_spending (v : Q) (o : Economy) : Economy :=
  {| gdp := gdp o; population := population o; tax_rate := tax_rate o;
     government_budget := government_budget o; debt := debt o;
     inflation := inflation o; unemployment := unemployment o;
     agriculture := agriculture o; industry := industry o;
     services := services o; interest_rate := interest_rate o;
     trade_balance := trade_balance o; healthcare_spending := v;
     education_spending := education_spending o;
     military_spending := military_spending o;
     infrastructure_spending := infrastructure_spending o;
     welfare_spending := welfare_spending o;
     other_spending := other_spending o |}.

Definition with_education_spending (v : Q) (o : Economy) : Economy :=
  {| gdp := gdp o; population := population o; tax_rate := tax_rate o;
     government_budget := government_budget o; debt := debt o;
     inflation := inflation o; unemployment := unemployment o;
     agriculture := agriculture o; industry := industry o;
     services := services o; interest_rate := interest_rate o;
     trade_balance := trade_balance o;
     healthcare_spending := healthcare_spending o; education_spending := v;
     military_spending := military_spending o;
     infrastructure_spending := infrastructure_spending o;
     welfare_spending := welfare_spending o;
     other_spending := other_spending o |}.

Definition with_military_spending (v : Q) (o : Economy) : Economy :=
  {| gdp := gdp o; population := population o; tax_rate := tax_rate o;
     government_budget := government_budget o; debt := debt o;
     inflation := inflation o; unemployment := unemployment o;
     agriculture := agriculture o; industry := industry o;
     services := services o; interest_rate := interest_rate o;
     trade_balance := trade_balance o;
     healthcare_spending := healthcare_spending o;
     education_spending := education_spending o; military_spending := v;
     infrastructure_spending := infrastructure_spending o;
     welfare_spending := welfare_spending o;
     other_spending := other_spending o |}.

Definition with_infrastructure_spending (v : Q) (o : Economy) : Economy :=
  {| gdp := gdp o; population := population o; tax_rate := tax_rate o;
     government_budget := government_budget o; debt := debt o;
     inflation := inflation o; unemployment := unemployment o;
     agriculture := agriculture o; industry := industry o;
     services := services o; interest_rate := interest_rate o;
     trade_balance := trade_balance o;
     healthcare_spending := healthcare_spending o;
     education_spending := education_spending o;
     military_spending := military_spending o; infrastructure_spending := v;
     welfare_spending := welfare_spending o;
     other_spending := other_spending o |}.

Definition with_welfare_spending (v : Q) (o : Economy) : Economy :=
  {| gdp := gdp o; population := population o; tax_rate := tax_rate o;
     government_budget := government_budget o; debt := debt o;
     inflation := inflation o; unemployment := unemployment o;
     agriculture := agriculture o; industry := industry o;
     services := services o; interest_rate := interest_rate o;
     trade_balance := trade_balance o;
     healthcare_spending := healthcare_spending o;
     education_spending := education_spending o;
     military_spending := military_spending o;
     infrastructure_spending := infrastructure_spending o;
     welfare_spending := v; other_spending := other_spending o |}.

Definition with_other_spending (v : Q) (o : Economy) : Economy :=
  {| gdp := gdp o; population := population o; tax_rate := tax_rate o;
     government_budget := government_budget o; debt := debt o;
     inflation := inflation o; unemployment := unemployment o;
     agriculture := agriculture o; industry := industry o;
     services := services o; interest_rate := interest_rate o;
     trade_balance := trade_balance o;
     healthcare_spending := healthcare_spending o;
     education_spending := education_spending o;
     military_spending := military_spending o;
     infrastructure_spending := infrastructure_spending o;
     welfare_spending := welfare_spending o; other_spending := v |}.

(** [Economy.__init__]. *)
Definition init (initial_gdp initial_population : Q) : Economy :=
  {| gdp := initial_gdp; population := initial_population;
     tax_rate := BASE_TAX_RATE; government_budget := initial_gdp * 0.2;
     debt := 0; inflation := 0.02; unemployment := 0.05;
     agriculture := 0.15; industry := 0.35; services := 0.50;
     interest_rate := 0.03; trade_balance := 0;
     healthcare_spending := 0.15; education_spending := 0.20;
     military_spending := 0.10; infrastructure_spending := 0.20;
     welfare_spending := 0.15; other_spending := 0.20 |}.

Definition calculate_tax_revenue (e : Economy) : Q := gdp e * tax_rate e.

Definition calculate_gdp_per_capita (e : Economy) : Q :=
  if Py.ltb 0 (population e) then gdp e / population e else 0.

(** [update_gdp]; [noise] is the draw of [random.uniform(-0.01, 0.01)]. *)
Definition update_gdp (growth_modifier stability_bonus noise : Q)
    (e : Economy) : Economy :=
  let base_growth := BASE_GDP_GROWTH in
  let unemployment_penalty := unemployment e * 0.5 in
  let inflation_effect :=
    if Py.ltb (inflation e) 0.02 then 0.01
    else if Py.ltb (inflation e) 0.05 then 0.005
    else - inflation e * 0.3 in
  let education_bonus := education_spending e * 0.1 in
  let infrastructure_bonus := infrastructure_spending e * 0.08 in
  let total_growth :=
    (base_growth + stability_bonus + inflation_effect + education_bonus
     + infrastructure_bonus - unemployment_penalty) * growth_modifier in
  let total_growth := total_growth + noise in
  let e := with_gdp (gdp e * (1 + total_growth)) e in
  with_trade_balance ((total_growth - 0.02) * gdp e * 0.1) e.

Definition set_tax_rate (new_rate : Q) (e : Economy) : Economy :=
  with_tax_rate (Py.max MIN_TAX_RATE (Py.min MAX_TAX_RATE new_rate)) e.

(** One keyword argument of [allocate_budget]: [None] leaves the share as
    it is, a value is clamped into [[0, 1]] and stored. *)
Definition assign_share (arg : option Q) (store : Q -> Economy -> Economy)
    (e : Economy) : Economy :=
  match arg with
  | Some v => store (Py.max 0 (Py.min 1 v)) e
  | None => e
  end.

Definition allocate_budget
    (healthcare education military infrastructure welfare : option Q)
    (e : Economy) : Economy :=
  let e := assign_share healthcare with_healthcare_spending e in
  let e := assign_share education with_education_spending e in
  let e := assign_share military with_military_spending e in
  let e := assign_share infrastructure with_infrastructure_spending e in
  let e := assign_share welfare with_welfare_spending e in
  let total :=
    healthcare_spending e + education_spending e + military_spending e
    + infrastructure_spending e + welfare_spending e in
  let e :=
    if Py.ltb 1 total then
      let scale := 1 / total in
      let e := with_healthcare_spending (healthcare_spending e * scale) e in
      let e := with_education_spending (education_spending e * scale) e in
      let e := with_military_spending (military_spending e * scale) e in
      let e :=
        with_infrastructure_spending (infrastructure_spending e * scale) e in
      with_welfare_spending (welfare_spending e * scale) e
    else e in
  with_other_spending (Py.max 0 (1 - total)) e.

(** The debt branch of [update_budget] for given [spending] and
    [revenue]. *)
Definition reconcile_debt (spending revenue : Q) (e : Economy) : Economy :=
  if Py.ltb revenue spending then
    with_debt (debt e + (spending - revenue)) e
  else if Py.ltb spending revenue then
    let debt_payment := Py.min (debt e) ((revenue - spending) * 0.5) in
    with_debt (debt e - debt_payment) e
  else e.

Definition update_budget (e : Economy) : Economy :=
  let revenue := calculate_tax_revenue e in
  let spending := revenue in
  let e := reconcile_debt spending revenue e in
  with_government_budget revenue e.

Definition get_economic_health (e : Economy) : Q :=
  let gdp_per_capita := calculate_gdp_per_capita e in
  let base_score := Py.min 100 (gdp_per_capita / 500) in
  let unemployment_penalty := unemployment e * 100 in
  let inflation_bonus :=
    if Py.ltb (inflation e) 0.02 then 10
    else if Py.ltb (inflation e) 0.05 then 5
    else - inflation e * 200 in
  let debt_ratio := if Py.ltb 0 (gdp e) then debt e / gdp e else 0 in
  let debt_penalty := Py.min 30 (debt_ratio * 50) in
  let health :=
    base_score - unemployment_penalty + inflation_bonus - debt_penalty in
  Py.max 0 (Py.min 100 health).

Definition trigger_economic_event (event_type : string) (e : Economy)
    : Economy :=
  if String.eqb event_type "recession" then
    with_unemployment (unemployment e + 0.02) (with_gdp (gdp e * 0.95) e)
  else if String.eqb event_type "boom" then
    with_unemployment (Py.max 0.02 (unemployment e - 0.01))
      (with_gdp (gdp e * 1.05) e)
  else if String.eqb event_type "market_crash" then
    with_unemployment (unemployment e + 0.03) (with_gdp (gdp e * 0.9) e)
  else if String.eqb event_type "tech_breakthrough" then
    with_unemployment (Py.max 0.02 (unemployment e - 0.005))
      (with_gdp (gdp e * 1.03) e)
  else e.

End Economy.

(** ** game/models/economy.py and ui/ui_components.py on binary64 floats

    Python floats are IEEE 754 binary64 numbers whose arithmetic rounds
    to nearest, ties to even; Rocq's primitive floats are the same
    numbers with the same arithmetic, and a decimal literal denotes the
    nearest binary64 number in both.  This module gives
    [Economy.allocate_budget] once more, on these numbers, for the
    properties that depend on rounding. *)

Module Binary64.

Import PrimFloat.
Local Open Scope float_scope.

(** [max(a, b)] and [min(a, b)], as in [Py]. *)
Definition max (a b : float) : float := if ltb a b then b else a.

Definition min (a b : float) : float := if ltb b a then b else a.

(** The six budget attributes of an [Economy] object, the only ones that
    [allocate_budget] reads or writes. *)
Record Budget : Type := mkBudget {
  healthcare_spending : float;
  education_spending : float;
  military_spending : float;
  infrastructure_spending : float;
  welfare_spending : float;
  other_spending : float
}.

Definition with_healthcare_spending (v : float) (o : Budget) : Budget :=
  mkBudget v (education_spending o) (military_spending o)
    (infrastructure_spending o) (welfare_spending o) (other_spending o).

Definition with_education_spending (v : float) (o : Budget) : Budget :=
  mkBudget (healthcare_spending o) v (military_spending o)
    (infrastructure_spending o) (welfare_spending o) (other_spending o).

Definition with_military_spending (v : float) (o : Budget) : Budget :=
  mkBudget (healthcare_spending o) (education_spending o) v
    (infrastructure_spending o) (welfare_spending o) (other_spending o).

Definition with_infrastructure_spending (v : float) (o : Budget) : Budget :=
  mkBudget (healthcare_spending o) (education_spending o)
    (military_spending o) v (welfare_spending o) (other_spending o).

Definition with_welfare_spending (v : float) (o : Budget) : Budget :=
  mkBudget (healthcare_spending o) (education_spending o)
    (military_spending o) (infrastructure_spending o) v (other_spending o).

Definition with_other_spending (v : float) (o : Budget) : Budget :=
  mkBudget (healthcare_spending o) (education_spending o)
    (military_spending o) (infrastructure_spending o) (welfare_spending o) v.

(** The budget allocation of [Economy.__init__]. *)
Definition init : Budget :=
  {| healthcare_spending := 0.15; education_spending := 0.20;
     military_spending := 0.10; infrastructure_spending := 0.20;
     welfare_spending := 0.15; other_spending := 0.20 |}.

Definition assign_share (arg : option float)
    (store : float -> Budget -> Budget) (e : Budget) : Budget :=
  match arg with
  | Some v => store (max 0 (min 1 v)) e
  | None => e
  end.

Definition allocate_budget
    (healthcare education military infrastructure welfare : option float)
    (e : Budget) : Budget :=
  let e := assign_share healthcare with_healthcare_spending e in
  let e := assign_share education with_education_spending e in
  let e := assign_share military with_military_spending e in
  let e := assign_share infrastructure with_infrastructure_spending e in
  let e := assign_share welfare with_welfare_spending e in
  let total :=
    healthcare_spending e + education_spending e + military_spending e
    + infrastructure_spending e + welfare_spending e in
  let e :=
    if ltb 1 total then
      let scale := 1 / total in
      let e := with_healthcare_spending (healthcare_spending e * scale) e in
      let e := with_education_spending (education_spending e * scale) e in
      let e := with_military_spending (military_spending e * scale) e in
      let e :=
        with_infrastructure_spending (infrastructure_spending e * scale) e in
      with_welfare_spending (welfare_spending e * scale) e
    else e in
  with_other_spending (max 0 (1 - total)) e.

(** [Slider.update_value] of ui/ui_components.py: the value that a
    slider passes to its callback for a mouse position.  The pixel
    coordinates are small integers, which binary64 holds exactly. *)
Definition update_value (rect_x rect_width min_val max_val mouse_x : float)
    : float :=
  let relative_x := mouse_x - rect_x in
  let relative_x := max 0 (min rect_width relative_x) in
  let ratio := relative_x / rect_width in
  min_val + ratio * (max_val - min_val).

End Binary64.

(** ** game/models/population.py *)

Module Population.

Import Constants.
Local Open Scope Q_scope.

Record Population : Type := mkPopulation {
  total : Q;
  happiness : Q;
  health : Q;
  education : Q;
  growth_rate : Q;
  children : Q;
  adults : Q;
  elderly : Q;
  literacy_rate : Q;
  life_expectancy : Q;
  birth_rate : Q;
  death_rate : Q;
  healthcare_satisfaction : Q;
  education_satisfaction : Q;
  economic_satisfaction : Q;
  security_satisfaction : Q
}.

Definition with_total (v : Q) (o : Population) : Population :=
  {| total := v; happiness := happiness o; health := health o;
     education := education o; growth_rate := growth_rate o;
     children := children o; adults := adults o; elderly := elderly o;
     literacy_rate := literacy_rate o; life_expectancy := life_expectancy o;
     birth_rate := birth_rate o; death_rate := death_rate o;
     healthcare_satisfaction := healthcare_satisfaction o;
     education_satisfaction := education_satisfaction o;
     economic_satisfaction := economic_satisfaction o;
     security_satisfaction := security_satisfaction o |}.

Definition with_happiness (v : Q) (o : Population) : Population :=
  {| total := total o; happiness := v; health := health o;
     education := education o; growth_rate := growth_rate o;
     children := children o; adults := adults o; elderly := elderly o;
     literacy_rate := literacy_rate o; life_expectancy := life_expectancy o;
     birth_rate := birth_rate o; death_rate := death_rate o;
     healthcare_satisfaction := healthcare_satisfaction o;
     education_satisfaction := education_satisfaction o;
     economic_satisfaction := economic_satisfaction o;
     security_satisfaction := security_satisfaction o |}.

Definition with_health (v : Q) (o : Population) : Population :=
  {| total := total o; happiness := happiness o; health := v;
     education := education o; growth_rate := growth_rate o;
     children := children o; adults := adults o; elderly := elderly o;
     literacy_rate := literacy_rate o; life_expectancy := life_expectancy o;
     birth_rate := birth_rate o; death_rate := death_rate o;
     healthcare_satisfaction := healthcare_satisfaction o;
     education_satisfaction := education_satisfaction o;
     economic_satisfaction := economic_satisfaction o;
     security_satisfaction := security_satisfaction o |}.

Definition with_education (v : Q) (o : Population) : Population :=
  {| total := total o; happiness := happiness o; health := health o;
     education := v; growth_rate := growth_rate o; children := children o;
     adults := adults o; elderly := elderly o;
     literacy_rate := literacy_rate o; life_expectancy := life_expectancy o;
     birth_rate := birth_rate o; death_rate := death_rate o;
     healthcare_satisfaction := healthcare_satisfaction o;
     education_satisfaction := education_satisfaction o;
     economic_satisfaction := economic_satisfaction o;
     security_satisfaction := security_satisfaction o |}.

Definition with_growth_rate (v : Q) (o : Population) : Population :=
  {| total := total o; happiness := happiness o; health := health o;
     education := education o; growth_rate := v; children := children o;
     adults := adults o; elderly := elderly o;
     literacy_rate := literacy_rate o; life_expectancy := life_expectancy o;
     birth_rate := birth_rate o; death_rate := death_rate o;
     healthcare_satisfaction := healthcare_satisfaction o;
     education_satisfaction := education_satisfaction o;
     economic_satisfaction := economic_satisfaction o;
     security_satisfaction := security_satisfaction o |}.

Definition with_children (v : Q) (o : Population) : Population :=
  {| total := total o; happiness := happiness o; health := health o;
     education := education o; growth_rate := growth_rate o; children := v;
     adults := adults o; elderly := elderly o;
     literacy_rate := literacy_rate o; life_expectancy := life_expectancy o;
     birth_rate := birth_rate o; death_rate := death_rate o;
     healthcare_satisfaction := healthcare_satisfaction o;
     education_satisfaction := education_satisfaction o;
     economic_satisfaction := economic_satisfaction o;
     security_satisfaction := security_satisfaction o |}.

Definition with_adults (v : Q) (o : Population) : Population :=
  {| total := total o; happiness := happiness o; health := health o;
     education := education o; growth_rate := growth_rate o;
     children := children o; adults := v; elderly := elderly o;
     literacy_rate := literacy_rate o; life_expectancy := life_expectancy o;
     birth_rate := birth_rate o; death_rate := death_rate o;
     healthcare_satisfaction := healthcare_satisfaction o;
     education_satisfaction := education_satisfaction o;
     economic_satisfaction := economic_satisfaction o;
     security_satisfaction := security_satisfaction o |}.

Definition with_literacy_rate (v : Q) (o : Population) : Population :=
  {| total := total o; happiness := happiness o; health := health o;
     education := education o; growth_rate := growth_rate o;
     children := children o; adults := adults o; elderly := elderly o;
     literacy_rate := v; life_expectancy := life_expectancy o;
     birth_rate := birth_rate o; death_rate := death_rate o;
     healthcare_satisfaction := healthcare_satisfaction o;
     education_satisfaction := education_satisfaction o;
     economic_satisfaction := economic_satisfaction o;
     security_satisfaction := security_satisfaction o |}.

Definition with_life_expectancy (v : Q) (o : Population) : Population :=
  {| total := total o; happiness := happiness o; health := health o;
     education := education o; growth_rate := growth_rate o;
     children := children o; adults := adults o; elderly := elderly o;
     literacy_rate := literacy_rate o; life_expectancy := v;
     birth_rate := birth_rate o; death_rate := death_rate o;
     healthcare_satisfaction := healthcare_satisfaction o;
     education_satisfaction := education_satisfaction o;
     economic_satisfaction := economic_satisfaction o;
     security_satisfaction := security_satisfaction o |}.

Definition with_birth_rate (v : Q) (o : Population) : Population :=
  {| total := total o; happiness := happiness o; health := health o;
     education := education o; growth_rate := growth_rate o;
     children := children o; adults := adults o; elderly := elderly o;
     literacy_rate := literacy_rate o; life_expectancy := life_expectancy o;
     birth_rate := v; death_rate := death_rate o;
     healthcare_satisfaction := healthcare_satisfaction o;
     education_satisfaction := education_satisfaction o;
     economic_satisfaction := economic_satisfaction o;
     security_satisfaction := security_satisfaction o |}.

Definition with_healthcare_satisfaction (v : Q) (o : Population) : Population :=
  {| total := total o; happiness := happiness o; health := health o;
     education := education o; growth_rate := growth_rate o;
     children := children o; adults := adults o; elderly := elderly o;
     literacy_rate := literacy_rate o; life_expectancy := life_expectancy o;
     birth_rate := birth_rate o; death_rate := death_rate o;
     healthcare_satisfaction := v;
     education_satisfaction := education_satisfaction o;
     economic_satisfaction := economic_satisfaction o;
     security_satisfaction := security_satisfaction o |}.

Definition with_education_satisfaction (v : Q) (o : Population) : Population :=
  {| total := total o; happiness := happiness o; health := health o;
     education := education o; growth_rate := growth_rate o;
     children := children o; adults := adults o; elderly := elderly o;
     literacy_rate := literacy_rate o; life_expectancy := life_expectancy o;
     birth_rate := birth_rate o; death_rate := death_rate o;
     healthcare_satisfaction := healthcare_satisfaction o;
     education_satisfaction := v;
     economic_satisfaction := economic_satisfaction o;
     security_satisfaction := security_satisfaction o |}.

Definition with_economic_satisfaction (v : Q) (o : Population) : Population :=
  {| total := total o; happiness := happiness o; health := health o;
     education := education o; growth_rate := growth_rate o;
     children := children o; adults := adults o; elderly := elderly o;
     literacy_rate := literacy_rate o; life_expectancy := life_expectancy o;
     birth_rate := birth_rate o; death_rate := death_rate o;
     healthcare_satisfaction := healthcare_satisfaction o;
     education_satisfaction := education_satisfaction o;
     economic_satisfaction := v;
     security_satisfaction := security_satisfaction o |}.

Definition with_security_satisfaction (v : Q) (o : Population) : Population :=
  {| total := total o; happiness := happiness o; health := health o;
     education := education o; growth_rate := growth_rate o;
     children := children o; adults := adults o; elderly := elderly o;
     literacy_rate := literacy_rate o; life_expectancy := life_expectancy o;
     birth_rate := birth_rate o; death_rate := death_rate o;
     healthcare_satisfaction := healthcare_satisfaction o;
     education_satisfaction := education_satisfaction o;
     economic_satisfaction := economic_satisfaction o;
     security_satisfaction := v |}.

(** [Population.__init__]. *)
Definition init (initial_population : Q) : Population :=
  {| total := initial_population; happiness := BASE_HAPPINESS;
     health := 70; education := 60; growth_rate := BASE_POPULATION_GROWTH;
     children := 0.25; adults := 0.65; elderly := 0.10;
     literacy_rate := 0.85; life_expectancy := 75;
     birth_rate := 0.015; death_rate := 0.008;
     healthcare_satisfaction := 50; education_satisfaction := 50;
     economic_satisfaction := 50; security_satisfaction := 50 |}.

Definition update_population
    (healthcare_spending education_spending welfare_spending
     economic_health stability : Q) (p : Population) : Population :=
  let healthcare_effect := healthcare_spending * 50 in
  let p := with_health
             (Py.min 100 (health p + (healthcare_effect - 70) * 0.01)) p in
  let p := with_healthcare_satisfaction
             (Py.min 100 (healthcare_spending * 100)) p in
  let education_effect := education_spending * 50 in
  let p := with_education
             (Py.min 100 (education p + (education_effect - 60) * 0.01)) p in
  let p := with_education_satisfaction
             (Py.min 100 (education_spending * 100)) p in
  let p := with_economic_satisfaction economic_health p in
  let p := with_security_satisfaction (Py.min 100 (stability * 100)) p in
  let p := with_happiness
             ((healthcare_satisfaction p + education_satisfaction p
               + economic_satisfaction p + security_satisfaction p) / 4) p in
  let base_growth := birth_rate p - death_rate p in
  let health_modifier := (health p - 70) / 100 in
  let happiness_modifier := (happiness p - 50) / 200 in
  let p := with_growth_rate
             (base_growth + health_modifier * 0.005
              + happiness_modifier * 0.003) p in
  let p := with_growth_rate
             (Py.max 0 (Py.min MAX_POPULATION_GROWTH (growth_rate p))) p in
  let p := with_total (total p * (1 + growth_rate p)) p in
  let p := with_life_expectancy (70 + (health p - 70) * 0.2) p in
  with_literacy_rate (Py.min 1.0 (0.5 + education p * 0.005)) p.

(** [handle_event]; [d1], [d2], [d3] are the draws of [random.uniform] in
    the order in which the taken branch makes them. *)
Definition handle_event (event_type : string) (d1 d2 d3 : Q)
    (p : Population) : Population :=
  if String.eqb event_type "epidemic" then
    let p := with_health (health p - d1) p in
    let p := with_happiness (happiness p - d2) p in
    with_total (total p * d3) p
  else if String.eqb event_type "baby_boom" then
    let p := with_birth_rate (birth_rate p + 0.005) p in
    with_children (children p + 0.02) p
  else if String.eqb event_type "brain_drain" then
    let p := with_education (education p - d1) p in
    with_total (total p * d2) p
  else if String.eqb event_type "immigration_wave" then
    let p := with_total (total p * d1) p in
    with_adults (adults p + 0.01) p
  else p.

Definition get_approval_rating (p : Population) : Q :=
  let approval :=
    economic_satisfaction p * 0.35 + healthcare_satisfaction p * 0.25
    + education_satisfaction p * 0.20 + security_satisfaction p * 0.20 in
  Py.max 0 (Py.min 100 approval).

Definition trigger_protest_risk (p : Population) : Q :=
  let dissatisfaction := 100 - happiness p in
  let base_risk := dissatisfaction / 100 in
  let security_modifier := (100 - security_satisfaction p) / 200 in
  let protest_risk := base_risk + security_modifier in
  Py.min 1.0 protest_risk.

End Population.

(** ** game/models/government.py *)

Module Government.

Import Constants.
Local Open Scope Q_scope.

Record PoliticalParty : Type := mkParty {
  name : string;
  ideology : string;
  popularity : Q;
  corruption_level : Q;
  tax_preference : Q;
  welfare_preference : Q;
  military_preference : Q
}.

Definition with_popularity (v : Q) (o : PoliticalParty) : PoliticalParty :=
  {| name := name o; ideology := ideology o; popularity := v;
     corruption_level := corruption_level o;
     tax_preference := tax_preference o;
     welfare_preference := welfare_preference o;
     military_preference := military_preference o |}.

(** The four draws of [PoliticalParty.__init__], in source order. *)
Record PartyDraws : Type := mkPartyDraws {
  draw_corruption_level : Q;
  draw_tax_preference : Q;
  draw_welfare_preference : Q;
  draw_military_preference : Q
}.

(** [PoliticalParty.__init__]: whatever the ideology, the three preference
    fields receive the three draws of the branch taken. *)
Definition new_party (name ideology : string) (popularity : Q)
    (d : PartyDraws) : PoliticalParty :=
  {| name := name; ideology := ideology; popularity := popularity;
     corruption_level := draw_corruption_level d;
     tax_preference := draw_tax_preference d;
     welfare_preference := draw_welfare_preference d;
     military_preference := draw_military_preference d |}.

Record Government : Type := mkGovernment {
  type : GovType;
  stability : Q;
  corruption : Q;
  years_in_power : Q;
  next_election : Z;
  parties : list PoliticalParty;
  ruling_party : nat;
  laws : gmap string bool;
  bureaucracy_efficiency : Q;
  transparency : Q
}.

Definition with_type (v : GovType) (o : Government) : Government :=
  {| type := v; stability := stability o; corruption := corruption o;
     years_in_power := years_in_power o; next_election := next_election o;
     parties := parties o; ruling_party := ruling_party o; laws := laws o;
     bureaucracy_efficiency := bureaucracy_efficiency o;
     transparency := transparency o |}.

Definition with_stability (v : Q) (o : Government) : Government :=
  {| type := type o; stability := v; corruption := corruption o;
     years_in_power := years_in_power o; next_election := next_election o;
     parties := parties o; ruling_party := ruling_party o; laws := laws o;
     bureaucracy_efficiency := bureaucracy_efficiency o;
     transparency := transparency o |}.

Definition with_corruption (v : Q) (o : Government) : Government :=
  {| type := type o; stability := stability o; corruption := v;
     years_in_power := years_in_power o; next_election := next_election o;
     parties := parties o; ruling_party := ruling_party o; laws := laws o;
     bureaucracy_efficiency := bureaucracy_efficiency o;
     transparency := transparency o |}.

Definition with_years_in_power (v : Q) (o : Government) : Government :=
  {| type := type o; stability := stability o; corruption := corruption o;
     years_in_power := v; next_election := next_election o;
     parties := parties o; ruling_party := ruling_party o; laws := laws o;
     bureaucracy_efficiency := bureaucracy_efficiency o;
     transparency := transparency o |}.

Definition with_next_election (v : Z) (o : Government) : Government :=
  {| type := type o; stability := stability o; corruption := corruption o;
     years_in_power := years_in_power o; next_election := v;
     parties := parties o; ruling_party := ruling_party o; laws := laws o;
     bureaucracy_efficiency := bureaucracy_efficiency o;
     transparency := transparency o |}.

Definition with_parties (v : list PoliticalParty) (o : Government) : Government :=
  {| type := type o; stability := stability o; corruption := corruption o;
     years_in_power := years_in_power o; next_election := next_election o;
     parties := v; ruling_party := ruling_party o; laws := laws o;
     bureaucracy_efficiency := bureaucracy_efficiency o;
     transparency := transparency o |}.

Definition with_ruling_party (v : nat) (o : Government) : Government :=
  {| type := type o; stability := stability o; corruption := corruption o;
     years_in_power := years_in_power o; next_election := next_election o;
     parties := parties o; ruling_party := v; laws := laws o;
     bureaucracy_efficiency := bureaucracy_efficiency o;
     transparency := transparency o |}.

Definition with_laws (v : gmap string bool) (o : Government) : Government :=
  {| type := type o; stability := stability o; corruption := corruption o;
     years_in_power := years_in_power o; next_election := next_election o;
     parties := parties o; ruling_party := ruling_party o; laws := v;
     bureaucracy_efficiency := bureaucracy_efficiency o;
     transparency := transparency o |}.

Definition with_bureaucracy_efficiency (v : Q) (o : Government) : Government :=
  {| type := type o; stability := stability o; corruption := corruption o;
     years_in_power := years_in_power o; next_election := next_election o;
     parties := parties o; ruling_party := ruling_party o; laws := laws o;
     bureaucracy_efficiency := v; transparency := transparency o |}.

(** [max(parties, key=lambda p: p.popularity)] as an index into the
    roster: the scan keeps the earliest party among those of greatest
    popularity, and an empty roster raises. *)
Fixpoint max_scan (best_index : nat) (best : Q) (i : nat)
    (ps : list PoliticalParty) : nat :=
  match ps with
  | [] => best_index
  | p :: rest =>
      if Py.ltb best (popularity p)
      then max_scan i (popularity p) (S i) rest
      else max_scan best_index best (S i) rest
  end.

Definition max_by_popularity (ps : list PoliticalParty) : option nat :=
  match ps with
  | [] => None
  | p :: rest => Some (max_scan 0%nat (popularity p) 1%nat rest)
  end.

Definition initial_laws : gmap string bool :=
  <["environmental_protection" := true]>
  (<["gun_control" := true]>
  (<["death_penalty" := false]>
  (<["mandatory_education" := true]>
  (<["universal_healthcare" := false]>
  (<["freedom_of_press" := true]> ∅))))).

Definition initial_parties (d1 d2 d3 d4 : PartyDraws)
    : list PoliticalParty :=
  [ new_party "Progressive Party" "left" 0.25 d1;
    new_party "Conservative Party" "right" 0.25 d2;
    new_party "Centrist Alliance" "center" 0.30 d3;
    new_party "Nationalist Party" "right" 0.20 d4 ].

(** [Government.__init__]. *)
Definition init (government_type : GovType) (d1 d2 d3 d4 : PartyDraws)
    : Government :=
  let ps := initial_parties d1 d2 d3 d4 in
  {| type := government_type; stability := 70; corruption := 20;
     years_in_power := 0;
     next_election := election_frequency (GOVERNMENT_TYPES government_type);
     parties := ps;
     ruling_party := default 0%nat (max_by_popularity ps);
     laws := initial_laws;
     bureaucracy_efficiency := 60; transparency := 50 |}.

(** [party.popularity = f(party.popularity)] for the party at index [i]. *)
Definition alter_popularity (f : Q -> Q) (i : nat)
    (ps : list PoliticalParty) : list PoliticalParty :=
  alter (fun p => with_popularity (f (popularity p)) p) i ps.

Definition update_party_popularity (approval economic_health : Q)
    (g : Government) : Government :=
  let ruling_performance := (approval + economic_health) / 2 in
  let performance_change := (ruling_performance - 50) * 0.002 in
  let ps :=
    alter_popularity (fun x => x + performance_change) (ruling_party g)
      (parties g) in
  let ps :=
    if Py.ltb performance_change 0 then
      imap (fun i p =>
              if decide (i = ruling_party g) then p
              else with_popularity
                     (popularity p
                      + Py.abs performance_change
                        / inject_Z (Z.of_nat (length ps))) p) ps
    else ps in
  let total_popularity := Py.sum (map popularity ps) in
  let ps :=
    if Py.ltb 0 total_popularity then
      map (fun p => with_popularity (popularity p / total_popularity) p) ps
    else ps in
  with_parties ps g.

(** [hold_election]; [noise i] is the draw of [random.uniform(-0.05, 0.05)]
    for the party at index [i].  The division by a zero [total] and the
    [max] of an empty roster raise. *)
Definition hold_election (noise : nat -> Q) (g : Government)
    : option Government :=
  if (election_frequency (GOVERNMENT_TYPES (type g)) =? 0)%Z then Some g
  else
    let ps :=
      imap (fun i p => with_popularity (popularity p + noise i) p)
        (parties g) in
    let total := Py.sum (map popularity ps) in
    if Qeq_bool total 0 && negb (bool_decide (ps = [])) then None
    else
      let ps :=
        map (fun p => with_popularity (Py.max 0 (popularity p / total)) p)
          ps in
      match max_by_popularity ps with
      | None => None
      | Some winner =>
          let g := with_parties ps g in
          let g :=
            if decide (winner = ruling_party g) then g
            else
              let g := with_ruling_party winner g in
              let g := with_years_in_power 0 g in
              with_stability (stability g - 5) g in
          Some (with_next_election
                  (election_frequency (GOVERNMENT_TYPES (type g))) g)
      end.

(** The statements of [update_government] that precede the election
    check; [corruption_draw] is the draw of [random.uniform(-0.5, 1.0)]. *)
Definition update_government_metrics
    (population_approval economic_health corruption_draw : Q)
    (g : Government) : Government :=
  let g := with_years_in_power (years_in_power g + 1 / 12) g in
  let gov_data := GOVERNMENT_TYPES (type g) in
  let approval_effect := (population_approval - 50) * 0.2 in
  let g := with_stability (stability g + approval_effect * 0.1) g in
  let g := with_stability (stability g + stability_bonus gov_data) g in
  let corruption_resistance := corruption_resistance gov_data in
  let corruption_change := corruption_draw * (1 - corruption_resistance) in
  let g := with_corruption
             (Py.max 0 (Py.min 100 (corruption g + corruption_change))) g in
  let g := with_stability (stability g - corruption g * 0.1) g in
  let g := with_stability (Py.max 0 (Py.min 100 (stability g))) g in
  update_party_popularity population_approval economic_health g.

(** The guard of the election check of [update_government]. *)
Definition election_due (g : Government) : bool :=
  (next_election g <=? 0)%Z
  && (0 <? election_frequency (GOVERNMENT_TYPES (type g)))%Z.

Definition update_government
    (population_approval economic_health corruption_draw : Q)
    (noise : nat -> Q) (g : Government) : option Government :=
  let g :=
    update_government_metrics population_approval economic_health
      corruption_draw g in
  if election_due g then hold_election noise g else Some g.

(** [change_government_type]; [penalty] is the draw of
    [random.uniform(10, 30)]. *)
Definition change_government_type (new_type : string) (penalty : Q)
    (g : Government) : Government :=
  match lookup_key new_type with
  | Some t =>
      let old_type := type g in
      let g := with_type t g in
      let g := with_years_in_power 0 g in
      let g :=
        with_next_election (election_frequency (GOVERNMENT_TYPES t)) g in
      if decide (old_type = t) then g
      else
        let g := with_stability (stability g - penalty) g in
        with_stability (Py.max 0 (stability g)) g
  | None => g
  end.

(** [pass_law]; [stability_change] is the draw of
    [random.uniform(-2, 2)]. *)
Definition pass_law (law_name : string) (value : bool)
    (stability_change : Q) (g : Government) : Government :=
  match laws g !! law_name with
  | Some old_value =>
      let g := with_laws (<[law_name := value]> (laws g)) g in
      if bool_decide (old_value = value) then g
      else with_stability (stability g + stability_change) g
  | None => g
  end.

(** [trigger_political_event]; [d1], [d2], [d3] are the random draws in
    the order in which the taken branch makes them (for a coup attempt
    [d1] is [random.random()] and [d2] the penalty drawn inside
    [change_government_type]). *)
Definition trigger_political_event (event_type : string) (d1 d2 d3 : Q)
    (g : Government) : Government :=
  if String.eqb event_type "corruption_scandal" then
    let g := with_corruption (corruption g + d1) g in
    let g := with_stability (stability g - d2) g in
    with_parties
      (alter_popularity (fun x => x * 0.9) (ruling_party g) (parties g)) g
  else if String.eqb event_type "successful_reform" then
    let g := with_corruption (corruption g - d1) g in
    let g := with_stability (stability g + d2) g in
    with_bureaucracy_efficiency (bureaucracy_efficiency g + d3) g
  else if String.eqb event_type "coup_attempt" then
    if Py.ltb (stability g) 30 then
      if Py.ltb d1 0.3 then
        let g := change_government_type "dictatorship" d2 g in
        with_stability 20 g
      else with_stability (stability g - 15) g
    else with_stability (stability g - 5) g
  else if String.eqb event_type "protest" then
    with_stability (stability g - d1) g
  else g.

Definition get_growth_modifier (g : Government) : Q :=
  let base_modifier := growth_modifier (GOVERNMENT_TYPES (type g)) in
  let efficiency_bonus := (bureaucracy_efficiency g - 50) * 0.002 in
  let stability_bonus := (stability g - 50) * 0.001 in
  let corruption_penalty := corruption g * 0.001 in
  base_modifier + efficiency_bonus + stability_bonus - corruption_penalty.

End Government.

(** ** game/models/country.py *)

Module Country.

Local Open Scope Q_scope.

(** The fields of a [Country] object.  [relations], an alias of the
    relation objects owned by the diplomacy system, and the cosmetic
    [color] are left to the presentation layer. *)
Record Country : Type := mkCountry {
  name : string;
  x : Q;
  y : Q;
  economy : Economy.Economy;
  population : Population.Population;
  government : Government.Government;
  traits : list string;
  military_strength : Q;
  natural_resources : gmap string Q;
  recent_events : list string;
  event_cooldown : gmap string Z;
  is_player : bool
}.

Definition with_economy (v : Economy.Economy) (o : Country) : Country :=
  {| name := name o; x := x o; y := y o; economy := v;
     population := population o; government := government o;
     traits := traits o; military_strength := military_strength o;
     natural_resources := natural_resources o;
     recent_events := recent_events o; event_cooldown := event_cooldown o;
     is_player := is_player o |}.

Definition with_population (v : Population.Population) (o : Country) : Country :=
  {| name := name o; x := x o; y := y o; economy := economy o;
     population := v; government := government o; traits := traits o;
     military_strength := military_strength o;
     natural_resources := natural_resources o;
     recent_events := recent_events o; event_cooldown := event_cooldown o;
     is_player := is_player o |}.

Definition with_government (v : Government.Government) (o : Country) : Country :=
  {| name := name o; x := x o; y := y o; economy := economy o;
     population := population o; government := v; traits := traits o;
     military_strength := military_strength o;
     natural_resources := natural_resources o;
     recent_events := recent_events o; event_cooldown := event_cooldown o;
     is_player := is_player o |}.

Definition with_natural_resources (v : gmap string Q) (o : Country) : Country :=
  {| name := name o; x := x o; y := y o; economy := economy o;
     population := population o; government := government o;
     traits := traits o; military_strength := military_strength o;
     natural_resources := v; recent_events := recent_events o;
     event_cooldown := event_cooldown o; is_player := is_player o |}.

Definition with_recent_events (v : list string) (o : Country) : Country :=
  {| name := name o; x := x o; y := y o; economy := economy o;
     population := population o; government := government o;
     traits := traits o; military_strength := military_strength o;
     natural_resources := natural_resources o; recent_events := v;
     event_cooldown := event_cooldown o; is_player := is_player o |}.

Definition with_event_cooldown (v : gmap string Z) (o : Country) : Country :=
  {| name := name o; x := x o; y := y o; economy := economy o;
     population := population o; government := government o;
     traits := traits o; military_strength := military_strength o;
     natural_resources := natural_resources o;
     recent_events := recent_events o; event_cooldown := v;
     is_player := is_player o |}.

Definition with_is_player (v : bool) (o : Country) : Country :=
  {| name := name o; x := x o; y := y o; economy := economy o;
     population := population o; government := government o;
     traits := traits o; military_strength := military_strength o;
     natural_resources := natural_resources o;
     recent_events := recent_events o; event_cooldown := event_cooldown o;
     is_player := v |}.

(** [country.economy.<field> = ...] and its siblings: in-place mutation of
    a sub-model of the country object. *)
Definition modify_economy (f : Economy.Economy -> Economy.Economy)
    (c : Country) : Country :=
  with_economy (f (economy c)) c.

Definition modify_population
    (f : Population.Population -> Population.Population) (c : Country)
    : Country :=
  with_population (f (population c)) c.

Definition modify_government
    (f : Government.Government -> Government.Government) (c : Country)
    : Country :=
  with_government (f (government c)) c.

Definition get_power_score (c : Country) : Q :=
  let economic_power := Economy.gdp (economy c) / 1000000 in
  let military_power :=
    military_strength c * (Population.total (population c) / 1000000) in
  let stability_factor := Government.stability (government c) / 100 in
  (economic_power + military_power) * stability_factor.

(** The random draws of one call of [Country.update], in source order:
    the GDP noise, the corruption draw, the election noise, the draw of
    the event check, the index drawn by [random.choice] among the
    available events, the index drawn among the two resources, and the
    [random.uniform] draws of the event in the order in which the event
    makes them. *)
Record UpdateDraws : Type := mkUpdateDraws {
  gdp_noise : Q;
  corruption_draw : Q;
  election_noise : nat -> Q;
  event_check : Q;
  event_pick : nat;
  resource_pick : nat;
  event_d1 : Q;
  event_d2 : Q;
  event_d3 : Q;
  event_d4 : Q
}.

(** [random.choice(seq)]: the element at the drawn index; an empty
    sequence raises. *)
Definition choice {A : Type} (pick : nat) (seq : list A) : option A :=
  seq !! (pick mod length seq)%nat.

(** [self.recent_events.append({'description': ..., 'timestamp': 0})]
    when the description is not empty; an entry is represented by its
    description, the timestamp being the constant 0. *)
Definition record_event (event_description : string) (c : Country)
    : Country :=
  if String.eqb event_description EmptyString then c
  else with_recent_events (recent_events c ++ [event_description]) c.

(** [handle_event]; a missing resource key raises. *)
Definition handle_event (event_type : string) (d : UpdateDraws)
    (c : Country) : option Country :=
  if String.eqb event_type "economic_boom" then
    let c := modify_economy (Economy.trigger_economic_event "boom") c in
    Some (record_event (name c +:+ " experiences an economic boom!") c)
  else if String.eqb event_type "recession" then
    let c := modify_economy (Economy.trigger_economic_event "recession") c in
    Some (record_event (name c +:+ " enters a recession.") c)
  else if String.eqb event_type "natural_disaster" then
    let c := modify_economy
               (fun e => Economy.with_gdp (Economy.gdp e * event_d1 d) e) c in
    let c := modify_population
               (Population.handle_event "epidemic" (event_d2 d) (event_d3 d)
                  (event_d4 d)) c in
    Some (record_event ("Natural disaster strikes " +:+ name c +:+ "!") c)
  else if String.eqb event_type "epidemic" then
    let c := modify_population
               (Population.handle_event "epidemic" (event_d1 d) (event_d2 d)
                  (event_d3 d)) c in
    Some (record_event ("Disease outbreak in " +:+ name c +:+ "!") c)
  else if String.eqb event_type "corruption_scandal" then
    let c := modify_government
               (Government.trigger_political_event "corruption_scandal"
                  (event_d1 d) (event_d2 d) (event_d3 d)) c in
    Some (record_event ("Corruption scandal rocks " +:+ name c +:+ "!") c)
  else if String.eqb event_type "protest" then
    if Py.ltb 0.5 (Population.trigger_protest_risk (population c)) then
      let c := modify_government
                 (Government.trigger_political_event "protest" (event_d1 d)
                    (event_d2 d) (event_d3 d)) c in
      Some (record_event ("Protests break out in " +:+ name c +:+ "!") c)
    else Some (record_event EmptyString c)
  else if String.eqb event_type "tech_breakthrough" then
    let c := modify_economy
               (Economy.trigger_economic_event "tech_breakthrough") c in
    Some (record_event
            (name c +:+ " achieves technological breakthrough!") c)
  else if String.eqb event_type "resource_discovery" then
    resource ← choice (resource_pick d) ["oil"; "minerals"]%string;
    amount ← natural_resources c !! resource;
    let c := with_natural_resources
               (<[resource := amount + event_d1 d]> (natural_resources c)) c in
    let c := modify_economy
               (fun e => Economy.with_gdp (Economy.gdp e * 1.02) e) c in
    Some (record_event
            ("New " +:+ resource +:+ " deposits discovered in " +:+ name c
             +:+ "!") c)
  else Some (record_event EmptyString c).

Definition possible_events : list string :=
  [ "economic_boom"; "recession"; "natural_disaster"; "epidemic";
    "corruption_scandal"; "protest"; "tech_breakthrough";
    "resource_discovery" ]%string.

(** [[e for e in possible_events if e not in self.event_cooldown]]. *)
Definition available_events (c : Country) : list string :=
  filter (fun e => event_cooldown c !! e = None) possible_events.

Definition trigger_random_event (d : UpdateDraws) (c : Country)
    : option Country :=
  match choice (event_pick d) (available_events c) with
  | None => Some c
  | Some event =>
      c ← handle_event event d c;
      Some (with_event_cooldown (<[event := 100%Z]> (event_cooldown c)) c)
  end.

Definition check_random_events (d : UpdateDraws) (c : Country)
    : option Country :=
  let base_probability := 0.001 in
  let stability_factor :=
    1.0 + (50 - Government.stability (government c)) / 100 in
  if Py.ltb (event_check d) (base_probability * stability_factor)
  then trigger_random_event d c
  else Some c.

(** [clean_old_events]: every cooldown is decreased by one and removed
    when it reaches zero; the event log keeps its last ten entries. *)
Definition clean_old_events (c : Country) : Country :=
  let c :=
    with_event_cooldown
      (omap (fun v => if (v - 1 <=? 0)%Z then None else Some (v - 1)%Z)
         (event_cooldown c)) c in
  if (10 <? length (recent_events c))%nat
  then with_recent_events
         (drop (length (recent_events c) - 10) (recent_events c)) c
  else c.

(** [update(dt)]; the time step is not used by the source. *)
Definition update (d : UpdateDraws) (c : Country) : option Country :=
  let growth_modifier := Government.get_growth_modifier (government c) in
  let stability_bonus :=
    (Government.stability (government c) - 50) * 0.001 in
  let growth_modifier :=
    if bool_decide ("industrial"%string ∈ traits c)
    then growth_modifier * 1.1 else growth_modifier in
  let growth_modifier :=
    if bool_decide ("technological"%string ∈ traits c)
    then growth_modifier * 1.05 else growth_modifier in
  let stability_bonus :=
    if bool_decide ("agricultural"%string ∈ traits c)
    then stability_bonus + 0.005 else stability_bonus in
  let c := modify_economy
             (Economy.update_gdp growth_modifier stability_bonus
                (gdp_noise d)) c in
  let c := modify_economy Economy.update_budget c in
  let c := modify_population
             (Population.update_population
                (Economy.healthcare_spending (economy c))
                (Economy.education_spending (economy c))
                (Economy.welfare_spending (economy c))
                (Economy.get_economic_health (economy c))
                (Government.stability (government c) / 100)) c in
  let approval := Population.get_approval_rating (population c) in
  let economic_health := Economy.get_economic_health (economy c) in
  g ← Government.update_government approval economic_health
         (corruption_draw d) (election_noise d) (government c);
  let c := with_government g c in
  let c := modify_economy
             (Economy.with_population (Population.total (population c))) c in
  c ← check_random_events d c;
  Some (clean_old_events c).

(** [ai_make_decisions]; [change_check] is the draw of [random.random()],
    [type_pick] the index drawn among the government types and [penalty]
    the draw made inside [change_government_type]. *)
Definition ai_make_decisions (change_check : Q) (type_pick : nat)
    (penalty : Q) (c : Country) : Country :=
  if is_player c then c
  else
    let approval := Population.get_approval_rating (population c) in
    let economic_health := Economy.get_economic_health (economy c) in
    let c :=
      if Py.ltb approval 40 then
        modify_economy
          (fun e => Economy.set_tax_rate (Economy.tax_rate e * 0.99) e) c
      else if Py.ltb economic_health 40 then
        modify_economy
          (fun e => Economy.set_tax_rate (Economy.tax_rate e * 1.01) e) c
      else c in
    let c :=
      if Py.ltb (Population.health (population c)) 60 then
        modify_economy
          (fun e =>
             Economy.allocate_budget
               (Some (Py.min 0.25 (Economy.healthcare_spending e * 1.1)))
               None None None None e) c
      else c in
    let c :=
      if Py.ltb (Population.education (population c)) 60 then
        modify_economy
          (fun e =>
             Economy.allocate_budget None
               (Some (Py.min 0.25 (Economy.education_spending e * 1.1)))
               None None None e) c
      else c in
    if Py.ltb approval 30
       && Py.ltb (Government.stability (government c)) 40 then
      if Py.ltb change_check 0.01 then
        match choice type_pick Constants.government_type_keys with
        | Some new_gov =>
            modify_government
              (Government.change_government_type
                 (Constants.key_string new_gov) penalty) c
        | None => c
        end
      else c
    else c.

End Country.

(** ** game/models/diplomacy.py *)

Module Diplomacy.

Local Open Scope Q_scope.

Inductive RelationType : Type := HOSTILE | POOR | NEUTRAL | FRIENDLY | ALLIED.

Inductive DiplomaticAction : Type :=
  | IMPROVE_RELATIONS | WORSEN_RELATIONS | TRADE_DEAL | ALLIANCE
  | WAR_DECLARATION | PEACE_TREATY | SANCTIONS | FOREIGN_AID.

(** [action.value]. *)
Definition action_value (a : DiplomaticAction) : string :=
  match a with
  | IMPROVE_RELATIONS => "improve_relations"
  | WORSEN_RELATIONS => "worsen_relations"
  | TRADE_DEAL => "trade_deal"
  | ALLIANCE => "alliance"
  | WAR_DECLARATION => "war_declaration"
  | PEACE_TREATY => "peace_treaty"
  | SANCTIONS => "sanctions"
  | FOREIGN_AID => "foreign_aid"
  end.

(** A relation refers to its two countries by their key in the country
    store. *)
Record DiplomaticRelation : Type := mkRelation {
  country1 : string;
  country2 : string;
  relation_value : Q;
  trade_deal : bool;
  alliance : bool;
  at_war : bool;
  sanctions : bool;
  trade_volume : Q
}.

Definition with_relation_value (v : Q) (o : DiplomaticRelation) : DiplomaticRelation :=
  {| country1 := country1 o; country2 := country2 o; relation_value := v;
     trade_deal := trade_deal o; alliance := alliance o; at_war := at_war o;
     sanctions := sanctions o; trade_volume := trade_volume o |}.

Definition with_trade_deal (v : bool) (o : DiplomaticRelation) : DiplomaticRelation :=
  {| country1 := country1 o; country2 := country2 o;
     relation_value := relation_value o; trade_deal := v;
     alliance := alliance o; at_war := at_war o; sanctions := sanctions o;
     trade_volume := trade_volume o |}.

Definition with_alliance (v : bool) (o : DiplomaticRelation) : DiplomaticRelation :=
  {| country1 := country1 o; country2 := country2 o;
     relation_value := relation_value o; trade_deal := trade_deal o;
     alliance := v; at_war := at_war o; sanctions := sanctions o;
     trade_volume := trade_volume o |}.

Definition with_at_war (v : bool) (o : DiplomaticRelation) : DiplomaticRelation :=
  {| country1 := country1 o; country2 := country2 o;
     relation_value := relation_value o; trade_deal := trade_deal o;
     alliance := alliance o; at_war := v; sanctions := sanctions o;
     trade_volume := trade_volume o |}.

Definition with_sanctions (v : bool) (o : DiplomaticRelation) : DiplomaticRelation :=
  {| country1 := country1 o; country2 := country2 o;
     relation_value := relation_value o; trade_deal := trade_deal o;
     alliance := alliance o; at_war := at_war o; sanctions := v;
     trade_volume := trade_volume o |}.

Definition get_relation_type (r : DiplomaticRelation) : RelationType :=
  if at_war r then HOSTILE
  else if alliance r then ALLIED
  else if Qle_bool 60 (relation_value r) then FRIENDLY
  else if Qle_bool (relation_value r) (-60) then POOR
  else NEUTRAL.

Definition update_relation (change : Q) (r : DiplomaticRelation)
    : DiplomaticRelation :=
  let r := with_relation_value (relation_value r + change) r in
  let r :=
    with_relation_value (Py.max (-100) (Py.min 100 (relation_value r))) r in
  let r :=
    if Py.ltb (relation_value r) (-80) && alliance r
    then with_alliance false r else r in
  if Py.ltb (relation_value r) (-90) && trade_deal r
  then with_trade_deal false r else r.

(** An entry of [recent_actions]. *)
Record ActionRecord : Type := mkActionRecord {
  actor : string;
  target : string;
  action : string;
  message : string;
  player_initiated : bool
}.

(** The relation dictionary keeps its insertion order, which is the order
    in which [resolve_wars] visits the relations. *)
Record DiplomacySystem : Type := mkDiplomacySystem {
  relations : list (string * string * DiplomaticRelation);
  recent_actions : list ActionRecord
}.

(** The world as the diplomacy system sees it: the country objects, keyed
    by name, and its own state. *)
Record World : Type := mkWorld {
  countries : gmap string Country.Country;
  diplomacy : DiplomacySystem
}.

(** [tuple(sorted([country1_name, country2_name]))]. *)
Definition get_relation_key (country1_name country2_name : string)
    : string * string :=
  if String.ltb country2_name country1_name
  then (country2_name, country1_name)
  else (country1_name, country2_name).

(** [self.relations.get(key)]. *)
Definition relations_get (key : string * string)
    (rs : list (string * string * DiplomaticRelation))
    : option DiplomaticRelation :=
  snd <$> find (fun kr => bool_decide (fst kr = key)) rs.

Definition get_relation (country1_name country2_name : string)
    (d : DiplomacySystem) : option DiplomaticRelation :=
  relations_get (get_relation_key country1_name country2_name) (relations d).

(** In-place mutation of the relation object stored under [key]. *)
Definition relations_modify (key : string * string)
    (f : DiplomaticRelation -> DiplomaticRelation)
    (rs : list (string * string * DiplomaticRelation))
    : list (string * string * DiplomaticRelation) :=
  map (fun kr => if bool_decide (fst kr = key) then (fst kr, f (snd kr))
                 else kr) rs.

Definition modify_relation (key : string * string)
    (f : DiplomaticRelation -> DiplomaticRelation) (w : World) : World :=
  {| countries := countries w;
     diplomacy :=
       {| relations := relations_modify key f (relations (diplomacy w));
          recent_actions := recent_actions (diplomacy w) |} |}.

(** In-place mutation of the country object stored under [key]. *)
Definition modify_country (key : string)
    (f : Country.Country -> Country.Country) (w : World) : World :=
  {| countries := alter f key (countries w); diplomacy := diplomacy w |}.

Definition modify_economy (key : string)
    (f : Economy.Economy -> Economy.Economy) : World -> World :=
  modify_country key (Country.modify_economy f).

Definition modify_population (key : string)
    (f : Population.Population -> Population.Population) : World -> World :=
  modify_country key (Country.modify_population f).

Definition modify_government (key : string)
    (f : Government.Government -> Government.Government) : World -> World :=
  modify_country key (Country.modify_government f).

(** [self.recent_actions.append(...)]. *)
Definition append_action (rec : ActionRecord) (w : World) : World :=
  {| countries := countries w;
     diplomacy :=
       {| relations := relations (diplomacy w);
          recent_actions := recent_actions (diplomacy w) ++ [rec] |} |}.

(** The branch of [perform_diplomatic_action] selected by [action], for an
    existing [relation] stored under [key]; [a] and [t] are the actor and
    target objects as they are when the action starts, [improvement] is
    the draw of [random.uniform(5, 15)]. *)
Definition apply_action (actor_key target_key : string)
    (a t : Country.Country) (key : string * string)
    (relation : DiplomaticRelation) (action : DiplomaticAction)
    (improvement : Q) (w : World) : bool * string * World :=
  let actor_name := Country.name a in
  let target_name := Country.name t in
  match action with
  | IMPROVE_RELATIONS =>
      let w := modify_relation key (update_relation improvement) w in
      (true, actor_name +:+ " improves relations with " +:+ target_name, w)
  | TRADE_DEAL =>
      if Py.ltb 20 (relation_value relation) && negb (at_war relation) then
        let w := modify_relation key (with_trade_deal true) w in
        let trade_benefit :=
          Py.min (Economy.gdp (Country.economy a))
                 (Economy.gdp (Country.economy t)) * 0.02 in
        let w := modify_economy actor_key
                   (fun e => Economy.with_gdp (Economy.gdp e + trade_benefit) e)
                   w in
        let w := modify_economy target_key
                   (fun e => Economy.with_gdp (Economy.gdp e + trade_benefit) e)
                   w in
        (true, actor_name +:+ " signs trade deal with " +:+ target_name, w)
      else (false, "Trade deal rejected - insufficient relations"%string, w)
  | ALLIANCE =>
      if Py.ltb 50 (relation_value relation) && negb (at_war relation) then
        let w := modify_relation key (with_alliance true) w in
        let w := modify_relation key (update_relation 10) w in
        (true, actor_name +:+ " forms alliance with " +:+ target_name, w)
      else (false, "Alliance rejected - insufficient relations"%string, w)
  | WAR_DECLARATION =>
      if negb (alliance relation) then
        let w := modify_relation key (with_at_war true) w in
        let w := modify_relation key (with_alliance false) w in
        let w := modify_relation key (with_trade_deal false) w in
        let w := modify_relation key (update_relation (-30)) w in
        let w := modify_economy actor_key
                   (fun e => Economy.with_military_spending
                               (Economy.military_spending e + 0.05) e) w in
        let w := modify_economy target_key
                   (fun e => Economy.with_military_spending
                               (Economy.military_spending e + 0.05) e) w in
        (true, actor_name +:+ " declares war on " +:+ target_name +:+ "!", w)
      else (false, "Cannot declare war on ally"%string, w)
  | PEACE_TREATY =>
      if at_war relation then
        let w := modify_relation key (with_at_war false) w in
        let w := modify_relation key (update_relation 20) w in
        let w := modify_economy actor_key
                   (fun e => Economy.with_military_spending
                               (Py.max 0.05 (Economy.military_spending e - 0.05))
                               e) w in
        let w := modify_economy target_key
                   (fun e => Economy.with_military_spending
                               (Py.max 0.05 (Economy.military_spending e - 0.05))
                               e) w in
        (true, actor_name +:+ " signs peace treaty with " +:+ target_name, w)
      else (false, "No active war to end"%string, w)
  | SANCTIONS =>
      if negb (alliance relation) && Py.ltb (relation_value relation) 0 then
        let w := modify_relation key (with_sanctions true) w in
        let w := modify_relation key (with_trade_deal false) w in
        let w := modify_relation key (update_relation (-10)) w in
        let w := modify_economy target_key
                   (fun e => Economy.with_gdp (Economy.gdp e * 0.98) e) w in
        let w := modify_population target_key
                   (fun p => Population.with_happiness
                               (Population.happiness p - 5) p) w in
        (true, actor_name +:+ " imposes sanctions on " +:+ target_name, w)
      else (false, "Cannot impose sanctions"%string, w)
  | FOREIGN_AID =>
      if Py.ltb (Economy.gdp (Country.economy t) * 2)
                (Economy.gdp (Country.economy a)) then
        let aid_amount := Economy.gdp (Country.economy a) * 0.01 in
        let w := modify_economy actor_key
                   (fun e => Economy.with_gdp (Economy.gdp e - aid_amount) e)
                   w in
        let w := modify_economy target_key
                   (fun e => Economy.with_gdp (Economy.gdp e + aid_amount) e)
                   w in
        let w := modify_relation key (update_relation 15) w in
        (true, actor_name +:+ " provides foreign aid to " +:+ target_name, w)
      else (false, "Insufficient resources for foreign aid"%string, w)
  | WORSEN_RELATIONS => (false, EmptyString, w)
  end.

(** [perform_diplomatic_action(actor_country, target_country, action,
    player_initiated)].  The two country arguments are references into
    the store; a dangling reference, which Python cannot express, is
    [None]. *)
Definition perform_diplomatic_action (actor_key target_key : string)
    (action : DiplomaticAction) (player_initiated : bool) (improvement : Q)
    (w : World) : option (bool * string * World) :=
  a ← countries w !! actor_key;
  t ← countries w !! target_key;
  match get_relation (Country.name a) (Country.name t) (diplomacy w) with
  | None => Some (false, "No diplomatic relation exists"%string, w)
  | Some relation =>
      let key := get_relation_key (Country.name a) (Country.name t) in
      let '(success, message, w) :=
        apply_action actor_key target_key a t key relation action
          improvement w in
      let w :=
        if success then
          append_action
            {| actor := Country.name a; target := Country.name t;
               action := action_value action; message := message;
               player_initiated := player_initiated |} w
        else w in
      Some (success, message, w)
  end.

(** One iteration of the loop of [resolve_wars], for the relation stored
    under [key]; [draw] is the draw of [random.random()], made only when
    the relation is at war. *)
Definition resolve_war (key : string * string) (draw : Q) (w : World)
    : option World :=
  relation ← relations_get key (relations (diplomacy w));
  if at_war relation then
    let k1 := country1 relation in
    let k2 := country2 relation in
    c1 ← countries w !! k1;
    c2 ← countries w !! k2;
    let country1_strength :=
      Country.military_strength c1
      * (Government.stability (Country.government c1) / 100) in
    let country2_strength :=
      Country.military_strength c2
      * (Government.stability (Country.government c2) / 100) in
    let w := modify_economy k1
               (fun e => Economy.with_gdp (Economy.gdp e * 0.999) e) w in
    let w := modify_economy k2
               (fun e => Economy.with_gdp (Economy.gdp e * 0.999) e) w in
    let w := modify_population k1
               (fun p => Population.with_happiness
                           (Population.happiness p - 0.1) p) w in
    let w := modify_population k2
               (fun p => Population.with_happiness
                           (Population.happiness p - 0.1) p) w in
    let w := modify_government k1
               (fun g => Government.with_stability
                           (Government.stability g - 0.1) g) w in
    let w := modify_government k2
               (fun g => Government.with_stability
                           (Government.stability g - 0.1) g) w in
    if Py.ltb draw 0.01 then
      let winner :=
        if Py.ltb country2_strength country1_strength then k1 else k2 in
      let loser := if decide (winner = k1) then k2 else k1 in
      let w := modify_relation key (with_at_war false) w in
      let w := modify_economy winner
                 (fun e => Economy.with_gdp (Economy.gdp e * 1.05) e) w in
      let w := modify_economy loser
                 (fun e => Economy.with_gdp (Economy.gdp e * 0.95) e) w in
      let w := modify_economy winner
                 (fun e => Economy.with_military_spending
                             (Py.max 0.05 (Economy.military_spending e - 0.03))
                             e) w in
      let w := modify_economy loser
                 (fun e => Economy.with_military_spending
                             (Py.max 0.05 (Economy.military_spending e - 0.03))
                             e) w in
      Some w
    else Some w
  else Some w.

(** [resolve_wars]: the relations are visited in dictionary order;
    [draws i] is the draw available to the relation at position [i]. *)
Definition resolve_wars (draws : nat -> Q) (w : World) : option World :=
  foldl (fun ow ik => w ← ow; resolve_war (snd ik) (draws (fst ik)) w)
        (Some w)
        (imap (fun i kr => (i, fst kr)) (relations (diplomacy w))).

End Diplomacy.

(** * Verified properties *)

(** ** Facts about the numeric helpers *)

Section PyFacts.

Local Open Scope Q_scope.

Lemma ltb_lt (x y : Q) : Py.ltb x y = true <-> x < y.
Proof.
  unfold Py.ltb. rewrite negb_true_iff.
  split.
  - intros H. apply Qnot_le_lt. intros Hle.
    apply Qle_bool_iff in Hle. congruence.
  - intros H. destruct (Qle_bool y x) eqn:E; [|reflexivity].
    apply Qle_bool_iff in E. lra.
Qed.

Lemma ltb_ge (x y : Q) : Py.ltb x y = false <-> y <= x.
Proof.
  unfold Py.ltb. rewrite negb_false_iff. apply Qle_bool_iff.
Qed.

Lemma ltb_irrefl (x : Q) : Py.ltb x x = false.
Proof. apply ltb_ge. lra. Qed.

Lemma if_same {A : Type} (c : bool) (x : A) : (if c then x else x) = x.
Proof. destruct c; reflexivity. Qed.

End PyFacts.

(** Case analysis on every comparison of the goal, turning each outcome
    into a linear fact. *)
Ltac py_compare :=
  repeat match goal with
  | |- context [Py.ltb ?a ?b] =>
      let E := fresh "Hcmp" in
      destruct (Py.ltb a b) eqn:E;
      [apply ltb_lt in E | apply ltb_ge in E]
  | _ : context [Py.ltb ?a ?b] |- _ =>
      let E := fresh "Hcmp" in
      destruct (Py.ltb a b) eqn:E;
      [apply ltb_lt in E | apply ltb_ge in E]
  end.

Ltac py_arith := unfold Py.max, Py.min, Py.abs in *; py_compare; simpl in *; try lra.

Section PyBounds.

Local Open Scope Q_scope.

Lemma max_lower (a b : Q) : a <= Py.max a b.
Proof. py_arith. Qed.

Lemma max_upper (a b : Q) : b <= Py.max a b.
Proof. py_arith. Qed.

Lemma min_lower (a b : Q) : Py.min a b <= a.
Proof. py_arith. Qed.

Lemma min_upper (a b : Q) : Py.min a b <= b.
Proof. py_arith. Qed.

(** [max(lo, min(hi, x))] lands in [[lo, hi]] whenever [lo <= hi]. *)
Lemma clamp_range (lo hi x : Q) :
  lo <= hi -> lo <= Py.max lo (Py.min hi x) <= hi.
Proof. intros H. py_arith. Qed.

(** A value already in range is returned as it is. *)
Lemma clamp_id (lo hi x : Q) :
  lo <= x <= hi -> Py.max lo (Py.min hi x) == x.
Proof. intros H. py_arith. Qed.

End PyBounds.

(** ** Economy: budget allocation and the budget update *)

Section EconomyFacts.

Import Economy.
Local Open Scope Q_scope.

(** The share that [allocate_budget] works with after its five optional
    assignments: the clamped argument, or the stored share when the
    argument is omitted. *)
Definition requested_share (arg : option Q) (stored : Q) : Q :=
  match arg with
  | Some v => Py.max 0 (Py.min 1 v)
  | None => stored
  end.

(** The [total] computed by [allocate_budget]. *)
Definition requested_total
    (healthcare education military infrastructure welfare : option Q)
    (e : Economy) : Q :=
  requested_share healthcare (healthcare_spending e)
  + requested_share education (education_spending e)
  + requested_share military (military_spending e)
  + requested_share infrastructure (infrastructure_spending e)
  + requested_share welfare (welfare_spending e).

Definition shares_sum (e : Economy) : Q :=
  healthcare_spending e + education_spending e + military_spending e
  + infrastructure_spending e + welfare_spending e.

Definition unit_interval (x : Q) : Prop := 0 <= x <= 1.

Definition shares_in_unit (e : Economy) : Prop :=
  unit_interval (healthcare_spending e)
  /\ unit_interval (education_spending e)
  /\ unit_interval (military_spending e)
  /\ unit_interval (infrastructure_spending e)
  /\ unit_interval (welfare_spending e).

(** A share that the call leaves to its stored value must not be
    negative; a share that the call sets is unconstrained. *)
Definition omitted_nonneg (arg : option Q) (stored : Q) : Prop :=
  match arg with
  | Some _ => True
  | None => 0 <= stored
  end.

Definition omitted_shares_nonneg
    (healthcare education military infrastructure welfare : option Q)
    (e : Economy) : Prop :=
  omitted_nonneg healthcare (healthcare_spending e)
  /\ omitted_nonneg education (education_spending e)
  /\ omitted_nonneg military (military_spending e)
  /\ omitted_nonneg infrastructure (infrastructure_spending e)
  /\ omitted_nonneg welfare (welfare_spending e).

Lemma requested_share_nonneg (arg : option Q) (stored : Q) :
  omitted_nonneg arg stored -> 0 <= requested_share arg stored.
Proof.
  destruct arg as [v|]; simpl; intros H; [|exact H].
  apply max_lower.
Qed.

(** The shares after the five optional assignments of
    [allocate_budget]. *)
Lemma assigned_shares_eq (h ed m i wf : option Q) (e : Economy) :
  let e5 :=
    assign_share wf with_welfare_spending
      (assign_share i with_infrastructure_spending
         (assign_share m with_military_spending
            (assign_share ed with_education_spending
               (assign_share h with_healthcare_spending e)))) in
  healthcare_spending e5 = requested_share h (healthcare_spending e)
  /\ education_spending e5 = requested_share ed (education_spending e)
  /\ military_spending e5 = requested_share m (military_spending e)
  /\ infrastructure_spending e5
     = requested_share i (infrastructure_spending e)
  /\ welfare_spending e5 = requested_share wf (welfare_spending e).
Proof. destruct h, ed, m, i, wf; repeat split. Qed.

(** What [allocate_budget] stores, share by share. *)
Lemma allocate_budget_shares_eq (h ed m i wf : option Q) (e : Economy) :
  let total := requested_total h ed m i wf e in
  let scaled (x : Q) := if Py.ltb 1 total then x * (1 / total) else x in
  let e' := allocate_budget h ed m i wf e in
  healthcare_spending e' = scaled (requested_share h (healthcare_spending e))
  /\ education_spending e' = scaled (requested_share ed (education_spending e))
  /\ military_spending e' = scaled (requested_share m (military_spending e))
  /\ infrastructure_spending e'
     = scaled (requested_share i (infrastructure_spending e))
  /\ welfare_spending e' = scaled (requested_share wf (welfare_spending e))
  /\ other_spending e' = Py.max 0 (1 - total).
Proof.
  unfold allocate_budget, requested_total. cbv zeta.
  destruct (assigned_shares_eq h ed m i wf e) as (H1 & H2 & H3 & H4 & H5).
  cbv zeta in H1, H2, H3, H4, H5.
  set (e5 := assign_share wf _ _) in *.
  rewrite <- H1, <- H2, <- H3, <- H4, <- H5.
  clearbody e5.
  destruct (Py.ltb 1 _); repeat split.
Qed.

(** Dividing a part by a whole that exceeds 1. *)
Lemma scaled_part_in_unit (x t : Q) :
  0 <= x -> x <= t -> 1 < t -> 0 <= x * (1 / t) <= 1.
Proof.
  intros Hx Hxt Ht.
  assert (Hk : 0 < 1 / t) by (apply Qlt_shift_div_l; lra).
  assert (Hkt : t * (1 / t) == 1) by (field; lra).
  split.
  - apply Qmult_le_0_compat; lra.
  - apply Qle_trans with (t * (1 / t)).
    + apply Qmult_le_compat_r; lra.
    + rewrite Hkt. lra.
Qed.

(** X30. When the shares that an [allocate_budget] call does not set
    are not negative, every share lies in [[0, 1]] afterwards, and
    [other_spending] is [max(0, 1 - total)] for the total of the five
    shares after the assignments: a share that is set is the argument
    clamped to [[0, 1]], one that is not set is the stored share. When
    that total is at most 1 the five shares are stored as they are, they
    sum to the total and [other_spending] is the remainder; when it
    exceeds 1 every share is multiplied by the same factor [1 / total]
    (proportional rescaling) and [other_spending] is 0. *)
Theorem allocate_budget_shares_proportional
    (h ed m i wf : option Q) (e : Economy) :
  omitted_shares_nonneg h ed m i wf e ->
  let total := requested_total h ed m i wf e in
  let e' := allocate_budget h ed m i wf e in
  shares_in_unit e'
  /\ other_spending e' = Py.max 0 (1 - total)
  /\ (total <= 1 ->
      healthcare_spending e' = requested_share h (healthcare_spending e)
      /\ education_spending e' = requested_share ed (education_spending e)
      /\ military_spending e' = requested_share m (military_spending e)
      /\ infrastructure_spending e'
         = requested_share i (infrastructure_spending e)
      /\ welfare_spending e' = requested_share wf (welfare_spending e)
      /\ shares_sum e' = total
      /\ other_spending e' == 1 - total)
  /\ (1 < total ->
      healthcare_spending e'
      = requested_share h (healthcare_spending e) * (1 / total)
      /\ education_spending e'
         = requested_share ed (education_spending e) * (1 / total)
      /\ military_spending e'
         = requested_share m (military_spending e) * (1 / total)
      /\ infrastructure_spending e'
         = requested_share i (infrastructure_spending e) * (1 / total)
      /\ welfare_spending e'
         = requested_share wf (welfare_spending e) * (1 / total)
      /\ other_spending e' = 0).
Proof.
  intros (Hh & He & Hm & Hi & Hw) total e'.
  apply requested_share_nonneg in Hh, He, Hm, Hi, Hw.
  destruct (allocate_budget_shares_eq h ed m i wf e)
    as (Eh & Ee & Em & Ei & Ew & Eo).
  fold total e' in Eh, Ee, Em, Ei, Ew, Eo.
  unfold shares_in_unit, shares_sum, unit_interval.
  rewrite Eh, Ee, Em, Ei, Ew, Eo. clear Eh Ee Em Ei Ew Eo e'.
  unfold requested_total in total.
  set (H := requested_share h _) in *.
  set (E := requested_share ed _) in *.
  set (M := requested_share m _) in *.
  set (I := requested_share i _) in *.
  set (W := requested_share wf _) in *.
  assert (Htotal : total = H + E + M + I + W) by reflexivity.
  assert (Hsum : total == H + E + M + I + W) by reflexivity.
  clearbody total H E M I W.
  destruct (Py.ltb 1 total) eqn:Hcmp;
    [apply ltb_lt in Hcmp | apply ltb_ge in Hcmp].
  - assert (BH := scaled_part_in_unit H total).
    assert (BE := scaled_part_in_unit E total).
    assert (BM := scaled_part_in_unit M total).
    assert (BI := scaled_part_in_unit I total).
    assert (BW := scaled_part_in_unit W total).
    assert (Hother : Py.max 0 (1 - total) = 0).
    { unfold Py.max.
      destruct (Py.ltb 0 (1 - total)) eqn:Ho; [|reflexivity].
      apply ltb_lt in Ho. lra. }
    split; [repeat split; lra|].
    split; [reflexivity|].
    split; [intros Hle; lra|].
    intros _. repeat (split; [reflexivity|]). exact Hother.
  - split; [repeat split; lra|].
    split; [reflexivity|].
    split; [|intros Hlt; lra].
    intros _. repeat (split; [reflexivity|]).
    split; [symmetry; exact Htotal|].
    unfold Py.max. py_compare; lra.
Qed.

Lemma allocate_budget_shares_proportional_witness :
  let e' := allocate_budget (Some 0.9) (Some 0.7) None None None
              (init 100000 1000000) in
  shares_in_unit e'
  /\ healthcare_spending e' = 0.9 * (1 / (0.9 + 0.7 + 0.10 + 0.20 + 0.15))
  /\ education_spending e' = 0.7 * (1 / (0.9 + 0.7 + 0.10 + 0.20 + 0.15))
  /\ military_spending e' = 0.10 * (1 / (0.9 + 0.7 + 0.10 + 0.20 + 0.15))
  /\ other_spending e' = 0.
Proof.
  destruct (allocate_budget_shares_proportional (Some 0.9) (Some 0.7) None
              None None (init 100000 1000000))
    as (Hunit & _ & _ & Hscaled).
  { repeat split; vm_compute; discriminate. }
  destruct Hscaled as (Eh & Ee & Em & _ & _ & Eo).
  { vm_compute. reflexivity. }
  split; [exact Hunit|].
  split; [exact Eh|]. split; [exact Ee|]. split; [exact Em | exact Eo].
Defined.

(** The three outcomes of the debt reconciliation. *)
Lemma reconcile_debt_cases (spending revenue : Q) (e : Economy) :
  (revenue < spending ->
     reconcile_debt spending revenue e
     = with_debt (debt e + (spending - revenue)) e)
  /\ (spending < revenue ->
       reconcile_debt spending revenue e
       = with_debt
           (debt e - Py.min (debt e) ((revenue - spending) * 0.5)) e)
  /\ (spending == revenue -> reconcile_debt spending revenue e = e).
Proof.
  unfold reconcile_debt. repeat split; intros H; py_compare;
    try reflexivity; lra.
Qed.

(** C9.  [update_budget] stores [gdp * tax_rate] in [government_budget]
    and changes nothing else: its spending is its revenue, so neither
    branch of the debt reconciliation is taken.  The reconciliation
    itself adds a shortfall to the debt and, on a surplus, pays down
    [min(debt, surplus / 2)]: at most half the surplus and at most the
    existing debt. *)
Theorem update_budget_only_sets_budget (e : Economy) :
  update_budget e = with_government_budget (gdp e * tax_rate e) e
  /\ government_budget (update_budget e) = calculate_tax_revenue e
  /\ debt (update_budget e) = debt e
  /\ (forall spending revenue : Q,
        (revenue < spending ->
           debt (reconcile_debt spending revenue e)
           = debt e + (spending - revenue))
        /\ (spending < revenue ->
             exists payment : Q,
               debt (reconcile_debt spending revenue e) = debt e - payment
               /\ payment <= (revenue - spending) * 0.5
               /\ payment <= debt e)).
Proof.
  assert (E : update_budget e
              = with_government_budget (gdp e * tax_rate e) e).
  { unfold update_budget, calculate_tax_revenue.
    destruct (reconcile_debt_cases (gdp e * tax_rate e)
                (gdp e * tax_rate e) e) as (_ & _ & Hsame).
    rewrite Hsame; [reflexivity | lra]. }
  split; [exact E|]. rewrite E.
  split; [reflexivity|]. split; [reflexivity|].
  intros spending revenue.
  destruct (reconcile_debt_cases spending revenue e) as (Hshort & Hsurplus & _).
  split; intros H.
  - rewrite (Hshort H). reflexivity.
  - rewrite (Hsurplus H). eexists. split; [reflexivity|].
    split; [apply min_upper | apply min_lower].
Qed.

End EconomyFacts.

(** ** Economy: budget allocation on binary64 floats *)

Section BinaryBudgetFacts.

Import PrimFloat.
Local Open Scope float_scope.

(** The sum of the five shares, added in the order of the source. *)
Definition shares_total (e : Binary64.Budget) : float :=
  Binary64.healthcare_spending e + Binary64.education_spending e
  + Binary64.military_spending e + Binary64.infrastructure_spending e
  + Binary64.welfare_spending e.

(** C5 on the code.  On a fresh economy the healthcare slider of the
    economy tab, dragged to pixel 177 of its track of 200 pixels, calls
    [allocate_budget(healthcare=0.35400000000000004)].  The total of
    the shares is then 1.004, the shares are rescaled, and the rescaled
    shares sum to 1.0000000000000002, which is more than 1.0: every
    product [share * scale] is rounded.  The function's own test
    [total > 1.0] therefore holds of its own result, and a second call
    without arguments rescales all five shares once more.  The same
    happens for [allocate_budget(healthcare=-1, education=2)]. *)
Theorem rescaled_shares_exceed_one_on_binary64 :
  let value := Binary64.update_value 820 200 0 0.4 997 in
  let e1 :=
    Binary64.allocate_budget (Some value) None None None None
      Binary64.init in
  let e2 := Binary64.allocate_budget None None None None None e1 in
  let e3 :=
    Binary64.allocate_budget (Some (-1)) (Some 2) None None None
      Binary64.init in
  value = 0.35400000000000004
  /\ shares_total e1 = 1.0000000000000002
  /\ ltb 1 (shares_total e1) = true
  /\ e1 = {| Binary64.healthcare_spending := 0.35258964143426297;
             Binary64.education_spending := 0.19920318725099603;
             Binary64.military_spending := 0.099601593625498017;
             Binary64.infrastructure_spending := 0.19920318725099603;
             Binary64.welfare_spending := 0.14940239043824702;
             Binary64.other_spending := 0 |}
  /\ e2 = {| Binary64.healthcare_spending := 0.35258964143426291;
             Binary64.education_spending := 0.19920318725099598;
             Binary64.military_spending := 0.099601593625497989;
             Binary64.infrastructure_spending := 0.19920318725099598;
             Binary64.welfare_spending := 0.14940239043824699;
             Binary64.other_spending := 0 |}
  /\ shares_total e3 = 1.0000000000000002
  /\ ltb 1 (shares_total e3) = true.
Proof.
  cbv zeta. repeat split; vm_compute; reflexivity.
Qed.

End BinaryBudgetFacts.

(** ** Population: health and education under spending *)

Section PopulationFacts.

Import Population.
Local Open Scope Q_scope.




End PopulationFacts.

(** ** Government: the roster, the ruling party and the election timer *)

Section GovernmentFacts.

Import Constants Government.
Local Open Scope Q_scope.



(** No party of the roster is more popular than the ruling party. *)
Definition ruling_is_most_popular (g : Government) : Prop :=
  exists r : PoliticalParty,
    parties g !! ruling_party g = Some r
    /\ Forall (fun p => popularity p <= popularity r) (parties g).

(** Every way in which the system writes to a government object: the
    methods of [Government] with arbitrary arguments and draws, and the
    war attrition that [resolve_wars] applies to [stability]. *)
Inductive gov_step : Government -> Government -> Prop :=
  | step_update_government a eh c noise g g' :
      update_government a eh c noise g = Some g' -> gov_step g g'
  | step_update_party_popularity a eh g :
      gov_step g (update_party_popularity a eh g)
  | step_hold_election noise g g' :
      hold_election noise g = Some g' -> gov_step g g'
  | step_change_government_type new_type penalty g :
      gov_step g (change_government_type new_type penalty g)
  | step_pass_law law_name value change g :
      gov_step g (pass_law law_name value change g)
  | step_trigger_political_event event_type d1 d2 d3 g :
      gov_step g (trigger_political_event event_type d1 d2 d3 g)
  | step_war_attrition g :
      gov_step g (with_stability (stability g - 0.1) g).

(** The government states of a run: a freshly constructed government of
    any type, followed by any number of writes. *)
Inductive reachable : Government -> Prop :=
  | reachable_init t d1 d2 d3 d4 : reachable (init t d1 d2 d3 d4)
  | reachable_step g g' : reachable g -> gov_step g g' -> reachable g'.

(** The election timer holds the election frequency of the current type. *)
Definition timer_is_frequency (g : Government) : Prop :=
  next_election g = election_frequency (GOVERNMENT_TYPES (type g)).

Lemma max_scan_spec (ps pre : list PoliticalParty) (bi : nat) (b : Q) :
  (exists pb, pre !! bi = Some pb /\ popularity pb = b) ->
  Forall (fun p => popularity p <= b) pre ->
  exists pr,
    (pre ++ ps) !! max_scan bi b (length pre) ps = Some pr
    /\ Forall (fun p => popularity p <= popularity pr) (pre ++ ps).
Proof.
  revert pre bi b.
  induction ps as [|p rest IH]; intros pre bi b (pb & Hpb & Hb) Hall.
  - simpl. rewrite app_nil_r. exists pb. split; [exact Hpb|].
    rewrite Hb. exact Hall.
  - simpl.
    replace (pre ++ p :: rest) with ((pre ++ [p]) ++ rest)
      by (rewrite <- app_assoc; reflexivity).
    replace (S (length pre)) with (length (pre ++ [p]))
      by (rewrite length_app; simpl; lia).
    destruct (Py.ltb b (popularity p)) eqn:E;
      [apply ltb_lt in E | apply ltb_ge in E].
    + apply IH.
      * exists p. split; [|reflexivity].
        rewrite lookup_app_r by lia.
        rewrite Nat.sub_diag. reflexivity.
      * apply Forall_app. split.
        -- eapply Forall_impl; [exact Hall|]. simpl. intros; lra.
        -- constructor; [lra | constructor].
    + apply IH.
      * exists pb. split; [|exact Hb].
        rewrite lookup_app_l; [exact Hpb|].
        apply lookup_lt_Some in Hpb. exact Hpb.
      * apply Forall_app. split; [exact Hall|].
        constructor; [exact E | constructor].
Qed.

(** [max] returns the index of a party that no other party exceeds. *)
Lemma max_by_popularity_spec (ps : list PoliticalParty) (winner : nat) :
  max_by_popularity ps = Some winner ->
  exists pr,
    ps !! winner = Some pr
    /\ Forall (fun p => popularity p <= popularity pr) ps.
Proof.
  destruct ps as [|p rest]; simpl; [discriminate|].
  intros [= <-].
  apply (max_scan_spec rest [p] 0%nat (popularity p)).
  - exists p. split; reflexivity.
  - constructor; [lra | constructor].
Qed.

Lemma names_alter_popularity (f : Q -> Q) (i : nat)
    (ps : list PoliticalParty) :
  map name (alter_popularity f i ps) = map name ps.
Proof.
  unfold alter_popularity. revert i.
  induction ps as [|p rest IH]; intros [|i]; simpl; try reflexivity.
  f_equal. apply IH.
Qed.

Lemma names_imap (f : nat -> PoliticalParty -> PoliticalParty)
    (ps : list PoliticalParty) :
  (forall i p, name (f i p) = name p) ->
  map name (imap f ps) = map name ps.
Proof.
  revert f. induction ps as [|p rest IH]; intros f Hf; simpl; [reflexivity|].
  f_equal; [apply Hf|]. apply IH. intros i q. apply Hf.
Qed.

Lemma names_map (f : PoliticalParty -> PoliticalParty)
    (ps : list PoliticalParty) :
  (forall p, name (f p) = name p) -> map name (map f ps) = map name ps.
Proof.
  intros Hf. induction ps as [|p rest IH]; simpl; [reflexivity|].
  f_equal; [apply Hf | exact IH].
Qed.


(** The operations of a government leave the names of the roster, the
    ruling index, the type and the election timer as noted. *)
Lemma update_party_popularity_frame (a eh : Q) (g : Government) :
  map name (parties (update_party_popularity a eh g)) = map name (parties g)
  /\ ruling_party (update_party_popularity a eh g) = ruling_party g
  /\ type (update_party_popularity a eh g) = type g
  /\ next_election (update_party_popularity a eh g) = next_election g.
Proof.
  unfold update_party_popularity. cbv zeta.
  cbn [parties ruling_party type next_election with_parties].
  repeat split.
  repeat match goal with
  | |- context [if ?c then _ else _] => destruct c
  end;
  rewrite ?names_map, ?names_imap, ?names_alter_popularity;
  try reflexivity; intros; try case_decide; reflexivity.
Qed.

Lemma update_government_metrics_frame (a eh c : Q) (g : Government) :
  map name (parties (update_government_metrics a eh c g))
  = map name (parties g)
  /\ ruling_party (update_government_metrics a eh c g) = ruling_party g
  /\ type (update_government_metrics a eh c g) = type g
  /\ next_election (update_government_metrics a eh c g) = next_election g.
Proof.
  unfold update_government_metrics. cbv zeta.
  match goal with
  | |- context [update_party_popularity a eh ?g0] =>
      destruct (update_party_popularity_frame a eh g0) as (H1 & H2 & H3 & H4);
      rewrite H1, H2, H3, H4
  end.
  repeat split.
Qed.

Lemma hold_election_inv (noise : nat -> Q) (g g' : Government) :
  hold_election noise g = Some g' ->
  (election_frequency (GOVERNMENT_TYPES (type g)) = 0%Z /\ g' = g)
  \/ (election_frequency (GOVERNMENT_TYPES (type g)) <> 0%Z
      /\ map name (parties g') = map name (parties g)
      /\ max_by_popularity (parties g') = Some (ruling_party g')
      /\ type g' = type g
      /\ next_election g' = election_frequency (GOVERNMENT_TYPES (type g))).
Proof.
  unfold hold_election.
  destruct (Z.eqb_spec (election_frequency (GOVERNMENT_TYPES (type g))) 0)
    as [Hz|Hnz].
  - intros [= <-]. left. split; [exact Hz | reflexivity].
  - cbv zeta.
    match goal with
    | |- context [if ?c then None else _] => destruct c
    end; [discriminate|].
    match goal with
    | |- context [max_by_popularity ?ps] =>
        destruct (max_by_popularity ps) as [winner|] eqn:Hmax
    end; [|discriminate].
    intros [= <-]. right. split; [exact Hnz|].
    cbn [with_parties ruling_party parties]. 
    destruct (decide (winner = ruling_party g)) as [Heq|Hne];
      cbn; rewrite ?names_map, ?names_imap by reflexivity;
      repeat split; try exact Hmax.
    rewrite <- Heq. exact Hmax.
Qed.

Lemma change_government_type_frame (new_type : string) (penalty : Q)
    (g : Government) :
  parties (change_government_type new_type penalty g) = parties g
  /\ ruling_party (change_government_type new_type penalty g)
     = ruling_party g
  /\ (timer_is_frequency g ->
      timer_is_frequency (change_government_type new_type penalty g)).
Proof.
  unfold change_government_type, timer_is_frequency.
  destruct (lookup_key new_type) as [t|]; [|repeat split; tauto].
  cbv zeta. destruct (decide (type g = t)); cbn; repeat split.
Qed.

Lemma pass_law_frame (law_name : string) (value : bool) (change : Q)
    (g : Government) :
  parties (pass_law law_name value change g) = parties g
  /\ ruling_party (pass_law law_name value change g) = ruling_party g
  /\ type (pass_law law_name value change g) = type g
  /\ next_election (pass_law law_name value change g) = next_election g.
Proof.
  unfold pass_law.
  destruct (laws g !! law_name) as [old|]; [|repeat split].
  cbv zeta. destruct (bool_decide (old = value)); cbn; repeat split.
Qed.

Lemma trigger_political_event_frame (event_type : string) (d1 d2 d3 : Q)
    (g : Government) :
  map name (parties (trigger_political_event event_type d1 d2 d3 g))
  = map name (parties g)
  /\ ruling_party (trigger_political_event event_type d1 d2 d3 g)
     = ruling_party g
  /\ (timer_is_frequency g ->
      timer_is_frequency (trigger_political_event event_type d1 d2 d3 g)).
Proof.
  unfold trigger_political_event.
  destruct (change_government_type_frame "dictatorship" d2 g)
    as (Hp & Hr & Ht).
  unfold timer_is_frequency in *.
  repeat match goal with
  | |- context [if ?c then _ else _] => destruct c
  end; cbn - [alter_popularity change_government_type];
    rewrite ?names_alter_popularity, ?Hp, ?Hr; repeat split; auto.
Qed.

Lemma update_government_cases (a eh c : Q) (noise : nat -> Q)
    (g g' : Government) :
  update_government a eh c noise g = Some g' ->
  g' = update_government_metrics a eh c g
  \/ hold_election noise (update_government_metrics a eh c g) = Some g'.
Proof.
  unfold update_government.
  destruct (election_due (update_government_metrics a eh c g)).
  - intros H. right. exact H.
  - intros [= <-]. left. reflexivity.
Qed.


Lemma gov_step_timer (g g' : Government) :
  timer_is_frequency g -> gov_step g g' -> timer_is_frequency g'.
Proof.
  unfold timer_is_frequency. intros Ht Hstep.
  destruct Hstep as [a eh c noise g g' Hup | a eh g | noise g g' Hel
                    | nt pen g | ln v ch g | ev d1 d2 d3 g | g].
  - destruct (update_government_metrics_frame a eh c g)
      as (_ & _ & Hty & Hne).
    apply update_government_cases in Hup. destruct Hup as [-> | Hup].
    + rewrite Hty, Hne. exact Ht.
    + apply hold_election_inv in Hup.
      destruct Hup as [[_ ->] | (_ & _ & _ & Hty2 & Hne2)].
      * rewrite Hty, Hne. exact Ht.
      * rewrite Hty2, Hne2. reflexivity.
  - destruct (update_party_popularity_frame a eh g) as (_ & _ & Hty & Hne).
    rewrite Hty, Hne. exact Ht.
  - apply hold_election_inv in Hel.
    destruct Hel as [[_ ->] | (_ & _ & _ & Hty2 & Hne2)].
    + exact Ht.
    + rewrite Hty2, Hne2. reflexivity.
  - apply change_government_type_frame. exact Ht.
  - destruct (pass_law_frame ln v ch g) as (_ & _ & Hty & Hne).
    rewrite Hty, Hne. exact Ht.
  - apply trigger_political_event_frame. exact Ht.
  - exact Ht.
Qed.

Lemma reachable_timer (g : Government) :
  reachable g -> timer_is_frequency g.
Proof.
  induction 1 as [t d1 d2 d3 d4 | g g' _ IH Hstep].
  - reflexivity.
  - exact (gov_step_timer g g' IH Hstep).
Qed.

(** With the timer at the frequency of the type, no election is due. *)
Lemma timer_not_due (g : Government) :
  timer_is_frequency g -> election_due g = false.
Proof.
  unfold timer_is_frequency, election_due. intros ->.
  destruct (Z.leb_spec (election_frequency (GOVERNMENT_TYPES (type g))) 0);
    destruct (Z.ltb_spec 0 (election_frequency (GOVERNMENT_TYPES (type g))));
    simpl; try reflexivity; lia.
Qed.

(** The draws used by the concrete runs below. *)
Definition sample_draws : PartyDraws := mkPartyDraws 0.2 0.2 0.1 0.1.

Definition sample_government (t : GovType) : Government :=
  init t sample_draws sample_draws sample_draws sample_draws.

(** The [total] that [hold_election] divides by. *)
Definition election_total (noise : nat -> Q) (g : Government) : Q :=
  Py.sum
    (map popularity
       (imap (fun i p => with_popularity (popularity p + noise i) p)
          (parties g))).

(** [hold_election] returns unless it has to divide by a zero total. *)
Lemma hold_election_returns (noise : nat -> Q) (g : Government) :
  parties g <> [] -> ~ election_total noise g == 0 ->
  exists g', hold_election noise g = Some g'.
Proof.
  intros Hne Htotal. unfold hold_election.
  destruct (election_frequency (GOVERNMENT_TYPES (type g)) =? 0)%Z;
    [eexists; reflexivity|].
  cbv zeta. fold (election_total noise g).
  destruct (Qeq_bool (election_total noise g) 0) eqn:E.
  { apply Qeq_bool_iff in E. contradiction. }
  cbn [andb].
  destruct (parties g) as [|p rest]; [contradiction|].
  cbn [imap map max_by_popularity]. eexists. reflexivity.
Qed.






(** C7, refuted as stated: a write can lower the election timer.  In a
    republic the timer stands at 6; [change_government_type] to a
    democracy stores 4. *)
Lemma change_of_type_lowers_election_timer :
  reachable (sample_government republic)
  /\ next_election (sample_government republic) = 6%Z
  /\ next_election
       (change_government_type "democracy" 10 (sample_government republic))
     = 4%Z
  /\ (next_election
        (change_government_type "democracy" 10 (sample_government republic))
      < next_election (sample_government republic))%Z.
Proof.
  split; [apply reachable_init|].
  split; [reflexivity|]. split; [reflexivity|].
  vm_compute. reflexivity.
Qed.

(** C7, as the code has it.  In every government state of a run the
    election timer equals the election frequency of the current type: it
    is never counted down, and a write changes it only by changing the
    type.  Hence the state with the timer at or below 0 under a type that
    has elections does not occur, the election check of
    [update_government] always fails, and [update_government] returns the
    state it has computed before the check without calling
    [hold_election]. *)
Theorem election_never_due (g : Government) :
  reachable g ->
  timer_is_frequency g
  /\ ~ ((next_election g <= 0)%Z
        /\ (0 < election_frequency (GOVERNMENT_TYPES (type g)))%Z)
  /\ (forall g', gov_step g g' ->
                type g' = type g -> next_election g' = next_election g)
  /\ (forall a eh c noise,
        election_due (update_government_metrics a eh c g) = false
        /\ update_government a eh c noise g
           = Some (update_government_metrics a eh c g)).
Proof.
  intros Hreach.
  assert (Ht := reachable_timer g Hreach).
  split; [exact Ht|]. split.
  - unfold timer_is_frequency in Ht. rewrite Ht. lia.
  - split.
    + intros g' Hstep Hty.
      assert (Ht' := gov_step_timer g g' Ht Hstep).
      unfold timer_is_frequency in *. congruence.
    + intros a eh c noise.
      assert (Hdue : election_due (update_government_metrics a eh c g)
                     = false).
      { apply timer_not_due.
        destruct (update_government_metrics_frame a eh c g)
          as (_ & _ & Hty & Hne).
        unfold timer_is_frequency in *. congruence. }
      split; [exact Hdue|].
      unfold update_government. rewrite Hdue. reflexivity.
Qed.

Lemma election_never_due_witness :
  timer_is_frequency (sample_government democracy)
  /\ ~ ((next_election (sample_government democracy) <= 0)%Z
        /\ (0 < election_frequency
                  (GOVERNMENT_TYPES (type (sample_government democracy))))%Z)
  /\ (forall g', gov_step (sample_government democracy) g' ->
                type g' = type (sample_government democracy) ->
                next_election g' = next_election (sample_government democracy))
  /\ (forall a eh c noise,
        election_due
          (update_government_metrics a eh c (sample_government democracy))
        = false
        /\ update_government a eh c noise (sample_government democracy)
           = Some
               (update_government_metrics a eh c
                  (sample_government democracy))).
Proof.
  apply (election_never_due (sample_government democracy)).
  apply reachable_init.
Defined.

End GovernmentFacts.

(** ** Diplomacy: relations, actions and wars *)

Section DiplomacyFacts.

Import Diplomacy.
Local Open Scope Q_scope.

(** The value that [update_relation] stores for a requested value. *)
Definition clamp_relation (v : Q) : Q := Py.max (-100) (Py.min 100 v).

Lemma relations_get_modify (key key' : string * string)
    (f : DiplomaticRelation -> DiplomaticRelation)
    (rs : list (string * string * DiplomaticRelation)) :
  relations_get key' (relations_modify key f rs)
  = if decide (key = key') then f <$> relations_get key' rs
    else relations_get key' rs.
Proof.
  unfold relations_get, relations_modify.
  induction rs as [|[k r] rest IH]; simpl.
  - destruct (decide (key = key')); reflexivity.
  - destruct (decide (key = key')) as [<-|Hne].
    + destruct (bool_decide_reflect (k = key)) as [->|Hk]; simpl.
      * rewrite bool_decide_eq_true_2 by reflexivity. reflexivity.
      * rewrite bool_decide_eq_false_2 by exact Hk. exact IH.
    + destruct (bool_decide_reflect (k = key)) as [->|Hk]; simpl.
      * rewrite bool_decide_eq_false_2 by exact Hne. exact IH.
      * destruct (bool_decide (k = key')); [reflexivity | exact IH].
Qed.

Lemma relations_get_modify_eq (key : string * string)
    (f : DiplomaticRelation -> DiplomaticRelation)
    (rs : list (string * string * DiplomaticRelation)) :
  relations_get key (relations_modify key f rs) = f <$> relations_get key rs.
Proof.
  rewrite relations_get_modify. destruct (decide (key = key)); congruence.
Qed.

Lemma relation_of_modify_relation (n1 n2 : string)
    (f : DiplomaticRelation -> DiplomaticRelation) (w : World) :
  get_relation n1 n2 (diplomacy (modify_relation (get_relation_key n1 n2) f w))
  = f <$> get_relation n1 n2 (diplomacy w).
Proof. unfold get_relation. simpl. apply relations_get_modify_eq. Qed.

Lemma relation_of_modify_country (n1 n2 k : string)
    (f : Country.Country -> Country.Country) (w : World) :
  get_relation n1 n2 (diplomacy (modify_country k f w))
  = get_relation n1 n2 (diplomacy w).
Proof. reflexivity. Qed.

Lemma relation_of_modify_economy (n1 n2 k : string)
    (f : Economy.Economy -> Economy.Economy) (w : World) :
  get_relation n1 n2 (diplomacy (modify_economy k f w))
  = get_relation n1 n2 (diplomacy w).
Proof. reflexivity. Qed.

Lemma relation_of_modify_population (n1 n2 k : string)
    (f : Population.Population -> Population.Population) (w : World) :
  get_relation n1 n2 (diplomacy (modify_population k f w))
  = get_relation n1 n2 (diplomacy w).
Proof. reflexivity. Qed.

Lemma relation_of_modify_government (n1 n2 k : string)
    (f : Government.Government -> Government.Government) (w : World) :
  get_relation n1 n2 (diplomacy (modify_government k f w))
  = get_relation n1 n2 (diplomacy w).
Proof. reflexivity. Qed.

Lemma relation_of_append_action (n1 n2 : string) (rec : ActionRecord)
    (w : World) :
  get_relation n1 n2 (diplomacy (append_action rec w))
  = get_relation n1 n2 (diplomacy w).
Proof. reflexivity. Qed.

Lemma country_of_modify_relation (key : string * string) (k : string)
    (f : DiplomaticRelation -> DiplomaticRelation) (w : World) :
  countries (modify_relation key f w) !! k = countries w !! k.
Proof. reflexivity. Qed.

Lemma country_of_append_action (rec : ActionRecord) (k : string)
    (w : World) :
  countries (append_action rec w) !! k = countries w !! k.
Proof. reflexivity. Qed.

Lemma country_of_modify_country (k k' : string)
    (f : Country.Country -> Country.Country) (w : World) :
  countries (modify_country k f w) !! k'
  = if decide (k = k') then f <$> countries w !! k' else countries w !! k'.
Proof.
  unfold modify_country. simpl. rewrite lookup_alter.
  destruct (decide (k = k')) as [->|]; reflexivity.
Qed.

Lemma country_of_modify_economy (k k' : string)
    (f : Economy.Economy -> Economy.Economy) (w : World) :
  countries (modify_economy k f w) !! k'
  = if decide (k = k') then Country.modify_economy f <$> countries w !! k'
    else countries w !! k'.
Proof. apply country_of_modify_country. Qed.

Lemma country_of_modify_population (k k' : string)
    (f : Population.Population -> Population.Population) (w : World) :
  countries (modify_population k f w) !! k'
  = if decide (k = k') then Country.modify_population f <$> countries w !! k'
    else countries w !! k'.
Proof. apply country_of_modify_country. Qed.

Lemma country_of_modify_government (k k' : string)
    (f : Government.Government -> Government.Government) (w : World) :
  countries (modify_government k f w) !! k'
  = if decide (k = k') then Country.modify_government f <$> countries w !! k'
    else countries w !! k'.
Proof. apply country_of_modify_country. Qed.

(** Rewriting a lookup through the writes of an action. *)
Ltac world_lookup :=
  repeat first
    [ rewrite country_of_append_action
    | rewrite country_of_modify_relation
    | rewrite country_of_modify_economy
    | rewrite country_of_modify_population
    | rewrite country_of_modify_government
    | rewrite relation_of_append_action
    | rewrite relation_of_modify_relation
    | rewrite relation_of_modify_country
    | rewrite relation_of_modify_economy
    | rewrite relation_of_modify_population
    | rewrite relation_of_modify_government ];
  repeat match goal with
  | |- context [decide (?a = ?b)] =>
      destruct (decide (a = b)); try congruence
  end.

(** [update_relation] stores the clamped sum; the alliance ends when the
    stored value is below -80 and the trade deal when it is below -90. *)
Lemma update_relation_fields (change : Q) (r : DiplomaticRelation) :
  let v := clamp_relation (relation_value r + change) in
  relation_value (update_relation change r) = v
  /\ alliance (update_relation change r)
     = (if Py.ltb v (-80) then false else alliance r)
  /\ trade_deal (update_relation change r)
     = (if Py.ltb v (-90) then false else trade_deal r)
  /\ at_war (update_relation change r) = at_war r
  /\ sanctions (update_relation change r) = sanctions r
  /\ country1 (update_relation change r) = country1 r
  /\ country2 (update_relation change r) = country2 r
  /\ trade_volume (update_relation change r) = trade_volume r.
Proof.
  unfold update_relation, clamp_relation. cbv zeta.
  cbn - [Py.ltb Py.max Py.min Qplus].
  set (v := Py.max (-100) (Py.min 100 (relation_value r + change))).
  destruct (alliance r) eqn:Ea; destruct (trade_deal r) eqn:Et;
    repeat (cbn - [Py.ltb Py.max Py.min Qplus]; fold v; rewrite ?Ea, ?Et;
            try match goal with
                | |- context [Py.ltb v ?c] => destruct (Py.ltb v c)
                end);
    repeat split.
Qed.

(** A relation between two countries called Astraland and Bellaria. *)
Definition sample_relation (value : Q) (allied warring : bool)
    : DiplomaticRelation :=
  {| country1 := "Astraland"; country2 := "Bellaria";
     relation_value := value; trade_deal := false; alliance := allied;
     at_war := warring; sanctions := false; trade_volume := 0 |}.

(** C4, refuted as stated: at a relation value of -85 with an alliance, a
    call of [update_relation] with the positive delta 10 stores -75 and
    keeps the alliance. *)
Lemma alliance_survives_improving_delta :
  relation_value (sample_relation (-85) true false) == -85
  /\ alliance (sample_relation (-85) true false) = true
  /\ relation_value (update_relation 10 (sample_relation (-85) true false))
     == -75
  /\ alliance (update_relation 10 (sample_relation (-85) true false)) = true.
Proof. repeat split. Qed.

(** C4, as the code has it.  At a relation value of -85 with an
    alliance, [update_relation] ends the alliance exactly when the delta
    is below 5, that is when the value it stores is still below -80; a
    delta of 5 or more keeps the alliance. *)
Theorem update_relation_clears_alliance_below_minus_80
    (r : DiplomaticRelation) (delta : Q) :
  relation_value r == -85 -> alliance r = true ->
  (alliance (update_relation delta r) = false <-> delta < 5)
  /\ (alliance (update_relation delta r) = true <-> 5 <= delta).
Proof.
  intros Hv Ha.
  destruct (update_relation_fields delta r) as (_ & Hal & _).
  rewrite Hal, Ha. unfold clamp_relation.
  destruct (Py.ltb (Py.max (-100) (Py.min 100 (relation_value r + delta)))
              (-80)) eqn:E;
    [apply ltb_lt in E | apply ltb_ge in E];
    unfold Py.max, Py.min in E; py_compare;
    (split; split; intros H; first [reflexivity | discriminate | lra]).
Qed.

Lemma update_relation_clears_alliance_witness :
  alliance (update_relation (-1) (sample_relation (-85) true false)) = false.
Proof.
  apply (proj1 (update_relation_clears_alliance_below_minus_80
                  (sample_relation (-85) true false) (-1)
                  (Qeq_refl _) eq_refl)).
  reflexivity.
Defined.

(** [economy.military_spending += 0.05] on a country object. *)
Definition raise_military (c : Country.Country) : Country.Country :=
  Country.modify_economy
    (fun e => Economy.with_military_spending
                (Economy.military_spending e + 0.05) e) c.

(** C2.  A war declaration between two distinct countries that have a
    relation: if the relation is an alliance the call fails and returns
    the world as it was; otherwise it succeeds, the relation is at war
    with neither alliance nor trade deal, its value is the old value
    minus 30 clamped to [[-100, 100]], the military share of actor and
    target has grown by 0.05, and no other country is touched. *)
Theorem war_declaration_effect
    (w : World) (actor_key target_key : string) (a t : Country.Country)
    (r : DiplomaticRelation) (player_initiated : bool) (improvement : Q) :
  countries w !! actor_key = Some a ->
  countries w !! target_key = Some t ->
  actor_key <> target_key ->
  get_relation (Country.name a) (Country.name t) (diplomacy w) = Some r ->
  (alliance r = true ->
     perform_diplomatic_action actor_key target_key WAR_DECLARATION
       player_initiated improvement w
     = Some (false, "Cannot declare war on ally"%string, w))
  /\ (alliance r = false ->
      exists (w' : World) (r' : DiplomaticRelation),
        perform_diplomatic_action actor_key target_key WAR_DECLARATION
          player_initiated improvement w
        = Some (true,
                Country.name a +:+ " declares war on " +:+ Country.name t
                +:+ "!", w')
        /\ get_relation (Country.name a) (Country.name t) (diplomacy w')
           = Some r'
        /\ at_war r' = true /\ alliance r' = false /\ trade_deal r' = false
        /\ sanctions r' = sanctions r
        /\ relation_value r' = clamp_relation (relation_value r - 30)
        /\ -100 <= relation_value r' <= 100
        /\ (-70 <= relation_value r <= 130 ->
            relation_value r' == relation_value r - 30)
        /\ countries w' !! actor_key = Some (raise_military a)
        /\ countries w' !! target_key = Some (raise_military t)
        /\ Economy.military_spending (Country.economy (raise_military a))
           = Economy.military_spending (Country.economy a) + 0.05
        /\ Economy.military_spending (Country.economy (raise_military t))
           = Economy.military_spending (Country.economy t) + 0.05
        /\ (forall k, k <> actor_key -> k <> target_key ->
                      countries w' !! k = countries w !! k)).
Proof.
  intros Ha Ht Hne Hr.
  unfold perform_diplomatic_action. rewrite Ha, Ht. cbn [mbind option_bind].
  rewrite Hr. unfold apply_action.
  split; intros Hal; rewrite Hal; cbn [negb].
  - reflexivity.
  - set (key := get_relation_key (Country.name a) (Country.name t)).
    destruct (update_relation_fields (-30)
                (with_trade_deal false
                   (with_alliance false (with_at_war true r))))
      as (Hv & Hall & Htd & Hwar & Hsan & _).
    cbn [relation_value alliance trade_deal at_war sanctions
         with_trade_deal with_alliance with_at_war] in Hv, Hall, Htd, Hwar, Hsan.
    eexists. eexists. split; [reflexivity|].
    split.
    { subst key. world_lookup. rewrite Hr. reflexivity. }
    split; [exact Hwar|].
    split; [rewrite Hall; apply if_same|].
    split; [rewrite Htd; apply if_same|].
    split; [exact Hsan|].
    split; [exact Hv|].
    split; [rewrite Hv; apply clamp_range; lra|].
    split; [intros Hrange; rewrite Hv; apply clamp_id; lra|].
    split; [world_lookup; rewrite Ha; reflexivity|].
    split; [world_lookup; rewrite Ht; reflexivity|].
    split; [reflexivity|]. split; [reflexivity|].
    intros k Hka Hkt. world_lookup; reflexivity.
Qed.

(** A country as [Country.__init__] creates it, for a given name and GDP,
    with the population and draws fixed. *)
Definition sample_country (name : string) (gdp : Q) : Country.Country :=
  {| Country.name := name; Country.x := 100; Country.y := 100;
     Country.economy := Economy.init gdp 1000000;
     Country.population := Population.init 1000000;
     Country.government := sample_government Constants.democracy;
     Country.traits := ["industrial"%string];
     Country.military_strength := 1;
     Country.natural_resources := ∅;
     Country.recent_events := [];
     Country.event_cooldown := ∅;
     Country.is_player := false |}.

(** A world of two countries, Astraland with a GDP of 1,000,000 and
    Bellaria with a GDP of 400,000, and the relation between them. *)
Definition sample_world (value : Q) (allied warring : bool) : World :=
  {| countries :=
       <["Astraland"%string := sample_country "Astraland" 1000000]>
         (<["Bellaria"%string := sample_country "Bellaria" 400000]> ∅);
     diplomacy :=
       {| relations :=
            [ (("Astraland", "Bellaria")%string,
               sample_relation value allied warring) ];
          recent_actions := [] |} |}.

Lemma war_declaration_effect_witness :
  perform_diplomatic_action "Astraland" "Bellaria" WAR_DECLARATION true 0
    (sample_world 90 true false)
  = Some (false, "Cannot declare war on ally"%string,
          sample_world 90 true false)
  /\ exists (w' : World) (r' : DiplomaticRelation),
       perform_diplomatic_action "Astraland" "Bellaria" WAR_DECLARATION
         true 0 (sample_world (-20) false false)
       = Some (true, "Astraland declares war on Bellaria!"%string, w')
       /\ get_relation "Astraland" "Bellaria" (diplomacy w') = Some r'
       /\ at_war r' = true /\ alliance r' = false /\ trade_deal r' = false
       /\ relation_value r' == -50
       /\ countries w' !! "Astraland"%string
          = Some (raise_military (sample_country "Astraland" 1000000))
       /\ countries w' !! "Bellaria"%string
          = Some (raise_military (sample_country "Bellaria" 400000)).
Proof.
  split.
  - apply (war_declaration_effect (sample_world 90 true false)
             "Astraland" "Bellaria" (sample_country "Astraland" 1000000)
             (sample_country "Bellaria" 400000)
             (sample_relation 90 true false) true 0);
      first [reflexivity | discriminate].
  - destruct (war_declaration_effect (sample_world (-20) false false)
                "Astraland" "Bellaria" (sample_country "Astraland" 1000000)
                (sample_country "Bellaria" 400000)
                (sample_relation (-20) false false) true 0
                eq_refl eq_refl ltac:(discriminate) eq_refl) as [_ H].
    destruct (H eq_refl)
      as (w' & r' & Hp & Hr & Hw & Ha & Htd & _ & _ & _ & Hv & Hca & Hct & _).
    exists w', r'. repeat split; try assumption.
    apply Hv. cbn. lra.
Defined.

(** [economy.gdp += delta] on a country object. *)
Definition add_gdp (delta : Q) (c : Country.Country) : Country.Country :=
  Country.modify_economy
    (fun e => Economy.with_gdp (Economy.gdp e + delta) e) c.

(** C10.  Foreign aid between two distinct countries that have a
    relation succeeds exactly when the GDP of the actor exceeds twice the
    GDP of the target.  A failed call returns the world as it was.  A
    successful call moves 1% of the actor's GDP from the actor to the
    target, passes 15 to [update_relation], which stores the old value
    plus 15 clamped to [[-100, 100]], and touches no other country.  With
    GDPs of 1,000,000 and 400,000 the call succeeds and leaves 990,000
    and 410,000. *)
Theorem foreign_aid_effect
    (w : World) (actor_key target_key : string) (a t : Country.Country)
    (r : DiplomaticRelation) (player_initiated : bool) (improvement : Q) :
  countries w !! actor_key = Some a ->
  countries w !! target_key = Some t ->
  actor_key <> target_key ->
  get_relation (Country.name a) (Country.name t) (diplomacy w) = Some r ->
  let actor_gdp := Economy.gdp (Country.economy a) in
  let target_gdp := Economy.gdp (Country.economy t) in
  let result :=
    perform_diplomatic_action actor_key target_key FOREIGN_AID
      player_initiated improvement w in
  ((exists message w', result = Some (true, message, w'))
   <-> target_gdp * 2 < actor_gdp)
  /\ (actor_gdp <= target_gdp * 2 ->
      result
      = Some (false, "Insufficient resources for foreign aid"%string, w))
  /\ (target_gdp * 2 < actor_gdp ->
      exists (w' : World) (r' : DiplomaticRelation),
        result
        = Some (true,
                Country.name a +:+ " provides foreign aid to "
                +:+ Country.name t, w')
        /\ countries w' !! actor_key
           = Some (add_gdp (- (actor_gdp * 0.01)) a)
        /\ countries w' !! target_key = Some (add_gdp (actor_gdp * 0.01) t)
        /\ Economy.gdp (Country.economy (add_gdp (- (actor_gdp * 0.01)) a))
           == actor_gdp - 0.01 * actor_gdp
        /\ Economy.gdp (Country.economy (add_gdp (actor_gdp * 0.01) t))
           == target_gdp + 0.01 * actor_gdp
        /\ get_relation (Country.name a) (Country.name t) (diplomacy w')
           = Some r'
        /\ r' = update_relation 15 r
        /\ relation_value r' = clamp_relation (relation_value r + 15)
        /\ (-115 <= relation_value r <= 85 ->
            relation_value r' == relation_value r + 15)
        /\ (actor_gdp == 1000000 -> target_gdp == 400000 ->
            Economy.gdp (Country.economy (add_gdp (- (actor_gdp * 0.01)) a))
            == 990000
            /\ Economy.gdp (Country.economy (add_gdp (actor_gdp * 0.01) t))
               == 410000)
        /\ (forall k, k <> actor_key -> k <> target_key ->
                      countries w' !! k = countries w !! k))
  /\ (actor_gdp == 1000000 -> target_gdp == 400000 ->
      target_gdp * 2 < actor_gdp).
Proof.
  intros Ha Ht Hne Hr actor_gdp target_gdp result.
  assert (Hfail : actor_gdp <= target_gdp * 2 ->
                  result
                  = Some (false,
                          "Insufficient resources for foreign aid"%string, w)).
  { intros Hle. subst result.
    unfold perform_diplomatic_action. rewrite Ha, Ht.
    cbn [mbind option_bind]. rewrite Hr. unfold apply_action.
    fold actor_gdp target_gdp.
    apply ltb_ge in Hle. rewrite Hle. reflexivity. }
  assert (Hok : target_gdp * 2 < actor_gdp ->
                result
                = Some (true,
                        Country.name a +:+ " provides foreign aid to "
                        +:+ Country.name t,
                        append_action
                          {| actor := Country.name a;
                             target := Country.name t;
                             action := action_value FOREIGN_AID;
                             message :=
                               Country.name a +:+ " provides foreign aid to "
                               +:+ Country.name t;
                             player_initiated := player_initiated |}
                          (modify_relation
                             (get_relation_key (Country.name a)
                                (Country.name t))
                             (update_relation 15)
                             (modify_economy target_key
                                (fun e =>
                                   Economy.with_gdp
                                     (Economy.gdp e + actor_gdp * 0.01) e)
                                (modify_economy actor_key
                                   (fun e =>
                                      Economy.with_gdp
                                        (Economy.gdp e - actor_gdp * 0.01) e)
                                   w))))).
  { intros Hlt. subst result.
    unfold perform_diplomatic_action. rewrite Ha, Ht.
    cbn [mbind option_bind]. rewrite Hr. unfold apply_action.
    fold actor_gdp target_gdp.
    apply ltb_lt in Hlt. rewrite Hlt. reflexivity. }
  split; [|split; [exact Hfail|split]].
  - split.
    + intros (m & w' & Hres).
      destruct (Qlt_le_dec (target_gdp * 2) actor_gdp) as [Hlt|Hle];
        [exact Hlt|].
      rewrite (Hfail Hle) in Hres. discriminate.
    + intros Hlt. eexists. eexists. exact (Hok Hlt).
  - intros Hlt.
    destruct (update_relation_fields 15 r) as (Hv & _).
    eexists. eexists. split; [exact (Hok Hlt)|].
    split; [world_lookup; rewrite Ha; reflexivity|].
    split; [world_lookup; rewrite Ht; reflexivity|].
    split; [cbn; fold actor_gdp; lra|].
    split; [cbn; fold actor_gdp target_gdp; lra|].
    split; [world_lookup; rewrite Hr; reflexivity|].
    split; [reflexivity|].
    split; [exact Hv|].
    split; [intros Hrange; rewrite Hv; apply clamp_id; lra|].
    split.
    { intros Hga Hgt. cbn. fold actor_gdp target_gdp. split; lra. }
    intros k Hka Hkt. world_lookup; reflexivity.
  - intros Hga Hgt. lra.
Qed.

Lemma foreign_aid_effect_witness :
  exists (w' : World) (r' : DiplomaticRelation),
    perform_diplomatic_action "Astraland" "Bellaria" FOREIGN_AID true 0
      (sample_world 10 false false)
    = Some (true, "Astraland provides foreign aid to Bellaria"%string, w')
    /\ Economy.gdp
         (Country.economy (add_gdp (- (1000000 * 0.01))
                             (sample_country "Astraland" 1000000)))
       == 990000
    /\ Economy.gdp
         (Country.economy (add_gdp (1000000 * 0.01)
                             (sample_country "Bellaria" 400000)))
       == 410000
    /\ countries w' !! "Astraland"%string
       = Some (add_gdp (- (1000000 * 0.01))
                 (sample_country "Astraland" 1000000))
    /\ countries w' !! "Bellaria"%string
       = Some (add_gdp (1000000 * 0.01) (sample_country "Bellaria" 400000))
    /\ get_relation "Astraland" "Bellaria" (diplomacy w') = Some r'
    /\ relation_value r' == 25.
Proof.
  destruct (foreign_aid_effect (sample_world 10 false false)
              "Astraland" "Bellaria" (sample_country "Astraland" 1000000)
              (sample_country "Bellaria" 400000)
              (sample_relation 10 false false) true 0
              eq_refl eq_refl ltac:(discriminate) eq_refl)
    as (_ & _ & H & Hgdp).
  destruct (H (Hgdp (Qeq_refl _) (Qeq_refl _)))
    as (w' & r' & Hp & Hca & Hct & _ & _ & Hr & _ & _ & Hv & Hscen & _).
  exists w', r'.
  destruct (Hscen (Qeq_refl _) (Qeq_refl _)) as [H1 H2].
  repeat split; try assumption.
  apply Hv. cbn. lra.
Defined.

(** The sub-models of the country stored under [key]. *)
Definition economy_of (key : string) (w : World) : option Economy.Economy :=
  Country.economy <$> countries w !! key.

Definition population_of (key : string) (w : World)
    : option Population.Population :=
  Country.population <$> countries w !! key.

Definition government_of (key : string) (w : World)
    : option Government.Government :=
  Country.government <$> countries w !! key.

(** The same player-initiated action performed [n] times in a row, each
    time successfully. *)
Fixpoint repeat_action (n : nat) (actor_key target_key : string)
    (action : DiplomaticAction) (w : World) : option World :=
  match n with
  | O => Some w
  | S n' =>
      match perform_diplomatic_action actor_key target_key action true 0 w
      with
      | Some (true, _, w') => repeat_action n' actor_key target_key action w'
      | _ => None
      end
  end.

(** A law passed and repealed again, [n] times, every change drawing the
    same stability change. *)
Definition toggle_law (n : nat) (law_name : string) (change : Q)
    (g : Government.Government) : Government.Government :=
  Nat.iter n
    (fun g => Government.pass_law law_name false change
                (Government.pass_law law_name true change g)) g.

(** A fresh democracy after three changes of government type, each
    drawing a penalty of 25. *)
Definition unstable_government : Government.Government :=
  Government.change_government_type "dictatorship" 25
    (Government.change_government_type "republic" 25
       (Government.change_government_type "monarchy" 25
          (sample_government Constants.democracy))).

Definition in_percent_range (x : Q) : Prop := 0 <= x <= 100.

(** The update of a government, for its part, clamps stability and
    corruption into [[0, 100]] whatever it is given. *)
Lemma update_government_metrics_clamps (a eh c : Q)
    (g : Government.Government) :
  in_percent_range
    (Government.stability (Government.update_government_metrics a eh c g))
  /\ in_percent_range
       (Government.corruption (Government.update_government_metrics a eh c g)).
Proof.
  unfold in_percent_range, Government.update_government_metrics,
    Government.update_party_popularity.
  cbn - [Py.max Py.min Qplus Qminus Qmult Qdiv].
  split; apply clamp_range; lra.
Qed.

(** A change of government type clamps stability from below. *)
Lemma change_government_type_clamps_below (new_type : string) (penalty : Q)
    (g : Government.Government) :
  0 <= Government.stability g ->
  0 <= Government.stability
         (Government.change_government_type new_type penalty g).
Proof.
  intros H. unfold Government.change_government_type.
  destruct (Constants.lookup_key new_type) as [t|]; [|exact H].
  cbv zeta. destruct (decide (Government.type g = t)); cbn; [exact H|].
  apply max_lower.
Qed.

(** Two countries at war, Bellaria with stability and happiness at the
    lower bound 0. *)
Definition war_world : World :=
  modify_government "Bellaria" (Government.with_stability 0)
    (modify_population "Bellaria" (Population.with_happiness 0)
       (sample_world (-90) false true)).

(** C1 on the code.  Stability, happiness and corruption leave
    [[0, 100]] on the paths that do not clamp:
    - [pass_law] adds its draw to a stability of 99;
    - sixteen changes of one law, each drawing 1.9, take the stability of
      a fresh government from 70 to 100.4;
    - a sanction takes 5 from a happiness of 3, and eleven sanctions in a
      row take the happiness of a fresh country from 50 to -5;
    - the war attrition of [resolve_wars] takes 0.1 from a stability and
      a happiness of 0, the value at which three changes of government
      type, each drawing a penalty of 25, leave the stability of a fresh
      democracy;
    - a corruption scandal adds its draw to a corruption of 95. *)
Theorem percent_ranges_escape_without_clamp :
  (in_percent_range 99
   /\ Government.stability
        (Government.pass_law "universal_healthcare" true 1.9
           (Government.with_stability 99
              (sample_government Constants.democracy)))
      == 100.9)
  /\ Government.stability
       (toggle_law 8 "death_penalty" 1.9
          (sample_government Constants.democracy))
     == 100.4
  /\ (exists w' p',
        perform_diplomatic_action "Astraland" "Bellaria" SANCTIONS true 0
          (modify_population "Bellaria" (Population.with_happiness 3)
             (sample_world (-20) false false))
        = Some (true, "Astraland imposes sanctions on Bellaria"%string, w')
        /\ population_of "Bellaria" w' = Some p'
        /\ Population.happiness p' == -2)
  /\ (exists w' p',
        repeat_action 11 "Astraland" "Bellaria" SANCTIONS
          (sample_world (-20) false false) = Some w'
        /\ population_of "Bellaria" w' = Some p'
        /\ Population.happiness p' == -5)
  /\ (exists w' p' g',
        resolve_wars (fun _ => 0.5) war_world = Some w'
        /\ population_of "Bellaria" w' = Some p'
        /\ government_of "Bellaria" w' = Some g'
        /\ Population.happiness p' == -0.1
        /\ Government.stability g' == -0.1)
  /\ Government.stability unstable_government == 0
  /\ (in_percent_range 95
      /\ Government.corruption
           (Government.trigger_political_event "corruption_scandal" 10 5 0
              (Government.with_corruption 95
                 (sample_government Constants.democracy)))
         == 105).
Proof.
  split; [split; [unfold in_percent_range; lra | reflexivity]|].
  split; [vm_compute; reflexivity|].
  split.
  { eexists. eexists. split; [vm_compute; reflexivity|].
    split; [vm_compute; reflexivity|]. vm_compute; reflexivity. }
  split.
  { eexists. eexists. split; [vm_compute; reflexivity|].
    split; [vm_compute; reflexivity|]. vm_compute; reflexivity. }
  split.
  { eexists. eexists. eexists. split; [vm_compute; reflexivity|].
    split; [vm_compute; reflexivity|].
    split; [vm_compute; reflexivity|].
    split; vm_compute; reflexivity. }
  split; [reflexivity|].
  split; [unfold in_percent_range; lra | reflexivity].
Qed.

(** C8 on the code.  A fresh economy has its five shares in [[0, 1]] with
    sum 0.8.  Every war declaration adds 0.05 to the military share and
    leaves the other shares alone: after the budget is allocated up to a
    sum of 1, one declaration brings the sum to 1.05; without any
    allocation five declarations in a row do the same; nineteen bring
    the military share itself to 1.05. *)
Theorem war_declarations_exceed_share_budget :
  (shares_in_unit (Economy.init 1000000 1000000)
   /\ shares_sum (Economy.init 1000000 1000000) == 0.8)
  /\ (exists w' e e',
        economy_of "Astraland"
          (modify_economy "Astraland"
             (Economy.allocate_budget (Some 0.35) None None None None)
             (sample_world (-20) false false)) = Some e
        /\ shares_in_unit e /\ shares_sum e == 1
        /\ perform_diplomatic_action "Astraland" "Bellaria"
             WAR_DECLARATION true 0
             (modify_economy "Astraland"
                (Economy.allocate_budget (Some 0.35) None None None None)
                (sample_world (-20) false false))
           = Some (true, "Astraland declares war on Bellaria!"%string, w')
        /\ economy_of "Astraland" w' = Some e'
        /\ shares_sum e' == 1.05
        /\ ~ shares_sum e' <= 1
        /\ Economy.other_spending e' = Economy.other_spending e)
  /\ (exists w' e',
        repeat_action 5 "Astraland" "Bellaria" WAR_DECLARATION
          (sample_world (-20) false false) = Some w'
        /\ economy_of "Astraland" w' = Some e'
        /\ shares_sum e' == 1.05
        /\ ~ shares_sum e' <= 1)
  /\ (exists w' e',
        repeat_action 19 "Astraland" "Bellaria" WAR_DECLARATION
          (sample_world (-20) false false) = Some w'
        /\ economy_of "Bellaria" w' = Some e'
        /\ Economy.military_spending e' == 1.05
        /\ ~ shares_in_unit e').
Proof.
  split.
  { split; [unfold shares_in_unit, unit_interval; cbn; lra | reflexivity]. }
  split.
  { eexists. eexists. eexists. split; [vm_compute; reflexivity|].
    split; [unfold shares_in_unit, unit_interval; cbn; lra|].
    split; [reflexivity|].
    split; [vm_compute; reflexivity|].
    split; [vm_compute; reflexivity|].
    split; [vm_compute; reflexivity|].
    split; [|vm_compute; reflexivity].
    vm_compute. intros H. apply H. reflexivity. }
  split.
  { eexists. eexists. split; [vm_compute; reflexivity|].
    split; [vm_compute; reflexivity|].
    split; [vm_compute; reflexivity|].
    vm_compute. intros H. apply H. reflexivity. }
  eexists. eexists. split; [vm_compute; reflexivity|].
  split; [vm_compute; reflexivity|].
  split; [vm_compute; reflexivity|].
  unfold shares_in_unit, unit_interval. cbn. lra.
Qed.

End DiplomacyFacts.

(** ** Economy: tax rate, economic health and economic events *)

Section EconomyExtras.

Import Constants Economy.
Local Open Scope Q_scope.

(** X1. [set_tax_rate] stores a rate between the minimum and the maximum
    tax rate whatever it is given: a rate in range is stored as it is, a
    lower one becomes the minimum, a higher one the maximum. No other
    field changes, and setting the same rate twice is setting it once. *)
Theorem set_tax_rate_within_bounds (new_rate : Q) (e : Economy) :
  MIN_TAX_RATE <= tax_rate (set_tax_rate new_rate e) <= MAX_TAX_RATE
  /\ (MIN_TAX_RATE <= new_rate <= MAX_TAX_RATE ->
      tax_rate (set_tax_rate new_rate e) == new_rate)
  /\ (new_rate <= MIN_TAX_RATE ->
      tax_rate (set_tax_rate new_rate e) == MIN_TAX_RATE)
  /\ (MAX_TAX_RATE <= new_rate ->
      tax_rate (set_tax_rate new_rate e) == MAX_TAX_RATE)
  /\ set_tax_rate new_rate e
     = with_tax_rate (tax_rate (set_tax_rate new_rate e)) e
  /\ set_tax_rate new_rate (set_tax_rate new_rate e)
     = set_tax_rate new_rate e.
Proof.
  unfold set_tax_rate, MIN_TAX_RATE, MAX_TAX_RATE.
  cbn [tax_rate with_tax_rate].
  split; [apply clamp_range; lra|].
  split; [intros H; apply clamp_id; exact H|].
  split; [intros H; unfold Py.max, Py.min; py_compare; lra|].
  split; [intros H; unfold Py.max, Py.min; py_compare; lra|].
  split; reflexivity.
Qed.

(** X2. The economic health score lies in [[0, 100]] for every economy.
    A population or a GDP that is not positive never causes a division:
    the GDP per capita is then taken as 0, and otherwise it is the GDP
    divided by the population. *)
Theorem economic_health_in_range (e : Economy) :
  0 <= get_economic_health e <= 100
  /\ (population e <= 0 -> calculate_gdp_per_capita e = 0)
  /\ (0 < population e ->
      calculate_gdp_per_capita e * population e == gdp e).
Proof.
  split; [unfold get_economic_health; cbv zeta; apply clamp_range; lra|].
  unfold calculate_gdp_per_capita. split; intros H.
  - apply ltb_ge in H. rewrite H. reflexivity.
  - assert (H' := H). apply ltb_lt in H'. rewrite H'. field. lra.
Qed.

(** The four kinds of economic event. *)
Definition economic_event_kinds : list string :=
  [ "recession"; "boom"; "market_crash"; "tech_breakthrough" ]%string.

(** X3. An economic event changes the GDP and the unemployment and
    nothing else, and a kind that is not one of the four changes
    nothing. A positive GDP stays positive and an unemployment that is
    not negative stays so; after a boom or a technological breakthrough
    the unemployment is at least 0.02. A boom does not undo a recession:
    together they leave 99.75% of the GDP. *)
Theorem economic_event_effects (event_type : string) (e : Economy) :
  trigger_economic_event event_type e
  = with_unemployment (unemployment (trigger_economic_event event_type e))
      (with_gdp (gdp (trigger_economic_event event_type e)) e)
  /\ (event_type ∉ economic_event_kinds ->
      trigger_economic_event event_type e = e)
  /\ (0 < gdp e -> 0 < gdp (trigger_economic_event event_type e))
  /\ (0 <= unemployment e ->
      0 <= unemployment (trigger_economic_event event_type e))
  /\ 0.02 <= unemployment (trigger_economic_event "boom" e)
  /\ 0.02 <= unemployment (trigger_economic_event "tech_breakthrough" e)
  /\ gdp (trigger_economic_event "boom"
            (trigger_economic_event "recession" e))
     == 0.9975 * gdp e.
Proof.
  split.
  { unfold trigger_economic_event.
    repeat match goal with
    | |- context [String.eqb ?a ?b] => destruct (String.eqb a b)
    end; destruct e; reflexivity. }
  split.
  { intros Hnot. unfold trigger_economic_event, economic_event_kinds in *.
    repeat match goal with
    | |- context [String.eqb ?a ?b] =>
        destruct (String.eqb_spec a b) as [->|?]
    end; try reflexivity; exfalso; apply Hnot; set_solver. }
  split.
  { intros H. unfold trigger_economic_event.
    repeat match goal with
    | |- context [String.eqb ?a ?b] => destruct (String.eqb a b)
    end; cbn [gdp with_gdp with_unemployment]; lra. }
  split.
  { intros H. unfold trigger_economic_event.
    repeat match goal with
    | |- context [String.eqb ?a ?b] => destruct (String.eqb a b)
    end; cbn [unemployment with_gdp with_unemployment];
    unfold Py.max; py_compare; lra. }
  split; [apply max_lower|]. split; [apply max_lower|].
  cbn. lra.
Qed.

End EconomyExtras.

(** ** Population: happiness, growth, approval and protest risk *)

Section PopulationExtras.

Import Constants Population.
Local Open Scope Q_scope.

(** Division by a numeral, as a product. *)
Lemma div_4 (x : Q) : x / 4 == x * 0.25.
Proof. field. Qed.

Lemma div_100 (x : Q) : x / 100 == x * 0.01.
Proof. field. Qed.

Lemma div_200 (x : Q) : x / 200 == x * 0.005.
Proof. field. Qed.

(** What [update_population] stores in the satisfaction indices and in
    [happiness]. *)
Lemma update_population_satisfaction_eq
    (hs es ws eh st : Q) (p : Population) :
  let p' := update_population hs es ws eh st p in
  healthcare_satisfaction p' = Py.min 100 (hs * 100)
  /\ education_satisfaction p' = Py.min 100 (es * 100)
  /\ economic_satisfaction p' = eh
  /\ security_satisfaction p' = Py.min 100 (st * 100)
  /\ happiness p'
     = (Py.min 100 (hs * 100) + Py.min 100 (es * 100) + eh
        + Py.min 100 (st * 100)) / 4.
Proof. repeat split. Qed.

(** X5. With spending shares and stability that are not negative and an
    economic health in [[0, 100]], [update_population] leaves the four
    satisfaction indices and the happiness, their unweighted mean, in
    [[0, 100]]. *)
Theorem update_population_happiness_in_range
    (hs es ws eh st : Q) (p : Population) :
  0 <= hs -> 0 <= es -> 0 <= eh <= 100 -> 0 <= st ->
  let p' := update_population hs es ws eh st p in
  0 <= healthcare_satisfaction p' <= 100
  /\ 0 <= education_satisfaction p' <= 100
  /\ 0 <= economic_satisfaction p' <= 100
  /\ 0 <= security_satisfaction p' <= 100
  /\ 0 <= happiness p' <= 100
  /\ happiness p' * 4
     == healthcare_satisfaction p' + education_satisfaction p'
        + economic_satisfaction p' + security_satisfaction p'.
Proof.
  intros Hhs Hes Heh Hst p'.
  destruct (update_population_satisfaction_eq hs es ws eh st p)
    as (E1 & E2 & E3 & E4 & E5).
  fold p' in E1, E2, E3, E4, E5. rewrite E1, E2, E3, E4, E5.
  rewrite div_4.
  assert (B1 : 0 <= Py.min 100 (hs * 100) <= 100)
    by (unfold Py.min; py_compare; lra).
  assert (B2 : 0 <= Py.min 100 (es * 100) <= 100)
    by (unfold Py.min; py_compare; lra).
  assert (B4 : 0 <= Py.min 100 (st * 100) <= 100)
    by (unfold Py.min; py_compare; lra).
  repeat split; lra.
Qed.

Lemma update_population_happiness_witness :
  0 <= happiness (update_population 0.15 0.2 0.15 50 0.7 (init 1000000))
  <= 100.
Proof.
  apply (update_population_happiness_in_range 0.15 0.2 0.15 50 0.7
           (init 1000000)); lra.
Defined.

(** What [update_population] stores in [growth_rate], [total] and
    [literacy_rate]. *)
Lemma update_population_growth_eq (hs es ws eh st : Q) (p : Population) :
  let p' := update_population hs es ws eh st p in
  growth_rate p'
  = Py.max 0
      (Py.min MAX_POPULATION_GROWTH
         (birth_rate p - death_rate p
          + (health p' - 70) / 100 * 0.005
          + (happiness p' - 50) / 200 * 0.003))
  /\ total p' = total p * (1 + growth_rate p')
  /\ literacy_rate p' = Py.min 1.0 (0.5 + education p' * 0.005).
Proof.
  unfold update_population. cbv zeta.
  cbn [growth_rate total literacy_rate health happiness education
       birth_rate death_rate
       with_health with_healthcare_satisfaction with_education
       with_education_satisfaction with_economic_satisfaction
       with_security_satisfaction with_happiness with_growth_rate
       with_total with_life_expectancy with_literacy_rate].
  repeat split.
Qed.

(** X6. [update_population] always leaves the growth rate between 0 and
    the maximum growth and the literacy rate at most 1; a population
    that is not negative therefore never shrinks in an update and grows
    by at most 3%. *)
Theorem update_population_growth_bounds
    (hs es ws eh st : Q) (p : Population) :
  let p' := update_population hs es ws eh st p in
  0 <= growth_rate p' <= MAX_POPULATION_GROWTH
  /\ total p' == total p * (1 + growth_rate p')
  /\ (0 <= total p -> total p <= total p' <= 1.03 * total p)
  /\ literacy_rate p' <= 1.
Proof.
  intros p'.
  destruct (update_population_growth_eq hs es ws eh st p) as (Eg & Et & El).
  fold p' in Eg, Et, El.
  assert (Bg : 0 <= growth_rate p' <= MAX_POPULATION_GROWTH).
  { rewrite Eg. apply clamp_range. unfold MAX_POPULATION_GROWTH. lra. }
  rewrite Et, El. clearbody p'. unfold MAX_POPULATION_GROWTH in *.
  split; [exact Bg|]. split; [reflexivity|].
  split; [|apply Qle_trans with 1.0; [apply min_lower | lra]].
  intros Ht. split.
  - assert (0 <= total p * growth_rate p')
      by (apply Qmult_le_0_compat; lra).
    lra.
  - assert (total p * growth_rate p' <= total p * 0.03).
    { rewrite !(Qmult_comm (total p)). apply Qmult_le_compat_r; lra. }
    lra.
Qed.

(** X7. The approval rating lies in [[0, 100]] for every population, and
    the protest risk never exceeds 1; with happiness and security
    satisfaction at most 100 the risk is not negative, and a happiness
    that is not positive gives the full risk 1. *)
Theorem approval_and_protest_risk_bounds (p : Population) :
  0 <= get_approval_rating p <= 100
  /\ trigger_protest_risk p <= 1
  /\ (happiness p <= 100 -> security_satisfaction p <= 100 ->
      0 <= trigger_protest_risk p)
  /\ (happiness p <= 0 -> security_satisfaction p <= 100 ->
      trigger_protest_risk p == 1).
Proof.
  split; [unfold get_approval_rating; cbv zeta; apply clamp_range; lra|].
  unfold trigger_protest_risk. cbv zeta.
  assert (Ea := div_100 (100 - happiness p)).
  assert (Eb := div_200 (100 - security_satisfaction p)).
  set (a := (100 - happiness p) / 100) in *.
  set (b := (100 - security_satisfaction p) / 200) in *.
  clearbody a b.
  split; [apply Qle_trans with 1.0; [apply min_lower | lra]|].
  split; intros; unfold Py.min; py_compare; lra.
Qed.

End PopulationExtras.

(** ** Government: updates, parties, elections, types and laws *)

Section GovernmentExtras.

Import Constants Government.
Local Open Scope Q_scope.

(** When no election is due, [update_government] returns the state it
    has computed before the election check. *)
Lemma update_government_not_due (a eh c : Q) (noise : nat -> Q)
    (g : Government) :
  election_due (update_government_metrics a eh c g) = false ->
  update_government a eh c noise g
  = Some (update_government_metrics a eh c g).
Proof. intros H. unfold update_government. rewrite H. reflexivity. Qed.

(** X8. In every government state of a run, [update_government] returns
    a state, whatever the approval, the economic health and the draws,
    and in that state stability and corruption lie in [[0, 100]]. *)
Theorem update_government_keeps_percent_ranges
    (a eh c : Q) (noise : nat -> Q) (g : Government) :
  reachable g ->
  exists g',
    update_government a eh c noise g = Some g'
    /\ in_percent_range (stability g')
    /\ in_percent_range (corruption g').
Proof.
  intros Hreach.
  exists (update_government_metrics a eh c g). split.
  - apply update_government_not_due. apply timer_not_due.
    assert (Ht := reachable_timer g Hreach).
    destruct (update_government_metrics_frame a eh c g)
      as (_ & _ & Hty & Hne).
    unfold timer_is_frequency in *. rewrite Hty, Hne. exact Ht.
  - apply update_government_metrics_clamps.
Qed.

Lemma update_government_keeps_percent_ranges_witness :
  exists g',
    update_government 0 0 1 (fun _ => 0.05) (sample_government democracy)
    = Some g'
    /\ in_percent_range (stability g')
    /\ in_percent_range (corruption g').
Proof.
  apply (update_government_keeps_percent_ranges 0 0 1 (fun _ => 0.05)
           (sample_government democracy)).
  apply reachable_init.
Defined.

(** What [hold_election] returns. *)
Lemma hold_election_result (noise : nat -> Q) (g g' : Government) :
  hold_election noise g = Some g' ->
  election_frequency (GOVERNMENT_TYPES (type g)) <> 0%Z ->
  exists (ps : list PoliticalParty) (total : Q),
    parties g'
    = map (fun p => with_popularity (Py.max 0 (popularity p / total)) p) ps
    /\ max_by_popularity (parties g') = Some (ruling_party g')
    /\ g' = with_next_election
              (election_frequency (GOVERNMENT_TYPES (type g)))
              (if decide (ruling_party g' = ruling_party g)
               then with_parties (parties g') g
               else with_stability (stability g - 5)
                      (with_years_in_power 0
                         (with_ruling_party (ruling_party g')
                            (with_parties (parties g') g)))).
Proof.
  unfold hold_election.
  destruct (Z.eqb_spec (election_frequency (GOVERNMENT_TYPES (type g))) 0)
    as [Hz|Hnz]; [intros _ H; contradiction|].
  cbv zeta.
  match goal with
  | |- context [if ?c then None else _] => destruct c
  end; [discriminate|].
  match goal with
  | |- context [max_by_popularity ?l] =>
      set (ps' := l); destruct (max_by_popularity ps') as [winner|] eqn:Hmax
  end; [|discriminate].
  intros [= <-] _.
  match type of ps' with
  | list PoliticalParty =>
      match eval unfold ps' in ps' with
      | map (fun p => with_popularity (Py.max 0 (popularity p / ?t)) p) ?l =>
          exists l, t
      end
  end.
  cbn [with_parties ruling_party parties].
  destruct (decide (winner = ruling_party g)) as [Heq|Hne].
  - cbn [with_next_election with_parties ruling_party parties].
    split; [reflexivity|]. split; [rewrite <- Heq; exact Hmax|].
    rewrite decide_True by reflexivity. reflexivity.
  - cbn [with_next_election with_parties with_stability with_years_in_power
         with_ruling_party ruling_party parties].
    split; [reflexivity|]. split; [exact Hmax|].
    rewrite decide_False by exact Hne. reflexivity.
Qed.

(** X10. Under a government type without elections [hold_election]
    returns the state as it is. Under a type with elections, whenever it
    returns, no popularity is negative, the ruling party is a party of
    greatest popularity, the timer is back at the election frequency,
    and type, corruption and laws are kept; either the ruling party is
    the same and stability and years in power are kept, or it has
    changed, stability has dropped by exactly 5 and the years in power
    are 0. *)
Theorem hold_election_effects (noise : nat -> Q) (g : Government) :
  (election_frequency (GOVERNMENT_TYPES (type g)) = 0%Z ->
   hold_election noise g = Some g)
  /\ (forall g',
        hold_election noise g = Some g' ->
        election_frequency (GOVERNMENT_TYPES (type g)) <> 0%Z ->
        Forall (fun p => 0 <= popularity p) (parties g')
        /\ ruling_is_most_popular g'
        /\ next_election g'
           = election_frequency (GOVERNMENT_TYPES (type g))
        /\ type g' = type g /\ corruption g' = corruption g
        /\ laws g' = laws g
        /\ ((ruling_party g' = ruling_party g
             /\ stability g' = stability g
             /\ years_in_power g' = years_in_power g)
            \/ (ruling_party g' <> ruling_party g
                /\ stability g' = stability g - 5
                /\ years_in_power g' = 0))).
Proof.
  split.
  - intros Hz. unfold hold_election. rewrite Hz. reflexivity.
  - intros g' Hel Hnz.
    destruct (hold_election_result noise g g' Hel Hnz)
      as (ps & total & Hps & Hmax & Hg').
    split.
    { rewrite Hps. apply Forall_forall. intros p Hp.
      apply list_elem_of_fmap in Hp. destruct Hp as (q & -> & _).
      apply max_lower. }
    split; [apply max_by_popularity_spec; exact Hmax|].
    assert (H1 := f_equal next_election Hg').
    assert (H2 := f_equal type Hg').
    assert (H3 := f_equal corruption Hg').
    assert (H4 := f_equal laws Hg').
    assert (H5 := f_equal stability Hg').
    assert (H6 := f_equal years_in_power Hg').
    clear Hg'.
    destruct (decide (ruling_party g' = ruling_party g)) as [Heq|Hne];
      cbn in H1, H2, H3, H4, H5, H6;
      (split; [exact H1|]); (split; [exact H2|]); (split; [exact H3|]);
      (split; [exact H4|]).
    + left. split; [exact Heq|]. split; [exact H5 | exact H6].
    + right. split; [exact Hne|]. split; [exact H5 | exact H6].
Qed.

(** The noise of an election that the Progressive Party wins. *)
Definition progressive_swing (i : nat) : Q :=
  match i with O => 0.05 | _ => -0.05 end.

Lemma hold_election_effects_witness :
  exists g',
    hold_election progressive_swing (sample_government democracy) = Some g'
    /\ ruling_party g' = 0%nat
    /\ stability g' = stability (sample_government democracy) - 5
    /\ years_in_power g' = 0
    /\ next_election g' = 4%Z.
Proof.
  destruct (hold_election_returns progressive_swing
              (sample_government democracy)) as [g' Hg'];
    [discriminate | vm_compute; discriminate |].
  exists g'.
  destruct (proj2 (hold_election_effects progressive_swing
                     (sample_government democracy)) g' Hg')
    as (_ & _ & Hn & _ & _ & _ & Hcase); [discriminate|].
  assert (Hc : hold_election progressive_swing (sample_government democracy)
               = Some g') by exact Hg'.
  revert Hc Hn Hcase. clear Hg'. vm_compute.
  intros [= <-]. intros Hn [(Hsame & _) | (_ & Hs & Hy)].
  - discriminate.
  - repeat split; assumption.
Defined.

(** The key strings of the government types, and their lookup. *)
Lemma lookup_key_string (t : GovType) : lookup_key (key_string t) = Some t.
Proof. destruct t; reflexivity. Qed.

Lemma lookup_key_Some (s : string) (t : GovType) :
  lookup_key s = Some t -> s = key_string t.
Proof.
  unfold lookup_key, government_type_keys. cbn [find key_string].
  repeat match goal with
  | |- context [String.eqb ?a ?b] =>
      destruct (String.eqb_spec a b) as [->|?]
  end; intros [= <-]; reflexivity.
Qed.

(** X11. [change_government_type] ignores a name that is not the key of
    a government type. For the key of a type it stores that type, resets
    the years in power and sets the timer to the election frequency of
    the type; the stability is kept when the type is the current one and
    is otherwise lowered by the penalty but never below 0. The roster,
    the ruling party, the corruption and the laws are never touched. *)
Theorem change_government_type_effects
    (new_type : string) (penalty : Q) (g : Government) :
  (lookup_key new_type = None ->
   change_government_type new_type penalty g = g)
  /\ (forall t, lookup_key new_type = Some t <-> new_type = key_string t)
  /\ (forall t,
        new_type = key_string t ->
        let g' := change_government_type new_type penalty g in
        type g' = t /\ years_in_power g' = 0
        /\ next_election g' = election_frequency (GOVERNMENT_TYPES t)
        /\ (type g = t -> stability g' = stability g)
        /\ (type g <> t -> stability g' = Py.max 0 (stability g - penalty)
                           /\ 0 <= stability g'))
  /\ parties (change_government_type new_type penalty g) = parties g
  /\ ruling_party (change_government_type new_type penalty g)
     = ruling_party g
  /\ corruption (change_government_type new_type penalty g) = corruption g
  /\ laws (change_government_type new_type penalty g) = laws g.
Proof.
  split.
  { intros H. unfold change_government_type. rewrite H. reflexivity. }
  split.
  { intros t. split; [apply lookup_key_Some|].
    intros ->. apply lookup_key_string. }
  split.
  { intros t -> g'. subst g'. unfold change_government_type.
    rewrite lookup_key_string. cbv zeta.
    destruct (decide (type g = t)) as [Heq|Hne]; cbn.
    - repeat split; try contradiction.
    - repeat split; try contradiction; apply max_lower. }
  unfold change_government_type.
  destruct (lookup_key new_type) as [t|]; [|repeat split].
  cbv zeta. destruct (decide (type g = t)); cbn; repeat split.
Qed.

(** X12. [pass_law] ignores a name that is not a law. For a law it
    stores the value under that name and leaves every other law and the
    set of law names as they are; the stability changes, by the drawn
    amount, only when the value differs from the stored one, so that
    passing a law with the value it already has changes nothing at all. *)
Theorem pass_law_effects
    (law_name : string) (value : bool) (change : Q) (g : Government) :
  (laws g !! law_name = None -> pass_law law_name value change g = g)
  /\ (laws g !! law_name = Some value ->
      pass_law law_name value change g = g)
  /\ (laws g !! law_name = Some (negb value) ->
      laws (pass_law law_name value change g) !! law_name = Some value
      /\ stability (pass_law law_name value change g)
         = stability g + change)
  /\ (forall other, other <> law_name ->
        laws (pass_law law_name value change g) !! other
        = laws g !! other)
  /\ dom (laws (pass_law law_name value change g)) = dom (laws g)
  /\ corruption (pass_law law_name value change g) = corruption g.
Proof.
  unfold pass_law.
  split; [intros H; rewrite H; reflexivity|].
  split.
  { intros H. rewrite H. cbv zeta.
    rewrite bool_decide_eq_true_2 by reflexivity.
    rewrite (insert_id _ _ _ H). destruct g; reflexivity. }
  split.
  { intros H. rewrite H. cbv zeta.
    rewrite bool_decide_eq_false_2 by (destruct value; discriminate).
    cbn. split; [apply lookup_insert_eq | reflexivity]. }
  split.
  { intros other Hne.
    destruct (laws g !! law_name) as [old|]; [|reflexivity].
    cbv zeta. destruct (bool_decide (old = value)); cbn;
      apply lookup_insert_ne; congruence. }
  destruct (laws g !! law_name) as [old|] eqn:E; [|split; reflexivity].
  cbv zeta.
  assert (Hdom : dom (<[law_name := value]> (laws g)) = dom (laws g)).
  { rewrite dom_insert_L. apply elem_of_dom_2 in E.
    apply subseteq_union_1_L, singleton_subseteq_l. exact E. }
  destruct (bool_decide (old = value)); cbn; split;
    first [exact Hdom | reflexivity].
Qed.

(** X13. A coup attempt against a government with a stability of at
    least 30 costs 5 points of stability and nothing else. Below 30 the
    coup succeeds when its draw is below 0.3: the type becomes a
    dictatorship, the stability 20, the years in power 0 and the
    election timer 0; a failed coup costs 15 points of stability. An
    event of unknown kind changes nothing. *)
Theorem coup_attempt_effects (d1 d2 d3 : Q) (g : Government) :
  (30 <= stability g ->
   trigger_political_event "coup_attempt" d1 d2 d3 g
   = with_stability (stability g - 5) g)
  /\ (stability g < 30 -> 0.3 <= d1 ->
      trigger_political_event "coup_attempt" d1 d2 d3 g
      = with_stability (stability g - 15) g)
  /\ (stability g < 30 -> d1 < 0.3 ->
      let g' := trigger_political_event "coup_attempt" d1 d2 d3 g in
      type g' = dictatorship /\ stability g' = 20
      /\ years_in_power g' = 0 /\ next_election g' = 0%Z
      /\ election_due g' = false)
  /\ (forall event_type,
        event_type ∉ [ "corruption_scandal"; "successful_reform";
                       "coup_attempt"; "protest" ]%string ->
        trigger_political_event event_type d1 d2 d3 g = g).
Proof.
  split.
  { intros H. unfold trigger_political_event. cbv [String.eqb Ascii.eqb Bool.eqb andb].
    apply ltb_ge in H. rewrite H. reflexivity. }
  split.
  { intros H1 H2. unfold trigger_political_event.
    cbv [String.eqb Ascii.eqb Bool.eqb andb].
    apply ltb_lt in H1. apply ltb_ge in H2. rewrite H1, H2. reflexivity. }
  split.
  { intros H1 H2 g'. subst g'. unfold trigger_political_event.
    cbv [String.eqb Ascii.eqb Bool.eqb andb].
    apply ltb_lt in H1. apply ltb_lt in H2. rewrite H1, H2.
    unfold change_government_type.
    change (lookup_key "dictatorship") with (Some dictatorship).
    cbv beta iota zeta.
    case_decide; repeat split; reflexivity. }
  intros event_type Hnot. unfold trigger_political_event.
  repeat match goal with
  | |- context [String.eqb ?a ?b] =>
      destruct (String.eqb_spec a b) as [->|?]
  end; try reflexivity; exfalso; apply Hnot; set_solver.
Qed.

Lemma max_scan_first (ps pre : list PoliticalParty) (bi : nat) (b : Q) :
  (exists pb, pre !! bi = Some pb /\ popularity pb = b) ->
  (forall j pj, pre !! j = Some pj -> popularity pj <= b) ->
  (forall j pj, (j < bi)%nat -> pre !! j = Some pj -> popularity pj < b) ->
  exists pr,
    (pre ++ ps) !! max_scan bi b (length pre) ps = Some pr
    /\ (forall j pj, (pre ++ ps) !! j = Some pj ->
                     popularity pj <= popularity pr)
    /\ (forall j pj, (j < max_scan bi b (length pre) ps)%nat ->
                     (pre ++ ps) !! j = Some pj ->
                     popularity pj < popularity pr).
Proof.
  revert pre bi b.
  induction ps as [|p rest IH]; intros pre bi b (pb & Hpb & Hb) Hle Hlt.
  - simpl. rewrite app_nil_r. exists pb. rewrite Hb.
    split; [exact Hpb|]. split; [exact Hle | exact Hlt].
  - simpl.
    replace (pre ++ p :: rest) with ((pre ++ [p]) ++ rest)
      by (rewrite <- app_assoc; reflexivity).
    replace (S (length pre)) with (length (pre ++ [p]))
      by (rewrite length_app; simpl; lia).
    destruct (Py.ltb b (popularity p)) eqn:E;
      [apply ltb_lt in E | apply ltb_ge in E].
    + apply IH.
      * exists p. split; [|reflexivity].
        rewrite lookup_app_r by lia. rewrite Nat.sub_diag. reflexivity.
      * intros j pj Hj.
        destruct (lookup_app_Some pre [p] j pj) as [Hcases _].
        destruct (Hcases Hj) as [Hin | [_ Hin]].
        -- specialize (Hle j pj Hin). lra.
        -- destruct (j - length pre)%nat; simpl in Hin; [|discriminate].
           injection Hin as <-. lra.
      * intros j pj Hjlt Hj.
        rewrite lookup_app_l in Hj by exact Hjlt.
        specialize (Hle j pj Hj). lra.
    + apply IH.
      * exists pb. split; [|exact Hb].
        rewrite lookup_app_l; [exact Hpb|].
        apply lookup_lt_Some in Hpb. exact Hpb.
      * intros j pj Hj.
        destruct (lookup_app_Some pre [p] j pj) as [Hcases _].
        destruct (Hcases Hj) as [Hin | [_ Hin]].
        -- exact (Hle j pj Hin).
        -- destruct (j - length pre)%nat; simpl in Hin; [|discriminate].
           injection Hin as <-. exact E.
      * intros j pj Hjlt Hj.
        assert (Hbi : (bi < length pre)%nat)
          by (apply lookup_lt_Some in Hpb; exact Hpb).
        rewrite lookup_app_l in Hj by lia.
        exact (Hlt j pj Hjlt Hj).
Qed.

(** X14. The winner of an election is the earliest party of greatest
    popularity: no party is more popular than the party chosen by [max],
    every party before it in the roster is strictly less popular, and
    only an empty roster has no winner. *)
Theorem max_by_popularity_earliest (ps : list PoliticalParty) :
  (max_by_popularity ps = None <-> ps = [])
  /\ (forall winner,
        max_by_popularity ps = Some winner ->
        exists pw,
          ps !! winner = Some pw
          /\ (forall j pj, ps !! j = Some pj ->
                           popularity pj <= popularity pw)
          /\ (forall j pj, (j < winner)%nat -> ps !! j = Some pj ->
                           popularity pj < popularity pw)).
Proof.
  split.
  - destruct ps; simpl; split; intros H; try reflexivity; discriminate.
  - intros winner. destruct ps as [|p rest]; simpl; [discriminate|].
    intros [= <-].
    apply (max_scan_first rest [p] 0%nat (popularity p)).
    + exists p. split; reflexivity.
    + intros [|j] pj Hj; simpl in Hj; [|discriminate].
      injection Hj as <-. lra.
    + intros j pj Hj. lia.
Qed.

End GovernmentExtras.

(** ** Diplomacy: keys, relations and the remaining actions *)

(** Rewriting a lookup through the writes of an action. *)
Ltac world_rewrite :=
  repeat first
    [ rewrite country_of_append_action
    | rewrite country_of_modify_relation
    | rewrite country_of_modify_economy
    | rewrite country_of_modify_population
    | rewrite country_of_modify_government
    | rewrite relation_of_append_action
    | rewrite relation_of_modify_relation
    | rewrite relation_of_modify_country
    | rewrite relation_of_modify_economy
    | rewrite relation_of_modify_population
    | rewrite relation_of_modify_government ];
  repeat match goal with
  | |- context [decide (?a = ?b)] =>
      destruct (decide (a = b)); try congruence
  end.

Section DiplomacyExtras.

Import Diplomacy.
Local Open Scope Q_scope.

(** X15. The key of a pair of names does not depend on the order of the
    two names, and its components are in ascending order; a relation is
    therefore found from either side. *)
Theorem get_relation_symmetric (n1 n2 : string) (d : DiplomacySystem) :
  get_relation_key n1 n2 = get_relation_key n2 n1
  /\ String.leb (fst (get_relation_key n1 n2)) (snd (get_relation_key n1 n2))
     = true
  /\ (get_relation_key n1 n2 = (n1, n2) \/ get_relation_key n1 n2 = (n2, n1))
  /\ get_relation n1 n2 d = get_relation n2 n1 d.
Proof.
  assert (Hkey : get_relation_key n1 n2 = get_relation_key n2 n1).
  { unfold get_relation_key, String.ltb.
    rewrite (String.compare_antisym n1 n2).
    destruct (String.compare n2 n1) eqn:E; simpl; try reflexivity.
    apply String.compare_eq_iff in E. subst. reflexivity. }
  split; [exact Hkey|]. split.
  { unfold get_relation_key, String.ltb, String.leb.
    destruct (String.compare n2 n1) eqn:E; simpl.
    - rewrite String.compare_antisym, E. reflexivity.
    - rewrite E. reflexivity.
    - rewrite String.compare_antisym, E. reflexivity. }
  split.
  { unfold get_relation_key. destruct (String.ltb n2 n1); auto. }
  unfold get_relation. rewrite Hkey. reflexivity.
Qed.

(** X16. [update_relation] always leaves the relation value in [[-100,
    100]], stores a sum that is in range as it is, and never touches the
    war and sanction flags. It can end an alliance or a trade deal but
    never start one: an alliance that is left implies a value of at
    least -80, a trade deal a value of at least -90, and an alliance or
    trade deal that existed is ended exactly below these values. *)
Theorem update_relation_invariants (change : Q) (r : DiplomaticRelation) :
  let r' := update_relation change r in
  -100 <= relation_value r' <= 100
  /\ (-100 <= relation_value r + change <= 100 ->
      relation_value r' == relation_value r + change)
  /\ at_war r' = at_war r /\ sanctions r' = sanctions r
  /\ (alliance r' = true <-> alliance r = true /\ -80 <= relation_value r')
  /\ (trade_deal r' = true
      <-> trade_deal r = true /\ -90 <= relation_value r').
Proof.
  intros r'.
  destruct (update_relation_fields change r)
    as (Hv & Hal & Htd & Hwar & Hsan & _).
  fold r' in Hv, Hal, Htd, Hwar, Hsan.
  rewrite Hv, Hal, Htd, Hwar, Hsan. clearbody r'.
  unfold clamp_relation.
  split; [apply clamp_range; lra|].
  split; [intros H; apply clamp_id; exact H|].
  split; [reflexivity|]. split; [reflexivity|].
  set (v := Py.max (-100) (Py.min 100 (relation_value r + change))).
  clearbody v.
  split.
  - destruct (Py.ltb v (-80)) eqn:E;
      [apply ltb_lt in E | apply ltb_ge in E];
      split; try (intros [H1 H2]); try intros H; try discriminate;
      try (split; assumption); try assumption; lra.
  - destruct (Py.ltb v (-90)) eqn:E;
      [apply ltb_lt in E | apply ltb_ge in E];
      split; try (intros [H1 H2]); try intros H; try discriminate;
      try (split; assumption); try assumption; lra.
Qed.

(** The whole of [perform_diplomatic_action] for two stored countries
    with a relation. *)
Lemma perform_unfold (w : World) (actor_key target_key : string)
    (a t : Country.Country) (r : DiplomaticRelation)
    (act : DiplomaticAction) (player : bool) (improvement : Q) :
  countries w !! actor_key = Some a ->
  countries w !! target_key = Some t ->
  get_relation (Country.name a) (Country.name t) (diplomacy w) = Some r ->
  perform_diplomatic_action actor_key target_key act player improvement w
  = Some
      (let '(success, message, w') :=
         apply_action actor_key target_key a t
           (get_relation_key (Country.name a) (Country.name t)) r act
           improvement w in
       (success, message,
        if success then
          append_action
            {| actor := Country.name a; target := Country.name t;
               action := action_value act; message := message;
               player_initiated := player |} w'
        else w')).
Proof.
  intros Ha Ht Hr. unfold perform_diplomatic_action.
  rewrite Ha, Ht. cbn [mbind option_bind]. rewrite Hr. cbv zeta.
  destruct (apply_action _ _ _ _ _ _ _ _ _) as [[s m] w']. reflexivity.
Qed.

(** An action leaves the log alone, keeps the stored countries and the
    keys of the relations, and returns the world untouched when it
    fails. *)
Lemma apply_action_frame (actor_key target_key : string)
    (a t : Country.Country) (key : string * string)
    (r : DiplomaticRelation) (act : DiplomaticAction) (improvement : Q)
    (w : World) :
  let '(success, _, w') :=
    apply_action actor_key target_key a t key r act improvement w in
  recent_actions (diplomacy w') = recent_actions (diplomacy w)
  /\ dom (countries w') = dom (countries w)
  /\ map fst (relations (diplomacy w')) = map fst (relations (diplomacy w))
  /\ (success = false -> w' = w).
Proof.
  assert (Hkeys : forall k f rs,
            map fst (relations_modify k f rs) = map fst rs).
  { intros k f rs. unfold relations_modify. rewrite map_map.
    apply map_ext. intros kr. destruct (bool_decide (fst kr = k)); reflexivity. }
  assert (Hdom : forall k f (m : gmap string Country.Country),
            dom (alter f k m) = dom m).
  { intros k f m. apply dom_alter_L. }
  unfold apply_action.
  destruct act;
    repeat match goal with
    | |- context [if ?c then _ else _] => destruct c
    end;
    unfold modify_economy, modify_population, modify_country,
      modify_relation;
    cbn [countries diplomacy relations recent_actions];
    rewrite ?Hkeys, ?Hdom; repeat split; intros; discriminate.
Qed.

(** X17. Whatever the action, a call that fails returns the world
    exactly as it was. A call that succeeds appends exactly one entry to
    the log of recent actions, naming the actor, the target, the action
    and the message returned. In both cases the stored countries and the
    keys of the relations are the same as before. *)
Theorem perform_diplomatic_action_log
    (w w' : World) (actor_key target_key : string)
    (act : DiplomaticAction) (player : bool) (improvement : Q)
    (success : bool) (msg : string) :
  perform_diplomatic_action actor_key target_key act player improvement w
  = Some (success, msg, w') ->
  (success = false -> w' = w)
  /\ (success = true ->
      exists a t,
        countries w !! actor_key = Some a
        /\ countries w !! target_key = Some t
        /\ recent_actions (diplomacy w')
           = recent_actions (diplomacy w)
             ++ [ {| actor := Country.name a; target := Country.name t;
                     action := action_value act; message := msg;
                     player_initiated := player |} ])
  /\ dom (countries w') = dom (countries w)
  /\ map fst (relations (diplomacy w')) = map fst (relations (diplomacy w)).
Proof.
  unfold perform_diplomatic_action.
  destruct (countries w !! actor_key) as [a|] eqn:Ha; [|discriminate].
  destruct (countries w !! target_key) as [t|] eqn:Ht; [|discriminate].
  cbn [mbind option_bind].
  destruct (get_relation (Country.name a) (Country.name t) (diplomacy w))
    as [r|] eqn:Hr.
  - assert (Hf := apply_action_frame actor_key target_key a t
                    (get_relation_key (Country.name a) (Country.name t))
                    r act improvement w).
    destruct (apply_action actor_key target_key a t
                (get_relation_key (Country.name a) (Country.name t))
                r act improvement w) as [[s m] w1].
    destruct Hf as (Hlog & Hdom & Hkeys & Hfail).
    destruct s; intros [= <- <- <-].
    + split; [discriminate|]. split.
      { intros _. exists a, t. split; [reflexivity|]. split; [reflexivity|].
        cbn [append_action diplomacy recent_actions]. rewrite Hlog.
        reflexivity. }
      split; [exact Hdom | exact Hkeys].
    + split; [exact Hfail|]. split; [discriminate|].
      split; [exact Hdom | exact Hkeys].
  - intros [= <- <- <-]. split; [reflexivity|]. split; [discriminate|].
    split; reflexivity.
Qed.

(** Astraland improves its relation with Bellaria, drawing 7. *)
Definition improved_world : World :=
  append_action
    {| actor := "Astraland"; target := "Bellaria";
       action := "improve_relations";
       message := "Astraland improves relations with Bellaria";
       player_initiated := true |}
    (modify_relation ("Astraland", "Bellaria")%string (update_relation 7)
       (sample_world 10 false false)).

Lemma improve_relations_run :
  perform_diplomatic_action "Astraland" "Bellaria" IMPROVE_RELATIONS true 7
    (sample_world 10 false false)
  = Some (true, "Astraland improves relations with Bellaria"%string,
          improved_world).
Proof. vm_compute. reflexivity. Qed.

Lemma perform_diplomatic_action_log_witness :
  length (recent_actions (diplomacy improved_world)) = 1%nat
  /\ dom (countries improved_world)
     = dom (countries (sample_world 10 false false)).
Proof.
  destruct (perform_diplomatic_action_log _ _ _ _ _ _ _ _ _
              improve_relations_run) as (_ & Hlog & Hdom & _).
  destruct (Hlog eq_refl) as (a & t & _ & _ & E).
  split; [|exact Hdom]. rewrite E. rewrite length_app. reflexivity.
Defined.

(** [economy.military_spending = max(0.05, economy.military_spending -
    cut)] on a country object. *)
Definition cut_military (cut : Q) (c : Country.Country) : Country.Country :=
  Country.modify_economy
    (fun e => Economy.with_military_spending
                (Py.max 0.05 (Economy.military_spending e - cut)) e) c.

(** X18. A trade deal between two distinct countries that have a
    relation is signed exactly when the relation value exceeds 20 and
    there is no war. It sets the trade-deal flag, leaves the rest of the
    relation as it is and adds 2% of the smaller GDP to both GDPs; a
    rejected deal changes nothing. *)
Theorem trade_deal_effect
    (w : World) (actor_key target_key : string) (a t : Country.Country)
    (r : DiplomaticRelation) (player : bool) (improvement : Q) :
  countries w !! actor_key = Some a ->
  countries w !! target_key = Some t ->
  actor_key <> target_key ->
  get_relation (Country.name a) (Country.name t) (diplomacy w) = Some r ->
  let benefit :=
    Py.min (Economy.gdp (Country.economy a))
      (Economy.gdp (Country.economy t)) * 0.02 in
  let result :=
    perform_diplomatic_action actor_key target_key TRADE_DEAL player
      improvement w in
  (relation_value r <= 20 \/ at_war r = true ->
   result
   = Some (false, "Trade deal rejected - insufficient relations"%string, w))
  /\ (20 < relation_value r -> at_war r = false ->
      exists w',
        result
        = Some (true,
                Country.name a +:+ " signs trade deal with "
                +:+ Country.name t, w')
        /\ get_relation (Country.name a) (Country.name t) (diplomacy w')
           = Some (with_trade_deal true r)
        /\ countries w' !! actor_key = Some (add_gdp benefit a)
        /\ countries w' !! target_key = Some (add_gdp benefit t)
        /\ Economy.gdp (Country.economy (add_gdp benefit a))
           = Economy.gdp (Country.economy a) + benefit
        /\ Economy.gdp (Country.economy (add_gdp benefit t))
           = Economy.gdp (Country.economy t) + benefit
        /\ (forall k, k <> actor_key -> k <> target_key ->
                      countries w' !! k = countries w !! k)).
Proof.
  intros Ha Ht Hne Hr benefit result. subst result.
  rewrite (perform_unfold w actor_key target_key a t r TRADE_DEAL player
             improvement Ha Ht Hr).
  unfold apply_action. split.
  - intros Hfail.
    assert (E : Py.ltb 20 (relation_value r) && negb (at_war r) = false).
    { destruct Hfail as [Hle | Hwar].
      - apply ltb_ge in Hle. rewrite Hle. reflexivity.
      - rewrite Hwar. apply andb_false_r. }
    rewrite E. reflexivity.
  - intros Hlt Hwar. apply ltb_lt in Hlt. rewrite Hlt, Hwar. cbn [negb andb].
    eexists. split; [reflexivity|].
    split; [world_rewrite; rewrite Hr; reflexivity|].
    split; [world_rewrite; rewrite Ha; reflexivity|].
    split; [world_rewrite; rewrite Ht; reflexivity|].
    split; [reflexivity|]. split; [reflexivity|].
    intros k Hka Hkt. world_rewrite; reflexivity.
Qed.

Lemma trade_deal_effect_witness :
  exists w',
    perform_diplomatic_action "Astraland" "Bellaria" TRADE_DEAL true 0
      (sample_world 25 false false)
    = Some (true, "Astraland signs trade deal with Bellaria"%string, w')
    /\ get_relation "Astraland" "Bellaria" (diplomacy w')
       = Some (with_trade_deal true (sample_relation 25 false false))
    /\ countries w' !! "Bellaria"%string
       = Some (add_gdp (Py.min 1000000 400000 * 0.02)
                 (sample_country "Bellaria" 400000)).
Proof.
  destruct (trade_deal_effect (sample_world 25 false false)
              "Astraland" "Bellaria" (sample_country "Astraland" 1000000)
              (sample_country "Bellaria" 400000)
              (sample_relation 25 false false) true 0
              eq_refl eq_refl ltac:(discriminate) eq_refl) as [_ H].
  destruct (H eq_refl eq_refl) as (w' & Hp & Hr & _ & Ht & _).
  exists w'. repeat split; assumption.
Defined.

(** X19. An alliance between two countries that have a relation
    is formed exactly when the relation value exceeds 50 and there is no
    war. It sets the alliance flag, which the following update of the
    relation value by 10 cannot clear, and stores the old value plus 10
    clamped to [[-100, 100]]; no country changes. A rejected alliance
    changes nothing. *)
Theorem alliance_effect
    (w : World) (actor_key target_key : string) (a t : Country.Country)
    (r : DiplomaticRelation) (player : bool) (improvement : Q) :
  countries w !! actor_key = Some a ->
  countries w !! target_key = Some t ->
  get_relation (Country.name a) (Country.name t) (diplomacy w) = Some r ->
  let result :=
    perform_diplomatic_action actor_key target_key ALLIANCE player
      improvement w in
  (relation_value r <= 50 \/ at_war r = true ->
   result = Some (false, "Alliance rejected - insufficient relations"%string,
                  w))
  /\ (50 < relation_value r -> at_war r = false ->
      exists w' r',
        result
        = Some (true,
                Country.name a +:+ " forms alliance with "
                +:+ Country.name t, w')
        /\ get_relation (Country.name a) (Country.name t) (diplomacy w')
           = Some r'
        /\ alliance r' = true /\ at_war r' = false
        /\ trade_deal r' = trade_deal r
        /\ relation_value r' = clamp_relation (relation_value r + 10)
        /\ 60 < relation_value r'
        /\ countries w' = countries w).
Proof.
  intros Ha Ht Hr result. subst result.
  rewrite (perform_unfold w actor_key target_key a t r ALLIANCE player
             improvement Ha Ht Hr).
  unfold apply_action. split.
  - intros Hfail.
    assert (E : Py.ltb 50 (relation_value r) && negb (at_war r) = false).
    { destruct Hfail as [Hle | Hwar].
      - apply ltb_ge in Hle. rewrite Hle. reflexivity.
      - rewrite Hwar. apply andb_false_r. }
    rewrite E. reflexivity.
  - intros Hlt Hwar. assert (Hlt' := Hlt).
    apply ltb_lt in Hlt'. rewrite Hlt', Hwar. cbn [negb andb].
    destruct (update_relation_fields 10 (with_alliance true r))
      as (Hv & Hal & Htd & Hw & _).
    cbn [relation_value alliance trade_deal at_war with_alliance]
      in Hv, Hal, Htd, Hw.
    assert (Hbig : 60 < clamp_relation (relation_value r + 10)).
    { unfold clamp_relation, Py.max, Py.min. py_compare; lra. }
    eexists. eexists. split; [reflexivity|].
    split; [world_rewrite; rewrite Hr; reflexivity|].
    split.
    { rewrite Hal.
      assert (E : Py.ltb (clamp_relation (relation_value r + 10)) (-80)
                  = false) by (apply ltb_ge; lra).
      rewrite E. reflexivity. }
    split; [rewrite Hw; exact Hwar|].
    split.
    { rewrite Htd.
      assert (E : Py.ltb (clamp_relation (relation_value r + 10)) (-90)
                  = false) by (apply ltb_ge; lra).
      rewrite E. reflexivity. }
    split; [exact Hv|]. split; [rewrite Hv; exact Hbig|]. reflexivity.
Qed.

Lemma alliance_effect_witness :
  exists w' r',
    perform_diplomatic_action "Astraland" "Bellaria" ALLIANCE true 0
      (sample_world 55 false false)
    = Some (true, "Astraland forms alliance with Bellaria"%string, w')
    /\ get_relation "Astraland" "Bellaria" (diplomacy w') = Some r'
    /\ alliance r' = true
    /\ relation_value r' = clamp_relation (55 + 10).
Proof.
  destruct (alliance_effect (sample_world 55 false false)
              "Astraland" "Bellaria" (sample_country "Astraland" 1000000)
              (sample_country "Bellaria" 400000)
              (sample_relation 55 false false) true 0
              eq_refl eq_refl eq_refl) as [_ H].
  destruct (H eq_refl eq_refl) as (w' & r' & Hp & Hr & Hal & _ & _ & Hv & _).
  exists w', r'. repeat split; assumption.
Defined.

(** X20. A peace treaty between two distinct countries that have a
    relation is signed exactly when the relation is at war. It ends the
    war, stores the old relation value plus 20 clamped to [[-100, 100]]
    and lowers both military shares by 0.05, but not below 0.05; without
    a war the call fails and changes nothing. *)
Theorem peace_treaty_effect
    (w : World) (actor_key target_key : string) (a t : Country.Country)
    (r : DiplomaticRelation) (player : bool) (improvement : Q) :
  countries w !! actor_key = Some a ->
  countries w !! target_key = Some t ->
  actor_key <> target_key ->
  get_relation (Country.name a) (Country.name t) (diplomacy w) = Some r ->
  let result :=
    perform_diplomatic_action actor_key target_key PEACE_TREATY player
      improvement w in
  (at_war r = false ->
   result = Some (false, "No active war to end"%string, w))
  /\ (at_war r = true ->
      exists w' r',
        result
        = Some (true,
                Country.name a +:+ " signs peace treaty with "
                +:+ Country.name t, w')
        /\ get_relation (Country.name a) (Country.name t) (diplomacy w')
           = Some r'
        /\ r' = update_relation 20 (with_at_war false r)
        /\ at_war r' = false
        /\ relation_value r' = clamp_relation (relation_value r + 20)
        /\ countries w' !! actor_key = Some (cut_military 0.05 a)
        /\ countries w' !! target_key = Some (cut_military 0.05 t)
        /\ 0.05 <= Economy.military_spending
                     (Country.economy (cut_military 0.05 a))
        /\ 0.05 <= Economy.military_spending
                     (Country.economy (cut_military 0.05 t))
        /\ (forall k, k <> actor_key -> k <> target_key ->
                      countries w' !! k = countries w !! k)).
Proof.
  intros Ha Ht Hne Hr result. subst result.
  rewrite (perform_unfold w actor_key target_key a t r PEACE_TREATY player
             improvement Ha Ht Hr).
  unfold apply_action. split; intros Hwar; rewrite Hwar; [reflexivity|].
  destruct (update_relation_fields 20 (with_at_war false r))
    as (Hv & _ & _ & Hw & _).
  cbn [relation_value at_war with_at_war] in Hv, Hw.
  eexists. eexists. split; [reflexivity|].
  split; [world_rewrite; rewrite Hr; reflexivity|].
  split; [reflexivity|]. split; [exact Hw|]. split; [exact Hv|].
  split; [world_rewrite; rewrite Ha; reflexivity|].
  split; [world_rewrite; rewrite Ht; reflexivity|].
  split; [apply max_lower|]. split; [apply max_lower|].
  intros k Hka Hkt. world_rewrite; reflexivity.
Qed.

Lemma peace_treaty_effect_witness :
  exists w' r',
    perform_diplomatic_action "Astraland" "Bellaria" PEACE_TREATY true 0
      (sample_world (-50) false true)
    = Some (true, "Astraland signs peace treaty with Bellaria"%string, w')
    /\ get_relation "Astraland" "Bellaria" (diplomacy w') = Some r'
    /\ at_war r' = false
    /\ relation_value r' = clamp_relation (-50 + 20).
Proof.
  destruct (peace_treaty_effect (sample_world (-50) false true)
              "Astraland" "Bellaria" (sample_country "Astraland" 1000000)
              (sample_country "Bellaria" 400000)
              (sample_relation (-50) false true) true 0
              eq_refl eq_refl ltac:(discriminate) eq_refl) as [_ H].
  destruct (H eq_refl) as (w' & r' & Hp & Hr & _ & Hw & Hv & _).
  exists w', r'. repeat split; assumption.
Defined.

(** [economy.gdp *= 0.98] and [population.happiness -= 5] on a country
    object. *)
Definition sanctioned (c : Country.Country) : Country.Country :=
  Country.modify_population
    (fun p => Population.with_happiness (Population.happiness p - 5) p)
    (Country.modify_economy
       (fun e => Economy.with_gdp (Economy.gdp e * 0.98) e) c).

(** X21. Sanctions between two distinct countries that have a relation
    are imposed exactly when the relation is no alliance and its value
    is negative. They set the sanctions flag, end a trade deal, store
    the old value minus 10 clamped to [[-100, 100]], take 2% of the
    target's GDP and 5 points of its happiness, and leave the actor as
    it is; otherwise the call fails and changes nothing. *)
Theorem sanctions_effect
    (w : World) (actor_key target_key : string) (a t : Country.Country)
    (r : DiplomaticRelation) (player : bool) (improvement : Q) :
  countries w !! actor_key = Some a ->
  countries w !! target_key = Some t ->
  actor_key <> target_key ->
  get_relation (Country.name a) (Country.name t) (diplomacy w) = Some r ->
  let result :=
    perform_diplomatic_action actor_key target_key SANCTIONS player
      improvement w in
  (alliance r = true \/ 0 <= relation_value r ->
   result = Some (false, "Cannot impose sanctions"%string, w))
  /\ (alliance r = false -> relation_value r < 0 ->
      exists w' r',
        result
        = Some (true,
                Country.name a +:+ " imposes sanctions on "
                +:+ Country.name t, w')
        /\ get_relation (Country.name a) (Country.name t) (diplomacy w')
           = Some r'
        /\ sanctions r' = true /\ trade_deal r' = false
        /\ alliance r' = false /\ at_war r' = at_war r
        /\ relation_value r' = clamp_relation (relation_value r - 10)
        /\ countries w' !! actor_key = Some a
        /\ countries w' !! target_key = Some (sanctioned t)
        /\ Economy.gdp (Country.economy (sanctioned t))
           = Economy.gdp (Country.economy t) * 0.98
        /\ Population.happiness (Country.population (sanctioned t))
           = Population.happiness (Country.population t) - 5
        /\ (forall k, k <> target_key ->
                      countries w' !! k = countries w !! k)).
Proof.
  intros Ha Ht Hne Hr result. subst result.
  rewrite (perform_unfold w actor_key target_key a t r SANCTIONS player
             improvement Ha Ht Hr).
  unfold apply_action. split.
  - intros Hfail.
    assert (E : negb (alliance r) && Py.ltb (relation_value r) 0 = false).
    { destruct Hfail as [Hal | Hge].
      - rewrite Hal. reflexivity.
      - apply ltb_ge in Hge. rewrite Hge. apply andb_false_r. }
    rewrite E. reflexivity.
  - intros Hal Hlt. apply ltb_lt in Hlt. rewrite Hal, Hlt. cbn [negb andb].
    destruct (update_relation_fields (-10)
                (with_trade_deal false (with_sanctions true r)))
      as (Hv & Hall & Htd & Hw & Hs & _).
    cbn [relation_value alliance trade_deal at_war sanctions
         with_trade_deal with_sanctions] in Hv, Hall, Htd, Hw, Hs.
    eexists. eexists. split; [reflexivity|].
    split; [world_rewrite; rewrite Hr; reflexivity|].
    split; [exact Hs|].
    split; [rewrite Htd; apply if_same|].
    split; [rewrite Hall, Hal; apply if_same|].
    split; [exact Hw|]. split; [exact Hv|].
    split; [world_rewrite; rewrite Ha; reflexivity|].
    split; [world_rewrite; rewrite Ht; reflexivity|].
    split; [reflexivity|]. split; [reflexivity|].
    intros k Hkt. world_rewrite; reflexivity.
Qed.

Lemma sanctions_effect_witness :
  exists w' r',
    perform_diplomatic_action "Astraland" "Bellaria" SANCTIONS true 0
      (sample_world (-20) false false)
    = Some (true, "Astraland imposes sanctions on Bellaria"%string, w')
    /\ get_relation "Astraland" "Bellaria" (diplomacy w') = Some r'
    /\ sanctions r' = true
    /\ countries w' !! "Bellaria"%string
       = Some (sanctioned (sample_country "Bellaria" 400000)).
Proof.
  destruct (sanctions_effect (sample_world (-20) false false)
              "Astraland" "Bellaria" (sample_country "Astraland" 1000000)
              (sample_country "Bellaria" 400000)
              (sample_relation (-20) false false) true 0
              eq_refl eq_refl ltac:(discriminate) eq_refl) as [_ H].
  destruct (H eq_refl eq_refl)
    as (w' & r' & Hp & Hr & Hs & _ & _ & _ & _ & _ & Ht & _).
  exists w', r'. repeat split; assumption.
Defined.

(** X22. Improving relations always succeeds between two countries that
    have a relation: the relation value becomes the old value plus the
    drawn improvement, clamped to [[-100, 100]], and no country changes.
    Worsening relations is an action without a branch: it always fails,
    with an empty message, and changes nothing. Between countries
    without a relation every action fails and changes nothing. *)
Theorem improve_and_worsen_relations
    (w : World) (actor_key target_key : string) (a t : Country.Country)
    (player : bool) (improvement : Q) :
  countries w !! actor_key = Some a ->
  countries w !! target_key = Some t ->
  (forall r,
     get_relation (Country.name a) (Country.name t) (diplomacy w) = Some r ->
     (exists w' r',
        perform_diplomatic_action actor_key target_key IMPROVE_RELATIONS
          player improvement w
        = Some (true,
                Country.name a +:+ " improves relations with "
                +:+ Country.name t, w')
        /\ get_relation (Country.name a) (Country.name t) (diplomacy w')
           = Some r'
        /\ r' = update_relation improvement r
        /\ relation_value r'
           = clamp_relation (relation_value r + improvement)
        /\ countries w' = countries w)
     /\ perform_diplomatic_action actor_key target_key WORSEN_RELATIONS
          player improvement w
        = Some (false, EmptyString, w))
  /\ (get_relation (Country.name a) (Country.name t) (diplomacy w) = None ->
      forall act,
        perform_diplomatic_action actor_key target_key act player
          improvement w
        = Some (false, "No diplomatic relation exists"%string, w)).
Proof.
  intros Ha Ht. split.
  - intros r Hr. split.
    + rewrite (perform_unfold w actor_key target_key a t r IMPROVE_RELATIONS
                 player improvement Ha Ht Hr).
      unfold apply_action.
      destruct (update_relation_fields improvement r) as (Hv & _).
      eexists. eexists. split; [reflexivity|].
      split; [world_rewrite; rewrite Hr; reflexivity|].
      split; [reflexivity|]. split; [exact Hv | reflexivity].
    + rewrite (perform_unfold w actor_key target_key a t r WORSEN_RELATIONS
                 player improvement Ha Ht Hr).
      reflexivity.
  - intros Hnone act. unfold perform_diplomatic_action.
    rewrite Ha, Ht. cbn [mbind option_bind]. rewrite Hnone. reflexivity.
Qed.

Lemma improve_and_worsen_relations_witness :
  perform_diplomatic_action "Astraland" "Bellaria" WORSEN_RELATIONS true 7
    (sample_world 10 false false)
  = Some (false, EmptyString, sample_world 10 false false).
Proof.
  destruct (improve_and_worsen_relations (sample_world 10 false false)
              "Astraland" "Bellaria" (sample_country "Astraland" 1000000)
              (sample_country "Bellaria" 400000) true 7 eq_refl eq_refl)
    as [H _].
  exact (proj2 (H (sample_relation 10 false false) eq_refl)).
Defined.

(** The war attrition of one pass of [resolve_wars] on a country
    object. *)
Definition worn (c : Country.Country) : Country.Country :=
  Country.modify_government
    (fun g => Government.with_stability (Government.stability g - 0.1) g)
    (Country.modify_population
       (fun p => Population.with_happiness (Population.happiness p - 0.1) p)
       (Country.modify_economy
          (fun e => Economy.with_gdp (Economy.gdp e * 0.999) e) c)).

(** The settlement at the end of a war on a country object: the GDP is
    multiplied by [factor] and the military share cut by 0.03. *)
Definition settled (factor : Q) (c : Country.Country) : Country.Country :=
  cut_military 0.03
    (Country.modify_economy
       (fun e => Economy.with_gdp (Economy.gdp e * factor) e) c).

(** [military_strength * (government.stability / 100)]. *)
Definition war_strength (c : Country.Country) : Q :=
  Country.military_strength c
  * (Government.stability (Country.government c) / 100).

(** X23. One pass of [resolve_wars] over a relation at war between two
    distinct stored countries. Both countries lose 0.1% of their GDP and
    0.1 points of happiness and of stability. When the draw is at least
    0.01 nothing else happens and the war goes on. Otherwise the war
    ends: the first country of the relation wins exactly when its
    strength, taken before the attrition, is strictly greater, so that a
    tie goes to the second; the winner gains 5% of GDP, the loser loses
    5%, and both military shares are cut by 0.03 but not below 0.05. *)
Theorem resolve_war_effects
    (w : World) (key : string * string) (r : DiplomaticRelation)
    (c1 c2 : Country.Country) (draw : Q) :
  relations_get key (relations (diplomacy w)) = Some r ->
  at_war r = true ->
  countries w !! country1 r = Some c1 ->
  countries w !! country2 r = Some c2 ->
  country1 r <> country2 r ->
  (0.01 <= draw ->
   exists w',
     resolve_war key draw w = Some w'
     /\ diplomacy w' = diplomacy w
     /\ countries w' !! country1 r = Some (worn c1)
     /\ countries w' !! country2 r = Some (worn c2)
     /\ (forall k, k <> country1 r -> k <> country2 r ->
                   countries w' !! k = countries w !! k))
  /\ (draw < 0.01 ->
      exists w',
        resolve_war key draw w = Some w'
        /\ relations_get key (relations (diplomacy w'))
           = Some (with_at_war false r)
        /\ (war_strength c2 < war_strength c1 ->
            countries w' !! country1 r = Some (settled 1.05 (worn c1))
            /\ countries w' !! country2 r = Some (settled 0.95 (worn c2)))
        /\ (war_strength c1 <= war_strength c2 ->
            countries w' !! country1 r = Some (settled 0.95 (worn c1))
            /\ countries w' !! country2 r = Some (settled 1.05 (worn c2)))
        /\ (forall k, k <> country1 r -> k <> country2 r ->
                      countries w' !! k = countries w !! k))
  /\ (forall factor c,
        0.05 <= Economy.military_spending
                  (Country.economy (settled factor c))).
Proof.
  intros Hr Hwar H1 H2 Hne.
  unfold resolve_war. rewrite Hr. cbn [mbind option_bind]. rewrite Hwar.
  rewrite H1, H2. cbn [mbind option_bind]. cbv zeta.
  fold (war_strength c1). fold (war_strength c2).
  split; [|split].
  - intros Hd. apply ltb_ge in Hd. rewrite Hd.
    eexists. split; [reflexivity|]. split; [reflexivity|].
    split; [world_rewrite; rewrite H1; reflexivity|].
    split; [world_rewrite; rewrite H2; reflexivity|].
    intros k Hk1 Hk2. world_rewrite; reflexivity.
  - intros Hd. apply ltb_lt in Hd. rewrite Hd.
    eexists. split; [reflexivity|].
    split.
    { destruct (Py.ltb (war_strength c2) (war_strength c1));
        [rewrite decide_True by reflexivity
        |rewrite decide_False by congruence];
        cbn [diplomacy relations modify_economy modify_population
             modify_government modify_country modify_relation];
        rewrite relations_get_modify_eq, Hr; reflexivity. }
    split.
    { intros Hs. apply ltb_lt in Hs. rewrite Hs.
      rewrite decide_True by reflexivity.
      split; world_rewrite; first [rewrite H1 | rewrite H2]; reflexivity. }
    split.
    { intros Hs. apply ltb_ge in Hs. rewrite Hs.
      rewrite decide_False by congruence.
      split; world_rewrite; first [rewrite H1 | rewrite H2]; reflexivity. }
    intros k Hk1 Hk2.
    destruct (Py.ltb (war_strength c2) (war_strength c1));
      [rewrite decide_True by reflexivity
      |rewrite decide_False by congruence];
      world_rewrite; reflexivity.
  - intros factor c. apply max_lower.
Qed.

Lemma resolve_war_effects_witness :
  exists w',
    resolve_war ("Astraland", "Bellaria")%string 0.5
      (sample_world (-90) false true) = Some w'
    /\ diplomacy w' = diplomacy (sample_world (-90) false true)
    /\ countries w' !! "Astraland"%string
       = Some (worn (sample_country "Astraland" 1000000))
    /\ countries w' !! "Bellaria"%string
       = Some (worn (sample_country "Bellaria" 400000)).
Proof.
  destruct (resolve_war_effects (sample_world (-90) false true)
              ("Astraland", "Bellaria")%string
              (sample_relation (-90) false true)
              (sample_country "Astraland" 1000000)
              (sample_country "Bellaria" 400000) 0.5
              eq_refl eq_refl eq_refl eq_refl ltac:(discriminate))
    as [H _].
  destruct (H ltac:(lra)) as (w' & Hw & Hd & Hc1 & Hc2 & _).
  exists w'. repeat split; assumption.
Defined.

Lemma relations_get_member (k : string * string) (r : DiplomaticRelation)
    (rs : list (string * string * DiplomaticRelation)) :
  (k, r) ∈ rs ->
  exists r', relations_get k rs = Some r' /\ (k, r') ∈ rs.
Proof.
  unfold relations_get. induction rs as [|[k0 r0] rest IH]; intros Hin.
  - apply elem_of_nil in Hin. contradiction.
  - cbn [find fst]. destruct (bool_decide_reflect (k0 = k)) as [->|Hk].
    + exists r0. split; [reflexivity | left].
    + apply elem_of_cons in Hin. destruct Hin as [[= -> ->] | Hin];
        [contradiction|].
      destruct (IH Hin) as (r' & Hget & Hmem).
      exists r'. split; [exact Hget | right; exact Hmem].
Qed.

Lemma resolve_wars_fold (draws : nat -> Q) (w : World)
    (l : list (nat * (string * string))) :
  (forall ik, ik ∈ l -> resolve_war (snd ik) (draws (fst ik)) w = Some w) ->
  foldl (fun ow ik => w ← ow; resolve_war (snd ik) (draws (fst ik)) w)
    (Some w) l = Some w.
Proof.
  induction l as [|ik rest IH]; intros H; [reflexivity|].
  cbn [foldl mbind option_bind]. rewrite (H ik) by left.
  apply IH. intros ik' Hin. apply H. right. exact Hin.
Qed.

(** X24. In a world without a war, [resolve_wars] changes nothing,
    whatever the draws. *)
Theorem resolve_wars_without_war (draws : nat -> Q) (w : World) :
  (forall kr, kr ∈ relations (diplomacy w) -> at_war (snd kr) = false) ->
  resolve_wars draws w = Some w.
Proof.
  intros Hpeace. unfold resolve_wars. apply resolve_wars_fold.
  intros [i k] Hin. cbn [fst snd].
  apply list_elem_of_lookup in Hin. destruct Hin as [j Hj].
  rewrite list_lookup_imap in Hj.
  destruct (relations (diplomacy w) !! j) as [[k0 r0]|] eqn:Ej;
    [|discriminate].
  cbn in Hj. injection Hj as <- <-.
  assert (Hmem : (k0, r0) ∈ relations (diplomacy w))
    by (apply list_elem_of_lookup; exists j; exact Ej).
  destruct (relations_get_member k0 r0 _ Hmem) as (r' & Hget & Hmem').
  unfold resolve_war. rewrite Hget. cbn [mbind option_bind].
  assert (Hp := Hpeace (k0, r') Hmem'). cbn [snd] in Hp. rewrite Hp.
  reflexivity.
Qed.

Lemma resolve_wars_without_war_witness :
  resolve_wars (fun _ => 0) (sample_world 10 false false)
  = Some (sample_world 10 false false).
Proof.
  apply (resolve_wars_without_war (fun _ => 0)
           (sample_world 10 false false)).
  intros kr Hin. cbn in Hin. apply list_elem_of_singleton in Hin.
  rewrite Hin. reflexivity.
Defined.

End DiplomacyExtras.

(** ** Country: the event log, the cooldowns and the AI policy *)

Section CountryExtras.

Import Country.
Local Open Scope Q_scope.

(** The cooldowns after [clean_old_events]. *)
Lemma clean_old_events_cooldown (c : Country) (e : string) (v : Z) :
  event_cooldown (clean_old_events c) !! e = Some v
  <-> event_cooldown c !! e = Some (v + 1)%Z /\ (1 <= v)%Z.
Proof.
  unfold clean_old_events. cbv zeta.
  assert (E : forall c', event_cooldown
                (if (10 <? length (recent_events c'))%nat
                 then with_recent_events
                        (drop (length (recent_events c') - 10)
                           (recent_events c')) c'
                 else c') = event_cooldown c').
  { intros c'. destruct (10 <? length (recent_events c'))%nat; reflexivity. }
  rewrite E. cbn [event_cooldown with_event_cooldown].
  rewrite lookup_omap.
  destruct (event_cooldown c !! e) as [v0|]; cbn [mbind option_bind].
  - destruct (Z.leb_spec (v0 - 1) 0); split.
    + discriminate.
    + intros [[= ->] Hv]. lia.
    + intros [= <-]. split; [f_equal; lia | lia].
    + intros [[= ->] Hv]. f_equal. lia.
  - split; [discriminate | intros [H _]; discriminate].
Qed.

(** The event log after [clean_old_events]. *)
Lemma clean_old_events_log (c : Country) :
  (length (recent_events (clean_old_events c)) <= 10)%nat
  /\ (exists dropped,
        recent_events c = dropped ++ recent_events (clean_old_events c))
  /\ ((length (recent_events c) <= 10)%nat ->
      recent_events (clean_old_events c) = recent_events c).
Proof.
  unfold clean_old_events. cbv zeta.
  cbn [recent_events with_event_cooldown].
  destruct (Nat.ltb_spec 10 (length (recent_events c))) as [Hlong|Hshort].
  - cbn [recent_events with_recent_events with_event_cooldown].
    split; [rewrite length_drop; lia|].
    split; [exists (take (length (recent_events c) - 10) (recent_events c));
            symmetry; apply take_drop|].
    lia.
  - cbn [recent_events with_event_cooldown].
    split; [exact Hshort|]. split; [exists []; reflexivity|]. reflexivity.
Qed.

(** [clean_old_events] writes to the log and the cooldowns only. *)
Lemma clean_old_events_frame (c : Country) :
  economy (clean_old_events c) = economy c
  /\ population (clean_old_events c) = population c
  /\ government (clean_old_events c) = government c
  /\ name (clean_old_events c) = name c
  /\ natural_resources (clean_old_events c) = natural_resources c.
Proof.
  unfold clean_old_events. cbv zeta.
  destruct (10 <? _)%nat; repeat split.
Qed.

(** The entries that [clean_old_events] keeps are the last ten. *)
Lemma clean_old_events_last_ten (c : Country) :
  recent_events (clean_old_events c)
  = drop (length (recent_events c) - 10) (recent_events c).
Proof.
  unfold clean_old_events. cbv zeta.
  cbn [recent_events with_event_cooldown].
  destruct (Nat.ltb_spec 10 (length (recent_events c))) as [Hlong|Hshort].
  - reflexivity.
  - cbn [recent_events with_event_cooldown].
    replace (length (recent_events c) - 10)%nat with 0%nat by lia.
    reflexivity.
Qed.

(** Putting the old log and the old cooldowns back undoes
    [clean_old_events]: it writes to nothing else. *)
Lemma clean_old_events_restore (c : Country) :
  with_recent_events (recent_events c)
    (with_event_cooldown (event_cooldown c) (clean_old_events c)) = c.
Proof.
  unfold clean_old_events. cbv zeta.
  destruct c; cbn [recent_events with_event_cooldown event_cooldown].
  destruct (10 <? _)%nat; reflexivity.
Qed.

(** X25. [clean_old_events] keeps exactly the last ten entries of the
    event log, in their order, and the whole log when it has at most
    ten. Every cooldown is decreased by one, and an event stays on
    cooldown exactly when more than one update was left, so that every
    cooldown that remains is at least 1. Nothing else changes: putting
    the old log and the old cooldowns back gives the country as it
    was. *)
Theorem clean_old_events_effects (c : Country) :
  recent_events (clean_old_events c)
  = drop (length (recent_events c) - 10) (recent_events c)
  /\ length (recent_events (clean_old_events c))
     = Nat.min 10 (length (recent_events c))
  /\ (length (recent_events (clean_old_events c)) <= 10)%nat
  /\ (exists dropped,
        recent_events c = dropped ++ recent_events (clean_old_events c))
  /\ ((length (recent_events c) <= 10)%nat ->
      recent_events (clean_old_events c) = recent_events c)
  /\ (forall e v,
        event_cooldown (clean_old_events c) !! e = Some v
        <-> event_cooldown c !! e = Some (v + 1)%Z /\ (1 <= v)%Z)
  /\ economy (clean_old_events c) = economy c
  /\ population (clean_old_events c) = population c
  /\ government (clean_old_events c) = government c
  /\ with_recent_events (recent_events c)
       (with_event_cooldown (event_cooldown c) (clean_old_events c)) = c.
Proof.
  destruct (clean_old_events_log c) as (Hlen & Hdrop & Hshort).
  destruct (clean_old_events_frame c) as (He & Hp & Hg & _).
  split; [apply clean_old_events_last_ten|].
  split; [rewrite clean_old_events_last_ten, length_drop; lia|].
  repeat (split; [assumption|]).
  split; [intros e v; apply clean_old_events_cooldown|].
  repeat (split; [assumption|]).
  apply clean_old_events_restore.
Qed.

(** [record_event] appends at most one entry. *)
Lemma record_event_log (description : string) (c : Country) :
  event_cooldown (record_event description c) = event_cooldown c
  /\ name (record_event description c) = name c
  /\ (recent_events (record_event description c) = recent_events c
      \/ recent_events (record_event description c)
         = recent_events c ++ [description]).
Proof.
  unfold record_event. destruct (String.eqb description EmptyString);
    cbn; auto.
Qed.

(** An event leaves the cooldowns and the name alone and appends at
    most one entry to the log. *)
Lemma handle_event_frame (event_type : string) (d : UpdateDraws)
    (c c' : Country) :
  handle_event event_type d c = Some c' ->
  event_cooldown c' = event_cooldown c
  /\ name c' = name c
  /\ (recent_events c' = recent_events c
      \/ exists description,
           recent_events c' = recent_events c ++ [description]).
Proof.
  unfold handle_event.
  repeat match goal with
  | |- context [if String.eqb ?a ?b then _ else _] =>
      destruct (String.eqb a b)
  | |- context [if Py.ltb ?a ?b then _ else _] => destruct (Py.ltb a b)
  end;
  try (intros [= <-];
       match goal with
       | |- context [record_event ?s ?c0] =>
           destruct (record_event_log s c0) as (Hc & Hn & [Hl | Hl]);
           rewrite Hc, Hn, Hl; cbn; eauto
       end).
  destruct (choice (resource_pick d) ["oil"; "minerals"]%string)
    as [resource|]; [|discriminate].
  cbn [mbind option_bind].
  destruct (natural_resources c !! resource) as [amount|]; [|discriminate].
  cbn [mbind option_bind]. intros [= <-].
  match goal with
  | |- context [record_event ?s ?c0] =>
      destruct (record_event_log s c0) as (Hc & Hn & [Hl | Hl]);
      rewrite Hc, Hn, Hl; cbn; eauto
  end.
Qed.

(** X26. [trigger_random_event] never fires an event that is on
    cooldown. When it returns, either every event is on cooldown and the
    country is unchanged, or the event at the drawn index among the
    events that are not on cooldown has been handled by [handle_event],
    and the result is what [handle_event] returned with that event on a
    cooldown of 100 updates: the event is one of the eight possible
    events, was not on cooldown, every other cooldown is as it was, and
    at most one entry has been appended to the event log. *)
Theorem trigger_random_event_respects_cooldown
    (d : UpdateDraws) (c c' : Country) :
  trigger_random_event d c = Some c' ->
  (available_events c = [] /\ c' = c)
  \/ (exists event c1,
        available_events c
          !! (event_pick d mod length (available_events c))%nat
        = Some event
        /\ event ∈ possible_events
        /\ event_cooldown c !! event = None
        /\ handle_event event d c = Some c1
        /\ c' = with_event_cooldown
                  (<[event := 100%Z]> (event_cooldown c)) c1
        /\ event_cooldown c' !! event = Some 100%Z
        /\ (forall other, other <> event ->
              event_cooldown c' !! other = event_cooldown c !! other)
        /\ (length (recent_events c') <= S (length (recent_events c)))%nat).
Proof.
  unfold trigger_random_event.
  destruct (choice (event_pick d) (available_events c)) as [event|] eqn:Ec.
  - destruct (handle_event event d c) as [c1|] eqn:Eh; [|discriminate].
    cbn [mbind option_bind]. intros [= <-]. right. exists event, c1.
    destruct (handle_event_frame event d c c1 Eh) as (Hcool & _ & Hlog).
    unfold choice in Ec. split; [exact Ec|].
    apply list_elem_of_lookup_2 in Ec.
    unfold available_events in Ec. apply list_elem_of_filter in Ec.
    destruct Ec as [Hfree Hposs].
    split; [exact Hposs|]. split; [exact Hfree|].
    split; [exact Eh|].
    rewrite Hcool. split; [reflexivity|].
    cbn [event_cooldown recent_events with_event_cooldown].
    split; [apply lookup_insert_eq|].
    split; [intros other Hne; apply lookup_insert_ne; congruence|].
    destruct Hlog as [-> | [description ->]];
      [|rewrite length_app; simpl]; lia.
  - intros [= <-]. left. split; [|reflexivity].
    unfold choice in Ec. destruct (available_events c) as [|e rest];
      [reflexivity|].
    apply lookup_ge_None in Ec.
    assert (H := Nat.mod_upper_bound (event_pick d) (length (e :: rest))).
    simpl in *. lia.
Qed.

(** Draws under which the event check fails; the event pick 0 selects
    the first available event. *)
Definition quiet_draws : UpdateDraws :=
  {| gdp_noise := 0; corruption_draw := 0; election_noise := fun _ => 0;
     event_check := 0.5; event_pick := 0; resource_pick := 0;
     event_d1 := 0; event_d2 := 0; event_d3 := 0; event_d4 := 0 |}.

(** Astraland after an economic boom has been fired. *)
Definition boom_country : Country :=
  with_event_cooldown (<["economic_boom"%string := 100%Z]> ∅)
    (record_event "Astraland experiences an economic boom!"
       (modify_economy (Economy.trigger_economic_event "boom")
          (sample_country "Astraland" 1000000))).

Lemma boom_run :
  trigger_random_event quiet_draws (sample_country "Astraland" 1000000)
  = Some boom_country.
Proof. vm_compute. reflexivity. Qed.

Lemma trigger_random_event_witness :
  trigger_random_event quiet_draws (sample_country "Astraland" 1000000)
  = Some boom_country
  /\ exists event c1,
       handle_event event quiet_draws (sample_country "Astraland" 1000000)
       = Some c1
       /\ boom_country
          = with_event_cooldown
              (<[event := 100%Z]>
                 (event_cooldown (sample_country "Astraland" 1000000))) c1.
Proof.
  split; [exact boom_run|].
  destruct (trigger_random_event_respects_cooldown _ _ _ boom_run)
    as [[Hnone _] | (event & c1 & _ & _ & _ & Hh & Hc & _)].
  - discriminate Hnone.
  - exists event, c1. split; [exact Hh | exact Hc].
Defined.

(** The last assignment of [update] before the event check makes the
    economy's head count the population's. *)
Lemma sync_population (c : Country) :
  let c1 := modify_economy
              (Economy.with_population (Population.total (population c))) c in
  Economy.population (economy c1) = Population.total (population c1).
Proof. reflexivity. Qed.

(** The steps of [update]: the state [c1] before the event check, the
    state [c2] after it, and the clean-up. *)
Lemma update_steps (d : UpdateDraws) (c c' : Country) :
  update d c = Some c' ->
  exists c1 c2,
    name c1 = name c
    /\ recent_events c1 = recent_events c
    /\ event_cooldown c1 = event_cooldown c
    /\ Economy.population (economy c1) = Population.total (population c1)
    /\ check_random_events d c1 = Some c2
    /\ c' = clean_old_events c2.
Proof.
  unfold update. cbv zeta.
  match goal with
  | |- context [Government.update_government ?a ?b ?x ?y ?g] =>
      destruct (Government.update_government a b x y g) as [g1|];
      [|discriminate]
  end.
  cbn [mbind option_bind].
  match goal with
  | |- context [check_random_events d ?c1] =>
      destruct (check_random_events d c1) as [c2|] eqn:E; [|discriminate];
      intros [= <-]; exists c1, c2
  end.
  split; [reflexivity|]. split; [reflexivity|]. split; [reflexivity|].
  split; [apply sync_population|].
  split; [exact E | reflexivity].
Qed.

(** X27. Whenever [update] returns, the event log has at most ten
    entries, every event that is on cooldown has at least one update
    left, at most one event has been logged, and the name is the same. *)
Theorem update_bounds_log_and_cooldowns (d : UpdateDraws) (c c' : Country) :
  update d c = Some c' ->
  (length (recent_events c') <= 10)%nat
  /\ (forall e v, event_cooldown c' !! e = Some v -> (1 <= v)%Z)
  /\ (exists dropped logged,
        dropped ++ recent_events c' = recent_events c ++ logged
        /\ (length logged <= 1)%nat)
  /\ name c' = name c.
Proof.
  intros Hup.
  destruct (update_steps d c c' Hup)
    as (c1 & c2 & Hn & Hlog & Hcool & _ & Hcheck & ->).
  destruct (clean_old_events_log c2) as (Hlen & (dropped & Hdrop) & _).
  split; [exact Hlen|].
  split; [intros e v Hv; apply clean_old_events_cooldown in Hv; tauto|].
  assert (Hc2 : name c2 = name c1
                /\ exists logged, recent_events c2 = recent_events c1 ++ logged
                                  /\ (length logged <= 1)%nat).
  { unfold check_random_events in Hcheck. cbv zeta in Hcheck.
    destruct (Py.ltb _ _) in Hcheck.
    - unfold trigger_random_event in Hcheck.
      destruct (choice (event_pick d) (available_events c1)) as [event|].
      + destruct (handle_event event d c1) as [c3|] eqn:Eh; [|discriminate].
        cbn [mbind option_bind] in Hcheck. injection Hcheck as <-.
        destruct (handle_event_frame event d c1 c3 Eh)
          as (_ & Hname & Hl).
        cbn [name recent_events with_event_cooldown].
        split; [exact Hname|].
        destruct Hl as [-> | [description ->]].
        * exists []. rewrite app_nil_r. split; [reflexivity | simpl; lia].
        * exists [description]. split; [reflexivity | simpl; lia].
      + injection Hcheck as <-. split; [reflexivity|].
        exists []. rewrite app_nil_r. split; [reflexivity | simpl; lia].
    - injection Hcheck as <-. split; [reflexivity|].
      exists []. rewrite app_nil_r. split; [reflexivity | simpl; lia]. }
  destruct Hc2 as (Hn2 & logged & Hl2 & Hlen2).
  split.
  - exists dropped, logged. rewrite <- Hdrop, Hl2, Hlog.
    split; [reflexivity | exact Hlen2].
  - destruct (clean_old_events_frame c2) as (_ & _ & _ & Hname & _).
    rewrite Hname, Hn2, Hn. reflexivity.
Qed.







(** Astraland with its deposits, and the state that one quiet update
    produces from it. *)
Definition deposit_country : Country :=
  with_natural_resources
    (<["oil"%string := 0.5]> (<["minerals"%string := 0.5]> ∅))
    (sample_country "Astraland" 1000000).

Definition updated_country : Country :=
  default deposit_country (update quiet_draws deposit_country).

Lemma update_run : update quiet_draws deposit_country = Some updated_country.
Proof. vm_compute. reflexivity. Qed.

Lemma update_bounds_log_and_cooldowns_witness :
  update quiet_draws deposit_country = Some updated_country
  /\ (length (recent_events updated_country) <= 10)%nat
  /\ (forall e v,
        event_cooldown updated_country !! e = Some v -> (1 <= v)%Z)
  /\ (exists dropped logged,
        dropped ++ recent_events updated_country
        = recent_events deposit_country ++ logged
        /\ (length logged <= 1)%nat)
  /\ name updated_country = name deposit_country.
Proof.
  split; [exact update_run|].
  exact (update_bounds_log_and_cooldowns _ _ _ update_run).
Defined.





(** [allocate_budget] writes to the spending shares only. *)
Lemma allocate_budget_frame
    (healthcare education military infrastructure welfare : option Q)
    (e : Economy.Economy) :
  Economy.tax_rate
    (Economy.allocate_budget healthcare education military infrastructure
       welfare e) = Economy.tax_rate e
  /\ Economy.gdp
       (Economy.allocate_budget healthcare education military infrastructure
          welfare e) = Economy.gdp e.
Proof.
  unfold Economy.allocate_budget. cbv zeta.
  match goal with
  | |- context [if Py.ltb ?a ?b then _ else _] => destruct (Py.ltb a b)
  end;
  destruct healthcare, education, military, infrastructure, welfare;
  split; reflexivity.
Qed.

(** X29. The AI policy leaves a player's country alone. For any other
    country it writes to the economy and the government only, never to
    the GDP; a tax rate within the bounds stays within them; and the
    government is changed only when the approval is below 30, the
    stability below 40 and the draw below 0.01, and then by
    [change_government_type] to the drawn type. *)
Theorem ai_make_decisions_effects (change_check : Q) (type_pick : nat)
    (penalty : Q) (c : Country) :
  let c' := ai_make_decisions change_check type_pick penalty c in
  (is_player c = true -> c' = c)
  /\ population c' = population c
  /\ name c' = name c
  /\ military_strength c' = military_strength c
  /\ Economy.gdp (economy c') = Economy.gdp (economy c)
  /\ (Constants.MIN_TAX_RATE <= Economy.tax_rate (economy c)
        <= Constants.MAX_TAX_RATE ->
      Constants.MIN_TAX_RATE <= Economy.tax_rate (economy c')
        <= Constants.MAX_TAX_RATE)
  /\ (Country.government c' = Country.government c
      \/ (Population.get_approval_rating (population c) < 30
          /\ Government.stability (Country.government c) < 40
          /\ change_check < 0.01
          /\ exists t,
               choice type_pick Constants.government_type_keys = Some t
               /\ Country.government c'
                  = Government.change_government_type
                      (Constants.key_string t) penalty
                      (Country.government c))).
Proof.
  cbv zeta. unfold ai_make_decisions.
  destruct (is_player c).
  { repeat split; auto; tauto. }
  cbv zeta.
  set (tax := fun c0 : Country =>
         if Py.ltb (Population.get_approval_rating (population c)) 40 then
           modify_economy
             (fun e => Economy.set_tax_rate (Economy.tax_rate e * 0.99) e) c0
         else if Py.ltb (Economy.get_economic_health (economy c)) 40 then
           modify_economy
             (fun e => Economy.set_tax_rate (Economy.tax_rate e * 1.01) e) c0
         else c0).
  change (if Py.ltb (Population.get_approval_rating (population c)) 40
          then _ else _) with (tax c).
  assert (Htax : population (tax c) = population c
                 /\ name (tax c) = name c
                 /\ military_strength (tax c) = military_strength c
                 /\ Country.government (tax c) = Country.government c
                 /\ Economy.gdp (economy (tax c)) = Economy.gdp (economy c)
                 /\ (Constants.MIN_TAX_RATE <= Economy.tax_rate (economy c)
                       <= Constants.MAX_TAX_RATE ->
                     Constants.MIN_TAX_RATE
                       <= Economy.tax_rate (economy (tax c))
                       <= Constants.MAX_TAX_RATE)).
  { unfold tax.
    assert (Hclamp : forall r e,
              Constants.MIN_TAX_RATE
                <= Economy.tax_rate (Economy.set_tax_rate r e)
                <= Constants.MAX_TAX_RATE).
    { intros r e. unfold Economy.set_tax_rate.
      cbn [Economy.tax_rate Economy.with_tax_rate].
      apply clamp_range. unfold Constants.MIN_TAX_RATE, Constants.MAX_TAX_RATE.
      lra. }
    destruct (Py.ltb _ 40); [|destruct (Py.ltb _ 40)];
      cbn [population name military_strength Country.government economy
           modify_economy with_economy Economy.gdp Economy.set_tax_rate
           Economy.with_tax_rate];
      repeat split; auto; try apply Hclamp; tauto. }
  clearbody tax.
  destruct Htax as (Hp1 & Hn1 & Hm1 & Hg1 & Hgdp1 & Htax1).
  set (c1 := tax c) in *. clearbody c1. clear tax.
  rewrite Hp1.
  set (c2 := if Py.ltb (Population.health (population c)) 60
             then modify_economy _ c1 else c1).
  assert (H2 : population c2 = population c
               /\ name c2 = name c
               /\ military_strength c2 = military_strength c
               /\ Country.government c2 = Country.government c
               /\ Economy.gdp (economy c2) = Economy.gdp (economy c)
               /\ Economy.tax_rate (economy c2)
                  = Economy.tax_rate (economy c1)).
  { unfold c2. destruct (Py.ltb _ 60).
    - cbn [population name military_strength Country.government economy
           modify_economy with_economy].
      match goal with
      | |- context [Economy.allocate_budget ?h ?e ?m ?i ?w ?x] =>
          destruct (allocate_budget_frame h e m i w x) as [-> ->]
      end.
      repeat split; assumption.
    - repeat split; assumption. }
  clearbody c2.
  destruct H2 as (Hp2 & Hn2 & Hm2 & Hg2 & Hgdp2 & Htax2).
  rewrite Hp2.
  set (c3 := if Py.ltb (Population.education (population c)) 60
             then modify_economy _ c2 else c2).
  assert (H3 : population c3 = population c
               /\ name c3 = name c
               /\ military_strength c3 = military_strength c
               /\ Country.government c3 = Country.government c
               /\ Economy.gdp (economy c3) = Economy.gdp (economy c)
               /\ Economy.tax_rate (economy c3)
                  = Economy.tax_rate (economy c1)).
  { unfold c3. destruct (Py.ltb _ 60).
    - cbn [population name military_strength Country.government economy
           modify_economy with_economy].
      match goal with
      | |- context [Economy.allocate_budget ?h ?e ?m ?i ?w ?x] =>
          destruct (allocate_budget_frame h e m i w x) as [-> ->]
      end.
      rewrite Htax2. repeat split; assumption.
    - rewrite Htax2. repeat split; assumption. }
  clearbody c3.
  destruct H3 as (Hp3 & Hn3 & Hm3 & Hg3 & Hgdp3 & Htax3).
  rewrite Hg3.
  destruct (Py.ltb (Population.get_approval_rating (population c)) 30)
    eqn:Ea;
    [destruct (Py.ltb (Government.stability (Country.government c)) 40)
       eqn:Es;
     [destruct (Py.ltb change_check 0.01) eqn:Ec;
      [destruct (choice type_pick Constants.government_type_keys)
         as [t|] eqn:Et|]|]|];
    cbn [andb population name military_strength Country.government economy
         modify_government with_government];
    rewrite ?Hp3, ?Hn3, ?Hm3, ?Hgdp3, ?Htax3, ?Hg3;
    (split; [discriminate|]);
    repeat (split; [first [reflexivity | exact Htax1]|]);
    try (left; reflexivity).
  right. apply ltb_lt in Ea, Es, Ec.
  repeat (split; [assumption|]). exists t. split; reflexivity.
Qed.

End CountryExtras.
